(** * nion: the normalized JSON:API cache of service-starter-kit-react

    A shallow embedding of the three Redux reducers of [libs/nion]
    (entity store, reference store, request-status store) and of the
    reference normalizer [makeRef], with the properties of the cache that
    the specification states about them.

    JavaScript objects are finite maps from property names to values
    ([gmap string value]): the own enumerable properties of a plain object,
    whose prototype is [Object.prototype].  The order in which the own keys
    of an object are enumerated is abstracted (the enumeration of
    [map_to_list] stands for it), and no statement below depends on it.  A
    thrown exception is the [Throw] outcome of the [result] monad.  Numbers
    are the integers (ids, counters, timestamps), [NaN] and the two
    infinities.

    Where the code reads or assigns a property whose name it computes
    ([state[type][id]], [memo[dataKey] = ...]), the model follows the
    prototype chain: the names of [Object.prototype] are [inherited], and
    an assignment to ['__proto__'] replaces the prototype instead of
    storing a property ([assigned]).  A property read at a fixed name
    ([ref.entities], [entity.attributes]) is a read of own properties,
    [prop]: none of the names the code spells is defined by a prototype of
    the values modelled.  The members of built-in functions are not
    modelled; an outcome that depends on them is [Throw Unmodelled].

    The entity store and the request-status store are typed by what their
    reducers build from [initialState = {}]: every top-level entry is an
    object literal.  The reference store holds arbitrary values, since a
    generic bootstrap stores its payload verbatim. *)

From Stdlib Require Import Ascii.
From stdpp Require Import gmap strings list fin_maps pretty.

Set Warnings "-register-all".

(** ** JavaScript values and the operators the reducers use *)

Module JS.

Inductive value :=
| VUndef
| VNull
| VBool (b : bool)
| VNum (z : Z)
| VNaN
| VInf (negative : bool)
| VStr (s : string)
| VArr (l : list value)
| VObj (m : gmap string value).

(** [TypeError] and [SyntaxError] are the exceptions the code can throw.
    [Unmodelled] is no exception of the program: it marks an outcome the
    model does not determine (it depends on the members of a built-in
    function of the engine, or it is an object whose prototype the code
    has replaced). *)
Inductive exn := TypeError | SyntaxError | Unmodelled.

Inductive result (A : Type) :=
| Ok (a : A)
| Throw (e : exn).
Global Arguments Ok {A} a.
Global Arguments Throw {A} e.

Global Instance result_ret : MRet result := λ A a, Ok a.
Global Instance result_bind : MBind result := λ A B f r,
  match r with Ok a => f a | Throw e => Throw e end.

(** Left-to-right iteration with an accumulator, stopping at the first
    exception: [for]/[reduce]/[forEach] with a mutable accumulator. *)
Fixpoint foldlM {A B} (f : B → A → result B) (b : B) (l : list A) : result B :=
  match l with
  | [] => Ok b
  | x :: l' => b' ← f b x; foldlM f b' l'
  end.

Fixpoint mapM_result {A B} (f : A → result B) (l : list A) : result (list B) :=
  match l with
  | [] => Ok []
  | x :: l' => y ← f x; ys ← mapM_result f l'; Ok (y :: ys)
  end.

(** [Array.prototype.filter] with a callback that may throw. *)
Fixpoint filterM {A} (p : A → result bool) (l : list A) : result (list A) :=
  match l with
  | [] => Ok []
  | x :: l' => b ← p x; ys ← filterM p l'; Ok (if b : bool then x :: ys else ys)
  end.

(** [ToBoolean]. *)
Definition truthy (v : value) : bool :=
  match v with
  | VUndef | VNull => false
  | VBool b => b
  | VNum z => negb (Z.eqb z 0)
  | VNaN => false
  | VInf _ => true
  | VStr s => negb (String.eqb s "")
  | VArr _ | VObj _ => true
  end.

(** [v == null]: reading a property of such a value throws. *)
Definition nullish (v : value) : bool :=
  match v with VUndef | VNull => true | _ => false end.

Definition is_undef (v : value) : bool :=
  match v with VUndef => true | _ => false end.

(** [===] on primitives; [NaN] equals nothing.  Two objects (or arrays)
    are [===] only when they are the same heap object; the values compared
    by the reducers come from different payloads, so they are never
    identical. *)
Definition strict_eq (a b : value) : bool :=
  match a, b with
  | VUndef, VUndef | VNull, VNull => true
  | VBool x, VBool y => Bool.eqb x y
  | VNum x, VNum y => Z.eqb x y
  | VInf x, VInf y => Bool.eqb x y
  | VStr x, VStr y => String.eqb x y
  | _, _ => false
  end.

(** [ToString], as applied to a computed property key.  An integer is
    written in decimal, as JavaScript writes the integers below [10^21]. *)
Fixpoint to_str (v : value) : string :=
  match v with
  | VUndef => "undefined"
  | VNull => "null"
  | VBool b => if b then "true" else "false"
  | VNum z => pretty z
  | VNaN => "NaN"
  | VInf negative => if negative then "-Infinity" else "Infinity"
  | VStr s => s
  | VArr l =>
      String.concat ","
        (map (λ x, match x with VUndef | VNull => "" | _ => to_str x end) l)
  | VObj _ => "[object Object]"
  end.

Fixpoint chars (s : string) : list value :=
  match s with
  | EmptyString => []
  | String a s' => VStr (String a EmptyString) :: chars s'
  end.

(** The element of [l] at the index written [k] in decimal, if any. *)
Definition at_index (k : string) (l : list value) : value :=
  match list_find (λ i : nat, pretty i = k) (seq 0 (length l)) with
  | Some (_, i) => nth i l VUndef
  | None => VUndef
  end.

(** [v.k] for a [v] that is neither [undefined] nor [null], at a name [k]
    that no prototype defines: the own property, or [undefined]. *)
Definition prop (v : value) (k : string) : value :=
  match v with
  | VObj m => default VUndef (m !! k)
  | VArr l =>
      if String.eqb k "length" then VNum (Z.of_nat (length l)) else at_index k l
  | VStr s =>
      if String.eqb k "length" then VNum (Z.of_nat (String.length s))
      else at_index k (chars s)
  | _ => VUndef
  end.

(** [v.k] and [v[k]]: a [TypeError] on [undefined] and [null]. *)
Definition get_prop (v : value) (k : string) : result value :=
  if nullish v then Throw TypeError else Ok (prop v k).

Definition indexed (l : list value) : gmap string value :=
  list_to_map (zip (pretty <$> seq 0 (length l)) l).

(** The own enumerable properties copied by [{...v}]. *)
Definition spread (v : value) : gmap string value :=
  match v with
  | VObj m => m
  | VArr l => indexed l
  | VStr s => indexed (chars s)
  | _ => ∅
  end.

(** [{...base, ...over}]: the later spread wins, field by field. *)
Definition assign (base over : gmap string value) : gmap string value :=
  over ∪ base.

(** [recv.concat(arg)] for arrays and strings; any other receiver has no
    such method. *)
Definition concat (recv arg : value) : result value :=
  match recv with
  | VArr l => Ok (VArr (l ++ match arg with VArr l' => l' | _ => [arg] end))
  | VStr s => Ok (VStr (s +:+ to_str arg))
  | _ => Throw TypeError
  end.

(** [JSON.parse(JSON.stringify(v))]: JSON has no text for [undefined],
    which is left out of an object and written [null] in an array, and
    writes [NaN] and the infinities as [null]. *)
Fixpoint json_clone (v : value) : value :=
  match v with
  | VArr l =>
      VArr (map (λ x, match x with VUndef => VNull | _ => json_clone x end) l)
  | VObj m =>
      VObj (omap (λ x, match x with
                       | VUndef => None
                       | _ => Some (json_clone x)
                       end) m)
  | VNaN | VInf _ => VNull
  | _ => v
  end.

(** The property names every plain object inherits from
    [Object.prototype]: a read [o[k]] at such a name, when [o] has no own
    property [k], yields a built-in function, or [Object.prototype] itself
    for ['__proto__'].  Neither has an enumerable own property. *)
Definition object_prototype : list string :=
  ["constructor"; "__defineGetter__"; "__defineSetter__"; "hasOwnProperty";
   "__lookupGetter__"; "__lookupSetter__"; "isPrototypeOf";
   "propertyIsEnumerable"; "toString"; "valueOf"; "__proto__";
   "toLocaleString"].

Definition inherited (k : string) : bool :=
  bool_decide (k ∈ object_prototype).

(** The own properties of a plain object after the assignment [o[k] = v],
    [m] being those before it.  An own property is overwritten; a new one
    is created, except for ['__proto__']: without an own property of that
    name the assignment reaches the setter of [Object.prototype], which
    replaces the prototype of [o] when [v] is an object, does nothing
    otherwise, and stores no property. *)
Definition assigned {A} (m : gmap string A) (k : string) (v : A)
  : gmap string A :=
  match m !! k with
  | Some _ => <[k := v]> m
  | None => if String.eqb k "__proto__" then m else <[k := v]> m
  end.

End JS.
Export JS.

(** ** The two lodash functions the reducers import *)

Module Lodash.

Fixpoint has_char (c : Ascii.ascii) (s : string) : bool :=
  match s with
  | EmptyString => false
  | String a s' => Ascii.eqb a c || has_char c s'
  end.

Fixpoint split_on (c : Ascii.ascii) (s : string) : list string :=
  match s with
  | EmptyString => [EmptyString]
  | String a s' =>
      let parts := split_on c s' in
      if Ascii.eqb a c then EmptyString :: parts
      else match parts with
           | p :: ps => String a p :: ps
           | [] => [String a EmptyString]
           end
  end.

(** A path string is "deep" when it has path syntax.  Only the dotted
    syntax is modelled; a bracket makes the string deep as well, and the
    statements about caller-chosen keys below exclude such keys. *)
Definition is_deep_path (p : string) : bool :=
  has_char "."%char p || has_char "["%char p.

Definition has_own (o : value) (k : string) : bool :=
  match o with
  | VObj m => bool_decide (is_Some (m !! k))
  | _ => false
  end.

(** lodash's [isKey(path, object)]: a string is one property name, not a
    path, when it has no path syntax or when [path in Object(object)]
    (lodash: "should get a key over a path"). *)
Definition isKey (p : string) (o : value) : bool :=
  negb (is_deep_path p) || has_own o p.

Definition castPath (p : string) (o : value) : list string :=
  if isKey p o then [p] else split_on "."%char p.

(** lodash's [baseGet] on a cast path: walk while the object is not
    nullish; a walk that stops early yields [undefined].  Each step reads
    an own property: the paths the code spells name nothing a prototype
    defines, and the one call with a computed key, in [merge_fragment],
    only spreads what it finds. *)
Fixpoint baseGet (o : value) (path : list string) : value :=
  match path with
  | [] => o
  | k :: path' => if nullish o then VUndef else baseGet (prop o k) path'
  end.

(** [get(o, p, dflt)]: the default replaces an [undefined] result only. *)
Definition get (o : value) (p : string) (dflt : value) : value :=
  let r := baseGet o (castPath p o) in
  if is_undef r then dflt else r.

(** [get] with a key handed over by [map]: a number is always one key. *)
Definition get_key (o : value) (k : value) (dflt : value) : value :=
  match k with
  | VStr p => get o p dflt
  | _ => let r := baseGet o [to_str k] in if is_undef r then dflt else r
  end.

(** lodash's [isArrayLike] on an object: its [length] is a number between
    0 and [Number.MAX_SAFE_INTEGER]. *)
Definition array_like_length (m : gmap string value) : option nat :=
  match m !! "length" with
  | Some (VNum n) =>
      if Z.leb 0 n && Z.leb n 9007199254740991 then Some (Z.to_nat n) else None
  | _ => None
  end.

(** The [(value, key)] pairs that [map(collection, iteratee)] hands to its
    iteratee, in iteration order. *)
Definition entries (coll : value) : list (value * value) :=
  match coll with
  | VArr l => imap (λ i x, (x, VNum (Z.of_nat i))) l
  | VStr s => imap (λ i x, (x, VNum (Z.of_nat i))) (chars s)
  | VObj m =>
      match array_like_length m with
      | Some n => (λ i : nat, (prop coll (pretty i), VNum (Z.of_nat i))) <$> seq 0 n
      | None => (λ kv : string * value, (kv.2, VStr kv.1)) <$> map_to_list m
      end
  | _ => []
  end.

End Lodash.

(** ** Actions *)

(** The constants of [actions/types]; the reducers only compare them, so
    they are an enumeration.  [OTHER] is any action of another reducer. *)
Inductive action_type :=
| JSON_API_REQUEST
| JSON_API_SUCCESS
| JSON_API_FAILURE
| JSON_API_BOOTSTRAP
| GENERIC_BOOTSTRAP
| INITIALIZE_DATAKEY
| UPDATE_ENTITY
| OTHER (name : string).

Record action := Action {
  atype : action_type;
  meta : value;
  payload : value;
}.

(** An action as the object lodash's [get] walks; its [type] field is never
    on a path the reducers read. *)
Definition action_value (a : action) : value :=
  VObj (<["meta" := meta a]> (<["payload" := payload a]> ∅)).

(** An object literal [{...base, k1: v1, ..., kn: vn}]: the properties are
    defined from left to right. *)
Definition obj_lit (base : gmap string value) (fields : list (string * value))
  : gmap string value :=
  foldl (λ m kv, <[kv.1 := kv.2]> m) base fields.

(** ** The request-status store: [reducers/requests.js] *)

Module Requests.

(** A state maps a data key to its status record; every record the
    reducer writes is an object literal. *)
Definition initialState : gmap string (gmap string value) := ∅.

Definition state_value (state : gmap string (gmap string value)) : value :=
  VObj (VObj <$> state).

(** [Date.now()] is the argument [now]. *)
Definition requestsReducer (now : Z) (state : gmap string (gmap string value))
    (action : action) : result (gmap string (gmap string value)) :=
  let existing := Lodash.get (state_value state) "action.meta.dataKey" VUndef in
  match atype action with
  | JSON_API_REQUEST =>
      dataKey ← get_prop (meta action) "dataKey";
      method ← get_prop (meta action) "method";
      Ok (<[to_str dataKey :=
              obj_lit (spread existing)
                [("status", VStr "pending");
                 ("isLoading", VBool true);
                 ("pending", method)]]> state)
  | JSON_API_SUCCESS =>
      dataKey ← get_prop (meta action) "dataKey";
      Ok (<[to_str dataKey :=
              obj_lit (spread existing)
                [("status", VStr "success");
                 ("fetchedAt", VNum now);
                 ("isError", VBool false);
                 ("isLoaded", VBool true);
                 ("isLoading", VBool false)]]> state)
  | JSON_API_FAILURE =>
      dataKey ← get_prop (meta action) "dataKey";
      name ← get_prop (payload action) "name";
      message ← get_prop (payload action) "message";
      Ok (<[to_str dataKey :=
              obj_lit (spread existing)
                [("status", VStr "error");
                 ("name", name);
                 ("errors", VArr [message]);
                 ("fetchedAt", VNum now);
                 ("isError", VBool true);
                 ("isLoaded", VBool false);
                 ("isLoading", VBool false);
                 ("pending", VUndef)]]> state)
  | _ => Ok state
  end.

(** The store keeps its state when a reducer throws (also when another
    reducer of the combined store does: that event is then as if absent
    from the sequence). *)
Definition dispatch (state : gmap string (gmap string value))
    (ev : Z * action) : gmap string (gmap string value) :=
  match requestsReducer ev.1 state ev.2 with
  | Ok state' => state'
  | Throw _ => state
  end.

Definition run (state : gmap string (gmap string value))
    (events : list (Z * action)) : gmap string (gmap string value) :=
  foldl dispatch state events.

(** No record is both [success] and in error. *)
Definition consistent (state : gmap string (gmap string value)) : Prop :=
  ∀ k r, state !! k = Some r →
    r !! "status" = Some (VStr "success") → r !! "isError" = Some (VBool false).

End Requests.

(** ** The entity store: the [entitiesReducer] module *)

Module Entities.

(** A state maps a resource type to the table of its records by id; the
    reducer only ever stores object literals at the top level. *)
Definition initialState : gmap string (gmap string value) := ∅.

Definition state_value (state : gmap string (gmap string value)) : value :=
  VObj (VObj <$> state).

(** The record assigned to [newState[type][id]]; [old] is the value read
    at [newState[type][id]] before the assignment. *)
Definition merged_record (type id old entity : value) : value :=
  VObj (obj_lit ∅
    [("type", type);
     ("id", id);
     ("attributes",
        VObj (assign (spread (Lodash.get old "attributes" (VObj ∅)))
                     (spread (Lodash.get entity "attributes" (VObj ∅)))));
     ("relationships",
        VObj (assign (spread (Lodash.get old "relationships" (VObj ∅)))
                     (spread (Lodash.get entity "relationships" (VObj ∅)))))]).

(** The inner [map(entities, (entity, id) => ...)]: it updates in place the
    object just stored at [newState[type]], here [table], by the assignment
    [newState[type][id] = {...}].  The record read at [newState[type][id]]
    is the own one: what the read finds on [Object.prototype] instead, a
    built-in without [attributes] and [relationships], adds nothing to the
    record, like [undefined]. *)
Definition merge_entities (type : value) (table : gmap string value)
    (entities : value) : gmap string value :=
  foldl (λ table ev,
           let id := ev.2 in
           assigned table (to_str id)
             (merged_record type id (prop (VObj table) (to_str id)) ev.1))
        table (Lodash.entries entities).

(** The outer [map(storeFragment, (entities, uncamelizedType) => ...)],
    with the assignment [newState[type] = {...get(newState, type, {})}]:
    the spread of a built-in found on [Object.prototype] is empty, like
    that of the default.  For a type ['__proto__'] that the state does not
    own, the new table becomes the prototype of [newState] and the records
    are written into it: the own properties, which the model keeps, do not
    change.  What later reads of the same call would inherit from a
    prototype replaced this way is not followed. *)
Definition merge_fragment (state : gmap string (gmap string value))
    (storeFragment : value) : gmap string (gmap string value) :=
  foldl (λ newState ev,
           let type := ev.2 in
           let table :=
             spread (Lodash.get_key (state_value newState) type (VObj ∅)) in
           assigned newState (to_str type) (merge_entities type table ev.1))
        state (Lodash.entries storeFragment).

(** [entityToDelete && entityToDelete.id !== undefined && entityToDelete.type] *)
Definition should_delete (entityToDelete : value) : bool :=
  truthy entityToDelete
  && negb (is_undef (prop entityToDelete "id"))
  && truthy (prop entityToDelete "type").

(** [delete newState[entityToDelete.type][entityToDelete.id]], in strict
    mode.  When the fragment did not mention the type, the table is the one
    the previous state holds: the returned state is modelled, not the
    sharing.  When the state owns no table of that name, [newState[type]]
    is [undefined], or a built-in found on [Object.prototype]: the
    [delete] then acts on the built-in (its properties are configurable,
    but for the [prototype] of the [Object] constructor) and the state is
    returned as it is. *)
Definition delete_entity (newState : gmap string (gmap string value))
    (entityToDelete : value) : result (gmap string (gmap string value)) :=
  let type := to_str (prop entityToDelete "type") in
  let id := to_str (prop entityToDelete "id") in
  match newState !! type with
  | Some table => Ok (<[type := delete id table]> newState)
  | None =>
      if inherited type then
        if String.eqb type "constructor" && String.eqb id "prototype"
        then Throw TypeError
        else Ok newState
      else Throw TypeError
  end.

(** [{...entity, attributes: {...entity.attributes, ...attributes}}]. *)
Definition updated_record (entity attributes : value) : result value :=
  entity_attributes ← get_prop entity "attributes";
  Ok (VObj (obj_lit (spread entity)
              [("attributes",
                  VObj (assign (spread entity_attributes)
                               (spread attributes)))])).

(** The same for an [entity] that is a built-in function or
    [Object.prototype]: it has nothing to spread and no [attributes]. *)
Definition created_record (attributes : value) : value :=
  VObj (obj_lit ∅ [("attributes", VObj (assign ∅ (spread attributes)))]).

(** [state[type][id]] on a table the state owns: the own record, else what
    the table inherits from [Object.prototype]. *)
Definition record_update (table : gmap string value) (id : string)
    (attributes : value) : result value :=
  match table !! id with
  | Some entity => updated_record entity attributes
  | None =>
      if inherited id then Ok (created_record attributes) else Throw TypeError
  end.

(** [state[type][id]] when the state owns no table [type] and [state[type]]
    is [Object.prototype]: its members are built-in functions, and its
    ['__proto__'] is [null]. *)
Definition prototype_update (id : string) (attributes : value)
  : result value :=
  if String.eqb id "__proto__" then Throw TypeError
  else if inherited id then Ok (created_record attributes)
  else Throw TypeError.

Definition entitiesReducer (state : gmap string (gmap string value))
    (action : action) : result (gmap string (gmap string value)) :=
  match atype action with
  | JSON_API_SUCCESS | JSON_API_BOOTSTRAP =>
      let storeFragment :=
        Lodash.get (action_value action) "payload.storeFragment" (VObj ∅) in
      let newState := merge_fragment state storeFragment in
      let entityToDelete :=
        Lodash.get (action_value action) "meta.refToDelete" VUndef in
      if should_delete entityToDelete then delete_entity newState entityToDelete
      else Ok newState
  | UPDATE_ENTITY =>
      type ← get_prop (payload action) "type";
      id ← get_prop (payload action) "id";
      attributes ← get_prop (payload action) "attributes";
      match state !! to_str type with
      | Some table =>
          newEntity ← record_update table (to_str id) attributes;
          Ok (<[to_str type := <[to_str id := newEntity]> table]> state)
      | None =>
          if String.eqb (to_str type) "__proto__" then
            newEntity ← prototype_update (to_str id) attributes;
            Ok (<[to_str type := <[to_str id := newEntity]> ∅]> state)
          else if inherited (to_str type) then Throw Unmodelled
          else Throw TypeError
      end
  | _ => Ok state
  end.

(** The record of [(type, id)], if the store has one. *)
Definition entity (state : gmap string (gmap string value))
    (type id : string) : option value :=
  state !! type ≫= λ table, table !! id.

End Entities.

(** ** The reference store: the [refsReducer] module *)

Module Refs.

Definition initialState : gmap string value := ∅.

(** [JSON.parse(JSON.stringify(input))]: [undefined] has no JSON text. *)
Definition clone (input : value) : result value :=
  if is_undef input then Throw SyntaxError else Ok (json_clone input).

(** The callback of [filter]:
    [!(entity.type === type && entity.id === id)]. *)
Definition kept (type id entity : value) : result bool :=
  entity_type ← get_prop entity "type";
  if strict_eq entity_type type then
    entity_id ← get_prop entity "id";
    Ok (negb (strict_eq entity_id id))
  else Ok true.

(** The value the [reduce] callback stores at [memo[dataKey]] for the
    reference [ref = state[dataKey]]. *)
Definition filtered_ref (type id ref : value) : result value :=
  oldEntites ← get_prop ref "entities";
  match oldEntites with
  | VArr l =>
      entities ← filterM (kept type id) l;
      Ok (VObj (obj_lit (spread ref) [("entities", VArr entities)]))
  | _ => Ok ref
  end.

(** The own properties of the object [deleteRefFromEntities] returns,
    which is all its caller keeps of it ([{...deleteRefFromEntities(..)}]).
    [memo] starts empty and every key of [state] is assigned once: the
    reference of an own data key ['__proto__'] is computed, and can throw,
    but is stored nowhere. *)
Definition deleteRefFromEntities (refToDelete : value)
    (state : gmap string value) : result (gmap string value) :=
  let refToDelete := if is_undef refToDelete then VObj ∅ else refToDelete in
  type ← get_prop refToDelete "type";
  id ← get_prop refToDelete "id";
  if negb (truthy id) || negb (truthy type) then Ok state
  else
    foldlM (λ memo dataKey,
              ref' ← filtered_ref type id (default VUndef (state !! dataKey));
              Ok (assigned memo dataKey ref'))
           ∅ (map_to_list state).*1.

Definition refsReducer (state : gmap string value) (action : action)
  : result (gmap string value) :=
  match atype action with
  | JSON_API_REQUEST => Ok state
  | JSON_API_BOOTSTRAP | JSON_API_SUCCESS =>
      isNextPage ← get_prop (meta action) "isNextPage";
      if truthy isNextPage then
        nextPageRef ← get_prop (payload action) "newRequestRef";
        dataKey ← get_prop (meta action) "dataKey";
        oldEntities ←
          get_prop (default VUndef (state !! to_str dataKey)) "entities";
        newEntities ← get_prop nextPageRef "entities";
        entities ← concat oldEntities newEntities;
        Ok (<[to_str dataKey :=
                VObj (obj_lit (spread nextPageRef) [("entities", entities)])]>
              state)
      else
        refToDelete ← get_prop (meta action) "refToDelete";
        if truthy refToDelete then deleteRefFromEntities refToDelete state
        else
          dataKey ← get_prop (meta action) "dataKey";
          newRequestRef ← get_prop (payload action) "newRequestRef";
          Ok (<[to_str dataKey := newRequestRef]> state)
  | GENERIC_BOOTSTRAP =>
      dataKey ← get_prop (meta action) "dataKey";
      cloned ← clone (payload action);
      Ok (<[to_str dataKey := cloned]> state)
  | INITIALIZE_DATAKEY =>
      dataKey ← get_prop (payload action) "dataKey";
      ref ← get_prop (payload action) "ref";
      cloned ← clone ref;
      Ok (<[to_str dataKey := cloned]> state)
  | _ => Ok state
  end.

End Refs.

(** ** The reference normalizer [makeRef] *)

Module Normalizer.

Definition pointer (type id : value) : value :=
  VObj (obj_lit ∅ [("type", type); ("id", id)]).

(** The callback [({ type, id }) => ({ type, id })]; destructuring
    [undefined] or [null] throws. *)
Definition to_pointer (x : value) : result value :=
  type ← get_prop x "type";
  id ← get_prop x "id";
  Ok (pointer type id).

Definition makeRef (input options : value) : result value :=
  let input := if is_undef input then VObj ∅ else input in
  let options := if is_undef options then VObj ∅ else options in
  _ref ← get_prop input "_ref";
  let toProcess := if truthy _ref then _ref else input in
  isCollection ← get_prop toProcess "isCollection";
  entities ← get_prop toProcess "entities";
  links ← get_prop toProcess "links";
  meta ← get_prop toProcess "meta";
  data ← get_prop toProcess "data";
  from_data ←
    (if truthy data then
       match data with
       | VArr l =>
           pointers ← mapM_result to_pointer l;
           Ok (VArr pointers, VBool true)
       | _ =>
           p ← to_pointer data;
           Ok (VArr [p], VBool false)
       end
     else Ok (entities, isCollection));
  type ← get_prop toProcess "type";
  id ← get_prop toProcess "id";
  attributes ← get_prop toProcess "attributes";
  let from_flat :=
    if truthy type && truthy id && truthy attributes
    then (VArr [pointer type id], VBool false)
    else from_data in
  option_isCollection ← get_prop options "isCollection";
  let isCollection :=
    if truthy option_isCollection then VBool true else from_flat.2 in
  Ok (VObj (obj_lit ∅
        [("entities", from_flat.1);
         ("isCollection", isCollection);
         ("links", links);
         ("meta", meta)])).

End Normalizer.


(** ** Vocabulary of the statements *)

Module Terms.

(** The pointer [e] is the pair [(type, id)]. *)
Definition points_to (type id : string) (e : value) : bool :=
  strict_eq (prop e "type") (VStr type) && strict_eq (prop e "id") (VStr id).

(** A reference with the pointers to [(type, id)] removed from its
    [entities] list; a reference without such a list is returned as is. *)
Definition without (type id : string) (ref : value) : value :=
  match prop ref "entities" with
  | VArr l =>
      VObj (obj_lit (spread ref)
              [("entities", VArr (filter (λ e, points_to type id e = false) l))])
  | _ => ref
  end.

(** What the reducers can read without an exception: a stored reference is
    neither [undefined] nor [null], and neither is an element of its
    [entities] list. *)
Definition readable (v : value) : bool := negb (nullish v).

Definition readable_ref (ref : value) : bool :=
  readable ref &&
  match prop ref "entities" with
  | VArr l => forallb readable l
  | _ => true
  end.

Definition well_formed_refs (state : gmap string value) : bool :=
  forallb (λ kv : string * value, readable_ref kv.2) (map_to_list state).

(** The fields of [v.name], as the reducer spreads them:
    [{...get(v, name, {})}]. *)
Definition fields (name : string) (v : value) : gmap string value :=
  spread (Lodash.get v name (VObj ∅)).

(** The entity a store fragment carries for [(type, id)]. *)
Definition mentioned (frag : gmap string value) (type id : string)
  : option value :=
  frag !! type ≫= λ ents, match ents with VObj es => es !! id | _ => None end.

Definition is_object (v : value) : bool :=
  match v with VObj _ => true | _ => false end.

(** A store fragment maps a resource type, a plain property name, to a
    mapping from ids to entity objects. *)
Definition entity_table (type : string) (ents : value) : bool :=
  negb (Lodash.is_deep_path type) &&
  match ents with
  | VObj es => forallb (λ kv : string * value, is_object kv.2) (map_to_list es)
  | _ => false
  end.

Definition well_formed_fragment (frag : gmap string value) : bool :=
  forallb (λ kv : string * value, entity_table kv.1 kv.2) (map_to_list frag).

(** The pointers a [data] linkage stands for. *)
Definition linkage_pointers (data : value) : list value :=
  match data with
  | VArr l => (λ x, Normalizer.pointer (prop x "type") (prop x "id")) <$> l
  | _ => [Normalizer.pointer (prop data "type") (prop data "id")]
  end.

(** An assignment [o[k] = v] stores a property of this name: any name but
    ['__proto__']. *)
Definition stored_name (k : string) : bool :=
  negb (String.eqb k "__proto__").

(** No resource type and no id of the fragment is ['__proto__']. *)
Definition stored_names (frag : gmap string value) : bool :=
  forallb (λ kv : string * value,
             stored_name kv.1 &&
             match kv.2 with
             | VObj es =>
                 forallb (λ kv' : string * value, stored_name kv'.1)
                         (map_to_list es)
             | _ => true
             end)
          (map_to_list frag).

Definition is_list (v : value) : bool :=
  match v with VArr _ => true | _ => false end.

(** A linkage list can be read when none of its elements is [undefined]
    or [null]. *)
Definition readable_linkage (data : value) : bool :=
  match data with
  | VArr l => forallb readable l
  | _ => true
  end.

(** [type], [id] and [attributes] are all present (truthy). *)
Definition flat_resource (v : value) : bool :=
  truthy (prop v "type") && truthy (prop v "id") && truthy (prop v "attributes").

End Terms.
Export Terms.

(** ** Concrete stores and events used by the examples below *)

Module Samples.
Import Requests.

Definition post (id : string) : value :=
  Normalizer.pointer (VStr "post") (VStr id).

(** The reference of the scenario: key ["feed"] holds posts 1 and 2. *)
Definition feed_ref : gmap string value :=
  obj_lit ∅ [("entities", VArr [post "1"; post "2"]);
             ("isCollection", VBool true)].

Definition page_two_ref : gmap string value :=
  obj_lit ∅ [("entities", VArr [post "3"]);
             ("links", VObj (obj_lit ∅ [("next", VStr "api/posts?page=3")]))].

Definition next_page_action : action :=
  Action JSON_API_SUCCESS
    (VObj (obj_lit ∅ [("dataKey", VStr "feed"); ("isNextPage", VBool true)]))
    (VObj (obj_lit ∅ [("newRequestRef", VObj page_two_ref)])).

(** A store with two references to post 1 and a generic, non-reference
    value under ["settings"]. *)
Definition sample_refs : gmap string value :=
  obj_lit ∅
    [("feed", VObj feed_ref);
     ("post:1", VObj (obj_lit ∅ [("entities", VArr [post "1"]);
                                 ("isCollection", VBool false)]));
     ("settings", VObj (obj_lit ∅ [("theme", VStr "dark")]))].

Definition delete_meta (refToDelete : value) : value :=
  VObj (obj_lit ∅ [("dataKey", VStr "post:1"); ("refToDelete", refToDelete)]).

Definition delete_post_1 : action :=
  Action JSON_API_SUCCESS (delete_meta (post "1")) (VObj ∅).

(** A success event for ["post:1"] whose payload carries no reference. *)
Definition success_without_ref : action :=
  Action JSON_API_SUCCESS (VObj (obj_lit ∅ [("dataKey", VStr "post:1")]))
    (VObj ∅).

(** A generic value bootstrapped under the data key ['__proto__'], and the
    store it leaves. *)
Definition proto_bootstrap : action :=
  Action GENERIC_BOOTSTRAP (VObj (obj_lit ∅ [("dataKey", VStr "__proto__")]))
    (VObj (obj_lit ∅ [("theme", VStr "dark")])).

Definition proto_refs : gmap string value :=
  <["__proto__" := VObj (obj_lit ∅ [("theme", VStr "dark")])]> sample_refs.

Definition attributes_only (attrs : list (string * value)) : value :=
  VObj (obj_lit ∅ [("attributes", VObj (obj_lit ∅ attrs))]).

(** The two fragments of the scenario. *)
Definition title_fragment : gmap string value :=
  obj_lit ∅
    [("article",
      VObj (obj_lit ∅ [("1", attributes_only [("title", VStr "A")])]))].

Definition views_fragment : gmap string value :=
  obj_lit ∅
    [("article",
      VObj (obj_lit ∅ [("1", attributes_only [("views", VNum 10)])]))].

Definition fragment_action (meta : value) (frag : gmap string value) : action :=
  Action JSON_API_SUCCESS meta (VObj (obj_lit ∅ [("storeFragment", VObj frag)])).

Definition article_meta : value :=
  VObj (obj_lit ∅ [("dataKey", VStr "article:1")]).

(** The entity store after the first fragment of the scenario. *)
Definition titled_store : gmap string (gmap string value) :=
  Entities.merge_fragment Entities.initialState (VObj title_fragment).

Definition article_2_fragment : gmap string value :=
  obj_lit ∅
    [("article",
      VObj (obj_lit ∅ [("2", attributes_only [("title", VStr "B")])]))].

(** A delete outcome for article 1 whose fragment only mentions article 2. *)
Definition delete_article_1 : action :=
  fragment_action
    (VObj (obj_lit ∅
             [("dataKey", VStr "article:1");
              ("refToDelete",
               Normalizer.pointer (VStr "article") (VStr "1"))]))
    article_2_fragment.

(** A fragment whose type name is spelled like a path into the store. *)
Definition dotted_fragment : gmap string value :=
  obj_lit ∅
    [("article.1",
      VObj (obj_lit ∅ [("9", attributes_only [("title", VStr "C")])]))].

Definition update_action (id : string) : action :=
  Action UPDATE_ENTITY VUndef
    (VObj (obj_lit ∅ [("type", VStr "article"); ("id", VStr id);
                      ("attributes", VObj (obj_lit ∅ [("views", VNum 11)]))])).

(** An input with both a [data] linkage and the fields of a flat
    resource. *)
Definition linkage_and_resource : value :=
  VObj (obj_lit ∅
    [("data", VArr [post "3"]);
     ("type", VStr "post");
     ("id", VStr "1");
     ("attributes", VObj (obj_lit ∅ [("title", VStr "A")]))]).

Definition linkage_only : value :=
  VObj (obj_lit ∅ [("data", VArr [post "1"; post "2"])]).

Definition not_a_collection : value :=
  VObj (obj_lit ∅ [("isCollection", VBool false)]).

(** A delete outcome whose [refToDelete] lacks the id. *)
Definition incomplete_delete : action :=
  Action JSON_API_SUCCESS
    (delete_meta (VObj (obj_lit ∅ [("type", VStr "post")]))) (VObj ∅).

(** The events of the witnesses: a request for ["feed"], its success, then
    a failure and a request for another key. *)
Definition feed_meta (method : string) : value :=
  VObj (obj_lit ∅ [("dataKey", VStr "feed"); ("method", VStr method)]).

Definition feed_events : list (Z * action) :=
  [(1%Z, Action JSON_API_REQUEST (feed_meta "GET") VUndef);
   (2%Z, Action JSON_API_SUCCESS (feed_meta "GET") (VObj ∅))].

Definition later_events : list (Z * action) :=
  [(3%Z, Action JSON_API_REQUEST (feed_meta "PATCH") VUndef);
   (4%Z, Action JSON_API_FAILURE (feed_meta "PATCH")
           (VObj (obj_lit ∅ [("name", VStr "ApiError");
                             ("message", VStr "boom")])));
   (5%Z, Action JSON_API_REQUEST
           (VObj (obj_lit ∅ [("dataKey", VStr "user:1");
                             ("method", VStr "GET")])) VUndef)].

Definition feed_success_record : gmap string value :=
  obj_lit ∅
    [("status", VStr "success");
     ("fetchedAt", VNum 2);
     ("isError", VBool false);
     ("isLoaded", VBool true);
     ("isLoading", VBool false)].

(** A state reached by one request whose data key is spelled like the path
    the reducer reads. *)
Definition path_named_state : gmap string (gmap string value) :=
  run initialState
    [(1%Z, Action JSON_API_REQUEST
             (VObj (obj_lit ∅ [("dataKey", VStr "action.meta.dataKey");
                               ("method", VStr "GET")])) VUndef)].

End Samples.

(** ** The decorator: [decorator/index.js]

    The helpers of the decorator that do not need React, the transport or
    the selectors: the existence test of a projected resource, the default
    options of a declaration, the resolution of data keys, the resource
    views handed to the component and what mounting it triggers.  The
    action functions installed by [mergeProps] are not values of the model;
    an effect of [componentDidMount] is returned, not performed.  Distinct
    keys of [declarations] are taken to hold distinct declaration
    objects. *)

Module Decorator.

(** An object or array with the own properties that
    [Object.defineProperty(.., { value, enumerable: false })] added: they
    are read like any property, and no spread or enumeration sees them. *)
Record view := View {
  body : value;
  hidden : gmap string value;
}.

Definition plain (v : value) : view := View v ∅.

Definition view_prop (obj : view) (k : string) : value :=
  match hidden obj !! k with
  | Some x => x
  | None => prop (body obj) k
  end.

Definition view_get (obj : view) (k : string) : result value :=
  if nullish (body obj) then Throw TypeError else Ok (view_prop obj k).

(** [Object.defineProperty(obj, key, { value, enumerable: false })] for a
    key that is not yet a hidden property of [obj]: an enumerable property
    of that name stops being enumerable. *)
Definition defineDataProperty (obj : view) (key : string) (value : value)
  : view :=
  View (match body obj with
        | VObj m => VObj (delete key m)
        | b => b
        end)
       (<[key := value]> (hidden obj)).

Definition defaultDeclarativeOptions : gmap string value :=
  obj_lit ∅
    [("onMount", VBool false);
     ("once", VBool true);
     ("initialRef", VNull);
     ("paginated", VBool false)].

(** [(obj) => !!(obj.id && obj.type)] *)
Definition testExists (obj : view) : result bool :=
  id ← view_get obj "id";
  if truthy id then
    type ← view_get obj "type";
    Ok (truthy type)
  else Ok false.

(** The function [exists] of the source ([exists] is reserved here): it
    returns [false], a boolean, or for an array the number of its elements
    that have an id and a type. *)
Definition exists_ (input : view) : result value :=
  let input := if is_undef (body input) then plain (VObj ∅) else input in
  _exists ← view_get input "_exists";
  if strict_eq _exists (VBool false) then Ok (VBool false)
  else
    match body input with
    | VArr l =>
        found ← filterM (λ e, testExists (plain e)) l;
        Ok (VNum (Z.of_nat (length found)))
    | _ =>
        b ← testExists input;
        Ok (VBool b)
    end.

Definition makeNonExistingObject : view :=
  defineDataProperty (plain (VObj ∅)) "_exists" (VBool false).

Definition makeExistingObject (input : value) : view :=
  let output :=
    match input with
    | VArr l => VArr l
    | _ => VObj (spread input)
    end in
  defineDataProperty (plain output) "_exists" (VBool true).

Definition isNotLoaded (status : value) : bool :=
  strict_eq status (VStr "not called").

(** The inner [map] of [processDefaultOptions] on one declaration:
    [declaration[defaultKey] = get(declaration, defaultKey, defaultState)]
    for every default. *)
Definition with_defaults (declaration : gmap string value)
  : gmap string value :=
  foldl (λ declaration ev,
           <[to_str ev.2 := Lodash.get_key (VObj declaration) ev.2 ev.1]>
             declaration)
        declaration (Lodash.entries (VObj defaultDeclarativeOptions)).

Definition processDefaultOptions
    (declarations : gmap string (gmap string value))
  : gmap string (gmap string value) :=
  with_defaults <$> declarations.

(** [declaration.dataKey || key] *)
Definition dataKey_of (declaration : gmap string value) (key : string)
  : value :=
  let dataKey := default VUndef (declaration !! "dataKey") in
  if truthy dataKey then dataKey else VStr key.

(** The map [keysByDataKey] that [processDeclaratives] fills by the
    assignments [keysByDataKey[dataKey] = key]: a data key ['__proto__'] is
    not stored (the key assigned is a string, which the setter of
    ['__proto__'] ignores). *)
Definition keysByDataKey (declarations : gmap string (gmap string value))
  : gmap string string :=
  foldl (λ keys kv, assigned keys (to_str (dataKey_of kv.2 kv.1)) kv.1)
        ∅ (map_to_list declarations).

(** The list [dataKeys] it returns to the selector. *)
Definition dataKeys (declarations : gmap string (gmap string value))
  : list value :=
  (λ kv, dataKey_of kv.2 kv.1) <$> map_to_list declarations.

(** The declarations afterwards: [declaration.dataKey] is set. *)
Definition with_dataKeys (declarations : gmap string (gmap string value))
  : gmap string (gmap string value) :=
  map_imap (λ key declaration,
              Some (<["dataKey" := dataKey_of declaration key]> declaration))
           declarations.

(** The callback of [mapStateToProps] on one selected resource: the value
    stored at [nion[key]]. *)
Definition nion_entry (selected : value) : result view :=
  obj ← get_prop selected "obj";
  let entry :=
    if is_undef obj then makeNonExistingObject else makeExistingObject obj in
  links ← get_prop selected "links";
  meta ← get_prop selected "meta";
  request ← get_prop selected "request";
  Ok (defineDataProperty
        (defineDataProperty
           (defineDataProperty
              (defineDataProperty entry "actions" (VObj ∅))
              "links" (VObj (spread links)))
           "meta" (VObj (spread meta)))
        "request" (VObj (spread request))).

(** The property name [nion[key]] uses for
    [key = keysByDataKey[selectedDataKey]]: the component key found; for a
    data key that was not stored, ['undefined'], or the name of what the
    read finds on [Object.prototype]: ['[object Object]'] for
    [Object.prototype] itself, and the source text of a built-in function,
    which each engine writes its own way. *)
Definition key_for (keys : gmap string string) (selectedDataKey : string)
  : result string :=
  match keys !! selectedDataKey with
  | Some key => Ok key
  | None =>
      if String.eqb selectedDataKey "__proto__" then Ok "[object Object]"
      else if inherited selectedDataKey then Throw Unmodelled
      else Ok "undefined"
  end.

(** The result function of the selector in [mapStateToProps]: the object
    [nion] built from the selected resources by the assignments
    [nion[key] = ...].  With a key ['__proto__'] the assignment replaces
    the prototype of [nion] by the new object: the result is then no plain
    object. *)
Definition mapStateToProps (keys : gmap string string)
    (selectedResources : value) : result (gmap string view) :=
  foldlM (λ nion ev,
            key ← key_for keys (to_str ev.2);
            entry ← nion_entry ev.1;
            if String.eqb key "__proto__" then Throw Unmodelled
            else Ok (<[key := entry]> nion))
         ∅ (Lodash.entries selectedResources).

(** [const ref = data ? { id: data.id, type: data.type } : null] of
    [mergeProps], for the view [data] found at [nion[key]]. *)
Definition deletion_ref (data : view) : value :=
  if truthy (body data)
  then VObj (obj_lit ∅ [("id", view_prop data "id");
                        ("type", view_prop data "type")])
  else VNull.

(** The actions the decorator dispatches itself. *)
Definition initializeDataKey (dataKey ref : value) : action :=
  Action INITIALIZE_DATAKEY VUndef
    (VObj (obj_lit ∅ [("dataKey", dataKey); ("ref", ref)])).

Definition updateEntity (ref attributes : value) : result action :=
  type ← get_prop ref "type";
  id ← get_prop ref "id";
  Ok (Action UPDATE_ENTITY VUndef
        (VObj (obj_lit ∅
           [("type", type); ("id", id); ("attributes", attributes)]))).

(** What [componentDidMount] does for one declaration. *)
Inductive effect :=
| InitializeDataKey (ref : value)
| Fetch.

Definition on_mount (declaration : gmap string value) (entry : view)
  : result (option effect) :=
  actions ← view_get entry "actions";
  fetch ← get_prop actions "get";
  let initialRef := default VUndef (declaration !! "initialRef") in
  if truthy initialRef then
    found ← exists_ entry;
    if truthy found then Ok None
    else
      initialize ← get_prop actions "_initializeDataKey";
      Ok (Some (InitializeDataKey initialRef))
  else if negb (truthy (default VUndef (declaration !! "onMount"))) then
    Ok None
  else if truthy (default VUndef (declaration !! "once")) then
    request ← view_get entry "request";
    status ← get_prop request "status";
    Ok (if isNotLoaded status then Some Fetch else None)
  else Ok (Some Fetch).

End Decorator.

(** ** More vocabulary *)

Module Measures.

(** The number of constructors of a value. *)
Fixpoint vsize (v : value) : nat :=
  match v with
  | VArr l => S (foldr (λ x n, vsize x + n) 0 l)
  | VObj m => S (map_fold (λ _ x n, vsize x + n) 0 m)
  | _ => 1
  end.

(** JSON data, which JSON writes and reads back unchanged: [null],
    booleans, finite numbers, strings, and arrays and objects of these; no
    [undefined], no [NaN] and no infinity anywhere in it. *)
Fixpoint json_safe (v : value) : bool :=
  match v with
  | VUndef | VNaN | VInf _ => false
  | VArr l => forallb json_safe l
  | VObj m => map_fold (λ _ x b, json_safe x && b) true m
  | _ => true
  end.

(** The field [k] of a record is the boolean [b]. *)
Definition flag (r : gmap string value) (k : string) (b : bool) : bool :=
  strict_eq (default VUndef (r !! k)) (VBool b).

(** The booleans of a status record agree with its [status]. *)
Definition status_coherent (r : gmap string value) : bool :=
  match r !! "status" with
  | Some (VStr "pending") => flag r "isLoading" true
  | Some (VStr "success") =>
      flag r "isLoading" false && flag r "isLoaded" true
      && flag r "isError" false
  | Some (VStr "error") =>
      flag r "isLoading" false && flag r "isLoaded" false
      && flag r "isError" true
  | _ => false
  end.

(** No status record has a field named [meta]. *)
Definition no_meta (state : gmap string (gmap string value)) : Prop :=
  ∀ k r, state !! k = Some r → r !! "meta" = None.

(** The entity store under a sequence of actions; it keeps its state when
    the reducer throws.  (After an outcome the model does not determine,
    the state would be unknown; the runs considered below have none.) *)
Definition entities_dispatch (state : gmap string (gmap string value))
    (a : action) : gmap string (gmap string value) :=
  match Entities.entitiesReducer state a with
  | Ok state' => state'
  | Throw _ => state
  end.

Definition entities_run (state : gmap string (gmap string value))
    (events : list action) : gmap string (gmap string value) :=
  foldl entities_dispatch state events.

(** Every record is an object filed under its own type and id. *)
Definition filed (state : gmap string (gmap string value)) : Prop :=
  ∀ t i r, Entities.entity state t i = Some r →
    ∃ m, r = VObj m ∧ m !! "type" = Some (VStr t) ∧ m !! "id" = Some (VStr i).

(** An event the entity store handles without leaving plain objects: the
    store fragment of a success or bootstrap action, if it carries one, is
    well formed and names nothing ['__proto__'], and neither the type of a
    record to delete nor the type and id of a manual update is the name of
    a member of [Object.prototype]. *)
Definition well_formed_event (a : action) : bool :=
  match atype a with
  | JSON_API_SUCCESS | JSON_API_BOOTSTRAP =>
      match Lodash.get (action_value a) "payload.storeFragment" (VObj ∅) with
      | VObj frag => well_formed_fragment frag && stored_names frag
      | _ => false
      end
      && (let entityToDelete :=
            Lodash.get (action_value a) "meta.refToDelete" VUndef in
          negb (Entities.should_delete entityToDelete)
          || negb (inherited (to_str (prop entityToDelete "type"))))
  | UPDATE_ENTITY =>
      negb (inherited (to_str (prop (payload a) "type")))
      && negb (inherited (to_str (prop (payload a) "id")))
  | _ => true
  end.

(** The object [makeRef] processes: the backing reference of a projected
    resource when it has one, the input otherwise. *)
Definition to_process (input : value) : value :=
  let input := if is_undef input then VObj ∅ else input in
  if truthy (prop input "_ref") then prop input "_ref" else input.

(** A value has an identity: a truthy [id] and a truthy [type]. *)
Definition has_identity (v : value) : bool :=
  truthy (prop v "id") && truthy (prop v "type").

(** The value of option [k] of a declaration, [dflt] when it is missing or
    [undefined]. *)
Definition option_value (declaration : gmap string value) (k : string)
    (dflt : value) : value :=
  match declaration !! k with
  | Some v => if is_undef v then dflt else v
  | None => dflt
  end.

(** The names under which a resource view carries nion's own data. *)
Definition reserved : list string :=
  ["_exists"; "actions"; "links"; "meta"; "request"].

End Measures.
Export Measures.

(** ** More concrete stores and events *)

Module Samples2.
Import Samples.

(** A run in which a data key is literally named ["action"]. *)
Definition action_named_events : list (Z * action) :=
  [(1%Z, Action JSON_API_REQUEST
           (VObj (obj_lit ∅ [("dataKey", VStr "action");
                             ("method", VStr "GET")])) VUndef);
   (2%Z, Action JSON_API_FAILURE
           (VObj (obj_lit ∅ [("dataKey", VStr "action")]))
           (VObj (obj_lit ∅ [("name", VStr "ApiError");
                             ("message", VStr "boom")])))].

(** A generic bootstrap whose payload is [null]. *)
Definition null_bootstrap : action :=
  Action GENERIC_BOOTSTRAP (VObj (obj_lit ∅ [("dataKey", VStr "banner")])) VNull.

Definition poisoned_refs : gmap string value :=
  <["banner" := VNull]> sample_refs.

Definition page_three_ref : gmap string value :=
  obj_lit ∅ [("entities", VArr [post "4"; post "5"]);
             ("links", VObj ∅)].

Definition next_page_three : action :=
  Action JSON_API_SUCCESS
    (VObj (obj_lit ∅ [("dataKey", VStr "feed"); ("isNextPage", VBool true)]))
    (VObj (obj_lit ∅ [("newRequestRef", VObj page_three_ref)])).

Definition delete_post_9 : action :=
  Action JSON_API_SUCCESS (delete_meta (post "9")) (VObj ∅).

(** A next page asked for the generic value under ["settings"]. *)
Definition next_page_of_settings : action :=
  Action JSON_API_SUCCESS
    (VObj (obj_lit ∅ [("dataKey", VStr "settings");
                      ("isNextPage", VBool true)]))
    (VObj (obj_lit ∅ [("newRequestRef", VObj page_two_ref)])).

Definition undefined_inside : value :=
  VObj (obj_lit ∅
    [("entities", VArr [post "1"; VUndef]);
     ("links", VUndef);
     ("isCollection", VBool true)]).

(** A reference with values JSON has no text for. *)
Definition unwritable_inside : value :=
  VObj (obj_lit ∅
    [("entities", VArr [post "1"; VUndef; VNaN]);
     ("links", VUndef);
     ("total", VInf false);
     ("isCollection", VBool true)]).

(** A reference to delete whose id is the number 0. *)
Definition zero_ref : value :=
  VObj (obj_lit ∅ [("type", VStr "post"); ("id", VNum 0)]).

Definition delete_post_zero : action :=
  Action JSON_API_SUCCESS
    (VObj (obj_lit ∅ [("dataKey", VStr "post:0"); ("refToDelete", zero_ref)]))
    (VObj ∅).

Definition zero_refs : gmap string value :=
  obj_lit ∅
    [("post:0", VObj (obj_lit ∅ [("entities", VArr [zero_ref]);
                                 ("isCollection", VBool false)]))].

Definition zero_store : gmap string (gmap string value) :=
  <["post" := obj_lit ∅ [("0", attributes_only [("title", VStr "Z")])]]> ∅.




Definition article_events : list action :=
  [fragment_action article_meta title_fragment;
   fragment_action article_meta views_fragment;
   update_action "1";
   fragment_action article_meta article_2_fragment;
   update_action "7"].

(** A projected resource: its own fields and the hidden reference it was
    resolved from. *)
Definition projected_post : value :=
  VObj (obj_lit ∅
    [("id", VStr "1");
     ("type", VStr "post");
     ("attributes", VObj (obj_lit ∅ [("title", VStr "A")]));
     ("_ref", VObj feed_ref)]).

(** What the selector yields for a data key without reference, for one
    resolved to a record, and for a collection. *)
Definition selected_nothing : value :=
  VObj (obj_lit ∅
    [("request", VObj (obj_lit ∅ [("status", VStr "not called")]))]).

Definition selected_post : value :=
  VObj (obj_lit ∅
    [("obj", VObj (obj_lit ∅
        [("id", VStr "1"); ("type", VStr "post"); ("title", VStr "A");
         ("meta", VStr "an attribute"); ("_exists", VBool false)]));
     ("links", VObj (obj_lit ∅ [("next", VStr "api/posts?page=2")]));
     ("request", VObj (obj_lit ∅ [("status", VStr "success")]))]).

Definition selected_feed : value :=
  VObj (obj_lit ∅
    [("obj", VArr [VObj (obj_lit ∅ [("id", VStr "1"); ("type", VStr "post")]);
                   VObj (obj_lit ∅ [("id", VStr "2"); ("type", VStr "post")]);
                   VObj ∅]);
     ("request", VObj (obj_lit ∅ [("status", VStr "success")]))]).

Definition sample_declarations : gmap string (gmap string value) :=
  <["feed" := obj_lit ∅ [("endpoint", VStr "posts"); ("onMount", VBool true)]]>
  (<["author" := obj_lit ∅ [("endpoint", VStr "users/1");
                            ("dataKey", VStr "user:1");
                            ("once", VBool false);
                            ("initialRef", post "1")]]> ∅).

(** The resources selected for the data keys of [sample_declarations]. *)
Definition sample_selection : gmap string value :=
  <["feed" := selected_feed]> (<["user:1" := selected_post]> ∅).

(** A delete event for data key ["feed"] carrying the pair [ref]. *)
Definition delete_event (ref : value) : action :=
  Action JSON_API_SUCCESS
    (VObj (obj_lit ∅ [("dataKey", VStr "feed"); ("refToDelete", ref)]))
    VUndef.

(** A bootstrap of data key ["user"] with a reference made elsewhere. *)
Definition generic_bootstrap (ref : value) : action :=
  Action GENERIC_BOOTSTRAP (VObj (obj_lit ∅ [("dataKey", VStr "user")])) ref.

End Samples2.
(** * Properties *)

(** ** Generic facts about the operators *)

Lemma bind_Ok {A B} (f : A → result B) (r : result A) (b : B) :
  r ≫= f = Ok b → ∃ a, r = Ok a ∧ f a = Ok b.
Proof. destruct r as [a|e]; [eauto | discriminate]. Qed.

Lemma get_prop_Ok (v : value) (k : string) (x : value) :
  get_prop v k = Ok x → nullish v = false ∧ x = prop v k.
Proof. unfold get_prop. destruct (nullish v); [discriminate | by intros [= <-]]. Qed.

Lemma readable_nullish (v : value) : readable v = true → nullish v = false.
Proof. unfold readable. by destruct (nullish v). Qed.

Lemma forallb_map_to_list {A} (p : string * A → bool) (m : gmap string A)
    (k : string) (x : A) :
  forallb p (map_to_list m) = true → m !! k = Some x → p (k, x) = true.
Proof.
  intros Hall Hk. apply (proj1 (forallb_forall _ _) Hall).
  apply list_elem_of_In. by apply elem_of_map_to_list.
Qed.

(** The assignment [o[k] = v], property by property. *)
Lemma assigned_stored {A} (m : gmap string A) (k : string) (v : A) :
  k ≠ "__proto__" → assigned m k v = <[k := v]> m.
Proof.
  intros Hk. unfold assigned. destruct (m !! k); [done|].
  by rewrite (proj2 (String.eqb_neq _ _) Hk).
Qed.

Lemma assigned_owned {A} (m : gmap string A) (k : string) (v : A) :
  is_Some (m !! k) → assigned m k v = <[k := v]> m.
Proof. intros [x Hx]. unfold assigned. by rewrite Hx. Qed.

Lemma lookup_assigned_eq {A} (m : gmap string A) (k : string) (v : A) :
  assigned m k v !! k
  = match m !! k with
    | Some _ => Some v
    | None => if String.eqb k "__proto__" then None else Some v
    end.
Proof.
  unfold assigned. destruct (m !! k) eqn:Hk; [by rewrite lookup_insert_eq|].
  destruct (String.eqb k "__proto__"); [done | by rewrite lookup_insert_eq].
Qed.

Lemma lookup_assigned_ne {A} (m : gmap string A) (k j : string) (v : A) :
  k ≠ j → assigned m k v !! j = m !! j.
Proof.
  intros Hne. unfold assigned.
  destruct (m !! k); [by rewrite lookup_insert_ne|].
  destruct (String.eqb k "__proto__"); [done | by rewrite lookup_insert_ne].
Qed.

Lemma lookup_assigned_stored {A} (m : gmap string A) (k : string) (v : A) :
  k ≠ "__proto__" → assigned m k v !! k = Some v.
Proof. intros Hk. by rewrite assigned_stored, lookup_insert_eq. Qed.

(** A loop of assignments with distinct keys on an object that does not
    own ['__proto__']: every key but ['__proto__'] is stored. *)
Lemma foldl_assigned_lookup {A} (f : string → A) (keys : list string)
    (memo : gmap string A) (k : string) :
  memo !! "__proto__" = None →
  foldl (λ memo k, assigned memo k (f k)) memo keys !! k
  = if decide (k ∈ keys ∧ k ≠ "__proto__") then Some (f k) else memo !! k.
Proof.
  revert memo. induction keys as [|k' keys IH]; intros memo Hmemo.
  { cbn. rewrite decide_False; [done|]. by intros [?%elem_of_nil _]. }
  cbn [foldl]. rewrite IH.
  - destruct (decide (k ∈ keys ∧ k ≠ "__proto__")) as [[Hin Hk]|Hnin].
    + rewrite decide_True; [done|]. split; [by right | done].
    + destruct (decide (k = k')) as [->|Hne].
      * rewrite lookup_assigned_eq.
        destruct (decide (k' = "__proto__")) as [->|Hk'].
        -- rewrite Hmemo, decide_False; [done|]. by intros [_ ?].
        -- rewrite (proj2 (String.eqb_neq _ _) Hk').
           rewrite decide_True by (split; [by left | done]).
           by destruct (memo !! k').
      * rewrite lookup_assigned_ne by done. rewrite decide_False; [done|].
        intros [[?|?]%elem_of_cons ?]; [done|]. by apply Hnin.
  - destruct (decide (k' = "__proto__")) as [->|Hk'].
    + by rewrite lookup_assigned_eq, Hmemo.
    + by rewrite lookup_assigned_ne.
Qed.

(** Both success-like action types take the same branch. *)
Ltac by_success_type H := by destruct H as [-> | ->].

(** ** The request-status store *)

Module RequestsSpec.
Import Requests Samples.

Lemma reducer_keeps_keys now (state state' : gmap string (gmap string value))
    (a : action) (k : string) :
  requestsReducer now state a = Ok state' →
  is_Some (state !! k) → is_Some (state' !! k).
Proof.
  unfold requestsReducer. intros Hstep Hk.
  destruct (atype a); simplify_eq; try done;
    repeat (apply bind_Ok in Hstep as (? & _ & Hstep)); simplify_eq;
    rewrite lookup_insert; case_decide; eauto.
Qed.

Lemma dispatch_keeps_keys (state : gmap string (gmap string value)) ev k :
  is_Some (state !! k) → is_Some (dispatch state ev !! k).
Proof.
  unfold dispatch. intros Hk.
  destruct (requestsReducer _ _ _) eqn:Hstep; [|done].
  by eapply reducer_keeps_keys.
Qed.

Lemma run_keeps_keys events (state : gmap string (gmap string value)) k :
  is_Some (state !! k) → is_Some (run state events !! k).
Proof.
  revert state. induction events as [|ev events IH]; intros state Hk; [done|].
  apply IH. by apply dispatch_keeps_keys.
Qed.

Lemma consistent_insert (state : gmap string (gmap string value)) k r :
  consistent state →
  (r !! "status" = Some (VStr "success") → r !! "isError" = Some (VBool false)) →
  consistent (<[k := r]> state).
Proof.
  intros Hs Hr k' r'. rewrite lookup_insert. case_decide; [|by apply Hs].
  by intros [= <-].
Qed.

Lemma reducer_consistent now (state state' : gmap string (gmap string value)) a :
  requestsReducer now state a = Ok state' →
  consistent state → consistent state'.
Proof.
  unfold requestsReducer. intros Hstep Hs.
  destruct (atype a); simplify_eq; try done;
    repeat (apply bind_Ok in Hstep as (? & _ & Hstep)); simplify_eq;
    apply consistent_insert; try done; unfold obj_lit; simpl;
    by simplify_map_eq.
Qed.

Lemma run_consistent events (state : gmap string (gmap string value)) :
  consistent state → consistent (run state events).
Proof.
  revert state. induction events as [|ev events IH]; intros state Hs; [done|].
  apply IH. unfold dispatch.
  destruct (requestsReducer _ _ _) eqn:Hstep; [|done].
  by eapply reducer_consistent.
Qed.

(** C4. In every state reached from the initial state by any sequence of
    events, a data key that has a status record keeps an entry through
    every later sequence of events, and a record whose [status] is
    ['success'] has [isError] equal to [false]. *)
Theorem status_entries_persist_and_are_consistent
    (events later : list (Z * action)) (k : string) (r : gmap string value) :
  let state := run initialState events in
  (is_Some (state !! k) → is_Some (run state later !! k)) ∧
  (state !! k = Some r →
   r !! "status" = Some (VStr "success") → r !! "isError" = Some (VBool false)).
Proof.
  intros state. split.
  - apply run_keeps_keys.
  - apply (run_consistent events initialState). by intros ? ? ?.
Qed.

Lemma status_entries_persist_witness :
  is_Some (run (run initialState feed_events) later_events !! "feed") ∧
  feed_success_record !! "isError" = Some (VBool false).
Proof.
  destruct (status_entries_persist_and_are_consistent
              feed_events later_events "feed" feed_success_record) as [H1 H2].
  split.
  - apply H1. eexists. reflexivity.
  - apply H2; reflexivity.
Defined.

(** What [existing] is when neither the path nor its first segment is an
    own key of the state. *)
Lemma existing_undefined (state : gmap string (gmap string value)) :
  state !! "action" = None →
  state !! "action.meta.dataKey" = None →
  Lodash.get (state_value state) "action.meta.dataKey" VUndef = VUndef.
Proof.
  intros Ha Hp. unfold Lodash.get, Lodash.castPath, Lodash.isKey, state_value.
  replace (Lodash.is_deep_path "action.meta.dataKey") with true by reflexivity.
  cbn [negb orb Lodash.has_own].
  rewrite lookup_fmap, Hp. cbn [fmap option_fmap option_map].
  rewrite (bool_decide_eq_false_2 (is_Some None)) by (by intros [? ?]).
  change (Lodash.split_on "." "action.meta.dataKey")
    with ["action"; "meta"; "dataKey"].
  cbn [Lodash.baseGet nullish prop]. by rewrite lookup_fmap, Ha.
Qed.

(** C5, as stated, fails: the state below has no top-level field ["action"],
    yet [existing] is the record of the data key ["action.meta.dataKey"],
    and the record a success event writes for ["feed"] still carries the
    [pending] method of that earlier request. *)
Lemma existing_found_without_action_field :
  path_named_state !! "action" = None ∧
  Lodash.get (state_value path_named_state) "action.meta.dataKey" VUndef
    ≠ VUndef ∧
  ∃ state' r,
    requestsReducer 2 path_named_state
      (Action JSON_API_SUCCESS (feed_meta "GET") (VObj ∅)) = Ok state' ∧
    state' !! "feed" = Some r ∧
    r !! "pending" = Some (VStr "GET").
Proof.
  split; [reflexivity|]. split; [discriminate|].
  eexists _, _. split; [reflexivity|]. split; reflexivity.
Qed.

(** C5, amended. In a state with no top-level field ["action"] and none
    named ["action.meta.dataKey"], [existing] is [undefined], and each of
    the three transitions stores for the data key exactly the fields it
    sets: nothing of the prior record survives; in particular the record of
    a success has no [pending] field. *)
Theorem transition_records_start_empty now
    (state : gmap string (gmap string value)) (a : action) (dataKey : value) :
  state !! "action" = None →
  state !! "action.meta.dataKey" = None →
  get_prop (meta a) "dataKey" = Ok dataKey →
  Lodash.get (state_value state) "action.meta.dataKey" VUndef = VUndef ∧
  (atype a = JSON_API_REQUEST →
   requestsReducer now state a =
     Ok (<[to_str dataKey :=
             obj_lit ∅ [("status", VStr "pending");
                        ("isLoading", VBool true);
                        ("pending", prop (meta a) "method")]]> state)) ∧
  (atype a = JSON_API_SUCCESS →
   ∃ r, requestsReducer now state a = Ok (<[to_str dataKey := r]> state) ∧
     r = obj_lit ∅ [("status", VStr "success");
                    ("fetchedAt", VNum now);
                    ("isError", VBool false);
                    ("isLoaded", VBool true);
                    ("isLoading", VBool false)] ∧
     r !! "pending" = None) ∧
  (atype a = JSON_API_FAILURE → nullish (payload a) = false →
   requestsReducer now state a =
     Ok (<[to_str dataKey :=
             obj_lit ∅ [("status", VStr "error");
                        ("name", prop (payload a) "name");
                        ("errors", VArr [prop (payload a) "message"]);
                        ("fetchedAt", VNum now);
                        ("isError", VBool true);
                        ("isLoaded", VBool false);
                        ("isLoading", VBool false);
                        ("pending", VUndef)]]> state)).
Proof.
  intros Ha Hp Hk. pose proof (existing_undefined state Ha Hp) as Hex.
  apply get_prop_Ok in Hk as [Hm ->].
  split; [done|]. unfold requestsReducer. rewrite Hex.
  unfold get_prop. rewrite Hm. repeat split.
  - by intros ->.
  - intros ->. eexists. split; [reflexivity|]. split; reflexivity.
  - intros -> ->. done.
Qed.

Lemma transition_records_start_empty_witness :
  requestsReducer 2 (run initialState feed_events)
    (Action JSON_API_SUCCESS (feed_meta "GET") (VObj ∅))
  = Ok (<["feed" := feed_success_record]> (run initialState feed_events)).
Proof.
  destruct (transition_records_start_empty 2 (run initialState feed_events)
              (Action JSON_API_SUCCESS (feed_meta "GET") (VObj ∅))
              (VStr "feed")) as (_ & _ & Hs & _).
  - reflexivity.
  - reflexivity.
  - reflexivity.
  - destruct (Hs eq_refl) as (r & Hr & -> & _). exact Hr.
Defined.

End RequestsSpec.

(** ** The reference store *)

Module RefsSpec.
Import Refs Samples.

Lemma strict_eq_str (v : value) (s : string) :
  strict_eq v (VStr s) = true ↔ v = VStr s.
Proof.
  destruct v; simpl; try (split; [discriminate | intros [=]]).
  rewrite String.eqb_eq. split; [by intros -> | by intros [= ->]].
Qed.

Lemma points_to_spec (type id : string) (e : value) :
  points_to type id e = true ↔ prop e "type" = VStr type ∧ prop e "id" = VStr id.
Proof.
  unfold points_to. by rewrite andb_true_iff, !strict_eq_str.
Qed.

Lemma kept_Ok (type id : string) (e : value) :
  readable e = true →
  kept (VStr type) (VStr id) e = Ok (negb (points_to type id e)).
Proof.
  intros He%readable_nullish. unfold kept, points_to, get_prop.
  rewrite He. simpl.
  by destruct (strict_eq (prop e "type") (VStr type)).
Qed.

Lemma filterM_kept (type id : string) (l : list value) :
  forallb readable l = true →
  filterM (kept (VStr type) (VStr id)) l
  = Ok (filter (λ e, points_to type id e = false) l).
Proof.
  induction l as [|e l IH]; [done|]. intros [He Hl]%andb_true_iff.
  simpl. rewrite kept_Ok, IH by done. simpl.
  rewrite filter_cons. by destruct (points_to type id e).
Qed.

(** One iteration of the [reduce] of [deleteRefFromEntities] on a
    well-formed reference. *)
Lemma filtered_ref_Ok (type id : string) (ref : value) :
  readable_ref ref = true →
  filtered_ref (VStr type) (VStr id) ref = Ok (without type id ref).
Proof.
  unfold readable_ref. intros [Hn%readable_nullish Hl]%andb_true_iff.
  unfold filtered_ref, get_prop, without. rewrite Hn. simpl.
  destruct (prop ref "entities") eqn:He; try done.
  by rewrite filterM_kept.
Qed.

Lemma delete_fold (type id : string) (state memo : gmap string value)
    (keys : list string) :
  (∀ k, k ∈ keys → ∃ ref, state !! k = Some ref ∧ readable_ref ref = true) →
  foldlM (λ memo dataKey,
            ref' ← filtered_ref (VStr type) (VStr id)
                     (default VUndef (state !! dataKey));
            Ok (assigned memo dataKey ref')) memo keys
  = Ok (foldl (λ memo k,
                 assigned memo k (without type id (default VUndef (state !! k))))
          memo keys).
Proof.
  revert memo. induction keys as [|k keys IH]; intros memo Hwf; [done|].
  destruct (Hwf k) as (ref & Hk & Href); [by left|].
  cbn [foldlM foldl]. rewrite Hk. cbn [default].
  rewrite filtered_ref_Ok by done. simpl.
  apply IH. intros; apply Hwf; by right.
Qed.

(** On a well-formed store [deleteRefFromEntities] returns normally and
    filters every reference; it loses the data key ['__proto__']. *)
Lemma deleteRefFromEntities_complete (type id : string) (rtd : value)
    (state : gmap string value) :
  truthy rtd = true →
  prop rtd "type" = VStr type → prop rtd "id" = VStr id →
  type ≠ "" → id ≠ "" →
  well_formed_refs state = true →
  deleteRefFromEntities rtd state
  = Ok (without type id <$> delete "__proto__" state).
Proof.
  intros Hrtd Ht Hi Hty Hid Hwf. unfold deleteRefFromEntities.
  assert (is_undef rtd = false) as -> by (by destruct rtd).
  assert (nullish rtd = false) as Hn by (by destruct rtd).
  unfold get_prop. rewrite Hn. simpl. rewrite Ht, Hi. simpl.
  rewrite (proj2 (String.eqb_neq _ _) Hty), (proj2 (String.eqb_neq _ _) Hid).
  simpl. rewrite (delete_fold type id state ∅).
  - f_equal. apply map_eq. intros k.
    rewrite (foldl_assigned_lookup
               (λ k, without type id (default VUndef (state !! k))))
      by apply lookup_empty.
    rewrite lookup_fmap, lookup_empty.
    destruct (decide _) as [[Hin Hk]|Hnin].
    + apply list_elem_of_fmap in Hin as ([k' ref] & -> & Hin).
      apply elem_of_map_to_list in Hin. simpl.
      by rewrite lookup_delete_ne, Hin.
    + destruct (decide (k = "__proto__")) as [->|Hk];
        [by rewrite lookup_delete_eq|].
      rewrite lookup_delete_ne by done.
      destruct (state !! k) as [ref|] eqn:Hs; [|done].
      exfalso. apply Hnin. split; [|done].
      apply list_elem_of_fmap. exists (k, ref).
      split; [done|]. by apply elem_of_map_to_list.
  - intros k Hin. apply list_elem_of_fmap in Hin as ([k' ref] & -> & Hin).
    apply elem_of_map_to_list in Hin. exists ref. split; [done|].
    apply (forallb_map_to_list _ _ _ _ Hwf Hin).
Qed.


(** C1, as stated, fails.  The reducer itself builds stores on which a
    complete delete throws: a success event whose payload carries no
    reference leaves [undefined] under its data key, and the next delete
    event reads the [entities] of that slot. *)
Lemma delete_throws_after_success_without_reference :
  refsReducer sample_refs success_without_ref
    = Ok (<["post:1" := VUndef]> sample_refs) ∧
  prop (meta delete_post_1) "refToDelete" = post "1" ∧
  refsReducer (<["post:1" := VUndef]> sample_refs) delete_post_1
    = Throw TypeError.
Proof. split; [reflexivity|]. split; reflexivity. Qed.

(** It also fails on a store with a data key ['__proto__'], which the
    reducer builds from an event with that data key: the reference under
    it has no [entities] list, and the delete drops it. *)
Lemma delete_drops_the_proto_key :
  refsReducer sample_refs proto_bootstrap = Ok proto_refs ∧
  proto_refs !! "__proto__" = Some (VObj (obj_lit ∅ [("theme", VStr "dark")])) ∧
  ∃ state',
    refsReducer proto_refs delete_post_1 = Ok state' ∧
    state' !! "__proto__" = None.
Proof.
  split; [reflexivity|]. split; [reflexivity|].
  exists (without "post" "1" <$> delete "__proto__" proto_refs).
  split; reflexivity.
Qed.

(** C1, amended. A success event that is not a next page and carries a
    complete [refToDelete] (both [type] and [id] non-empty strings) turns a
    readable reference store into one where every reference has the
    pointers to [(type, id)] filtered out of its [entities] list: the pair
    occurs in no list of the new store, whatever the data key, and a
    reference whose [entities] is not a list is unchanged, unless its data
    key is ['__proto__']: the new store has no such key. *)
Theorem delete_removes_pointer_from_every_reference
    (state : gmap string value) (a : action) (isNextPage rtd : value)
    (type id : string) :
  atype a = JSON_API_SUCCESS ∨ atype a = JSON_API_BOOTSTRAP →
  get_prop (meta a) "isNextPage" = Ok isNextPage →
  truthy isNextPage = false →
  prop (meta a) "refToDelete" = rtd →
  truthy rtd = true →
  prop rtd "type" = VStr type → prop rtd "id" = VStr id →
  type ≠ "" → id ≠ "" →
  well_formed_refs state = true →
  ∃ state',
    refsReducer state a = Ok state' ∧
    state' = without type id <$> delete "__proto__" state ∧
    (∀ k ref' l', state' !! k = Some ref' → prop ref' "entities" = VArr l' →
       ∀ e, e ∈ l' → ¬ (prop e "type" = VStr type ∧ prop e "id" = VStr id)) ∧
    (∀ k ref, k ≠ "__proto__" → state !! k = Some ref →
       (∀ l, prop ref "entities" ≠ VArr l) → state' !! k = Some ref) ∧
    state' !! "__proto__" = None.
Proof.
  intros Hty Hnext Hfalse Hrtd Htruthy Ht Hi Htne Hine Hwf.
  exists (without type id <$> delete "__proto__" state).
  assert (refsReducer state a
          = Ok (without type id <$> delete "__proto__" state)) as Hred.
  { apply get_prop_Ok in Hnext as Hm. destruct Hm as [Hm _].
    unfold refsReducer. rewrite Hnext. cbn. rewrite Hfalse.
    unfold get_prop. rewrite Hm. cbn. rewrite Hrtd, Htruthy.
    rewrite (deleteRefFromEntities_complete type id) by done.
    by_success_type Hty. }
  split; [done|]. split; [done|]. split; [|split].
  - intros k ref' l' Hk Hl' e He.
    rewrite lookup_fmap in Hk.
    destruct (delete "__proto__" state !! k) as [ref|]; [|done].
    injection Hk as <-. unfold without in Hl'.
    destruct (prop ref "entities") eqn:Hents; try (by rewrite Hents in Hl').
    cbn in Hl'. rewrite lookup_insert_eq in Hl'. injection Hl' as <-.
    apply list_elem_of_filter in He as [He _].
    rewrite <- points_to_spec. by rewrite He.
  - intros k ref Hne Hk Hl.
    rewrite lookup_fmap, lookup_delete_ne, Hk by done. cbn. f_equal.
    unfold without. destruct (prop ref "entities") eqn:Hents; try done.
    by destruct (Hl l).
  - by rewrite lookup_fmap, lookup_delete_eq.
Qed.

Lemma delete_removes_pointer_witness :
  ∃ state',
    refsReducer sample_refs delete_post_1 = Ok state' ∧
    state' !! "feed"
      = Some (VObj (obj_lit ∅ [("entities", VArr [post "2"]);
                               ("isCollection", VBool true)])) ∧
    state' !! "settings" = sample_refs !! "settings".
Proof.
  destruct (delete_removes_pointer_from_every_reference
              sample_refs delete_post_1 VUndef (post "1") "post" "1")
    as (state' & Hred & -> & _ & _);
    [by left | reflexivity | reflexivity | reflexivity | reflexivity
    | reflexivity | reflexivity | discriminate | discriminate
    | reflexivity |].
  exists (without "post" "1" <$> delete "__proto__" sample_refs).
  split; [exact Hred|]. split; reflexivity.
Defined.

(** C2. When the data key already holds a reference with an [entities]
    list, a next-page success carrying a reference with an [entities] list
    stores the new reference with [entities] replaced by the old list
    followed by the new one; every other field, [links] and [meta]
    included, is the new reference's. *)
Theorem next_page_appends (state : gmap string value) (a : action)
    (isNextPage dataKey : value) (old new : gmap string value)
    (es es' : list value) :
  atype a = JSON_API_SUCCESS ∨ atype a = JSON_API_BOOTSTRAP →
  get_prop (meta a) "isNextPage" = Ok isNextPage →
  truthy isNextPage = true →
  prop (meta a) "dataKey" = dataKey →
  get_prop (payload a) "newRequestRef" = Ok (VObj new) →
  state !! to_str dataKey = Some (VObj old) →
  old !! "entities" = Some (VArr es) →
  new !! "entities" = Some (VArr es') →
  ∃ r,
    refsReducer state a = Ok (<[to_str dataKey := VObj r]> state) ∧
    r !! "entities" = Some (VArr (es ++ es')) ∧
    r !! "links" = new !! "links" ∧
    r !! "meta" = new !! "meta" ∧
    (∀ k, k ≠ "entities" → r !! k = new !! k).
Proof.
  intros Hty Hnext Htrue Hkey Hnew Hold Hes Hes'.
  exists (<["entities" := VArr (es ++ es')]> new).
  apply get_prop_Ok in Hnext as [Hm ->].
  apply get_prop_Ok in Hnew as [Hp Hnew].
  split.
  - unfold refsReducer, get_prop. rewrite Hm, Hp. cbn.
    rewrite Htrue, <- Hnew, Hkey, Hold. cbn.
    rewrite Hes, Hes'. cbn. by_success_type Hty.
  - rewrite lookup_insert_eq. repeat split; try by rewrite lookup_insert_ne.
    intros k Hk. by rewrite lookup_insert_ne.
Qed.

Lemma next_page_appends_witness :
  ∃ r,
    refsReducer (<["feed" := VObj feed_ref]> ∅) next_page_action
      = Ok (<["feed" := VObj r]> (<["feed" := VObj feed_ref]> ∅)) ∧
    r !! "entities" = Some (VArr [post "1"; post "2"; post "3"]).
Proof.
  destruct (next_page_appends (<["feed" := VObj feed_ref]> ∅) next_page_action
              (VBool true) (VStr "feed") feed_ref page_two_ref
              [post "1"; post "2"] [post "3"])
    as (r & Hred & Hents & _);
    [by left | reflexivity | reflexivity | reflexivity | reflexivity
    | reflexivity | reflexivity | reflexivity |].
  exists r. split; [exact Hred | exact Hents].
Defined.

(** C8. When the data key has no reference (its slot is [undefined] or
    [null]), a next-page success does not return: the reducer throws a
    [TypeError], so no state, and no synthesized reference, comes out. *)
Theorem next_page_without_reference_throws (state : gmap string value)
    (a : action) (isNextPage : value) :
  atype a = JSON_API_SUCCESS ∨ atype a = JSON_API_BOOTSTRAP →
  get_prop (meta a) "isNextPage" = Ok isNextPage →
  truthy isNextPage = true →
  nullish (default VUndef (state !! to_str (prop (meta a) "dataKey"))) = true →
  refsReducer state a = Throw TypeError ∧
  ∀ state', refsReducer state a ≠ Ok state'.
Proof.
  intros Hty Hnext Htrue Hnone.
  assert (refsReducer state a = Throw TypeError) as Hthrow.
  { apply get_prop_Ok in Hnext as Hm. destruct Hm as [Hm _].
    unfold refsReducer. rewrite Hnext. cbn. rewrite Htrue.
    unfold get_prop. rewrite Hm.
    destruct (nullish (payload a)); cbn; rewrite ?Hnone;
      by_success_type Hty. }
  split; [done|]. intros state'. by rewrite Hthrow.
Qed.

Lemma next_page_without_reference_witness :
  refsReducer ∅ next_page_action = Throw TypeError.
Proof.
  apply (next_page_without_reference_throws ∅ next_page_action (VBool true));
    [by left | reflexivity | reflexivity | reflexivity].
Defined.

(** The reference store on a success event whose [refToDelete] is present
    but lacks a truthy [type] or [id]: the state comes back unchanged. *)
Lemma incomplete_delete_keeps_refs (state : gmap string value) (a : action)
    (isNextPage rtd : value) :
  atype a = JSON_API_SUCCESS ∨ atype a = JSON_API_BOOTSTRAP →
  get_prop (meta a) "isNextPage" = Ok isNextPage →
  truthy isNextPage = false →
  prop (meta a) "refToDelete" = rtd →
  truthy rtd = true →
  truthy (prop rtd "type") = false ∨ truthy (prop rtd "id") = false →
  refsReducer state a = Ok state.
Proof.
  intros Hty Hnext Hfalse Hrtd Htruthy Hinc.
  apply get_prop_Ok in Hnext as [Hm ->].
  assert (is_undef rtd = false) as Hu by (by destruct rtd).
  assert (nullish rtd = false) as Hn by (by destruct rtd).
  unfold refsReducer, deleteRefFromEntities, get_prop. rewrite Hm. cbn.
  rewrite Hfalse, Hrtd, Htruthy, Hu, Hn. cbn.
  destruct Hinc as [-> | ->]; rewrite ?orb_true_r;
    by_success_type Hty.
Qed.

(** Without any [refToDelete] the event is an ordinary success: the
    reference of the data key is replaced. *)
Lemma delete_without_ref_replaces_reference :
  refsReducer sample_refs
    (Action JSON_API_SUCCESS (VObj (obj_lit ∅ [("dataKey", VStr "post:1")]))
       (VObj ∅))
  = Ok (<["post:1" := VUndef]> sample_refs).
Proof. reflexivity. Qed.
End RefsSpec.

(** ** The entity store *)

Module EntitiesSpec.
Import Entities Samples.

Lemma assign_lookup (base over : gmap string value) (f : string) :
  assign base over !! f
  = match over !! f with Some v => Some v | None => base !! f end.
Proof.
  unfold assign. rewrite lookup_union.
  by destruct (over !! f), (base !! f).
Qed.

(** [get] at a property name without path syntax reads that property. *)
Lemma get_plain (o : value) (k : string) (dflt : value) :
  Lodash.is_deep_path k = false →
  Lodash.get o k dflt
  = if nullish o then dflt
    else if is_undef (prop o k) then dflt else prop o k.
Proof.
  intros Hk. unfold Lodash.get, Lodash.castPath, Lodash.isKey.
  rewrite Hk. cbn. by destruct (nullish o).
Qed.

(** The table [{...get(newState, type, {})}] for a plain type name. *)
Lemma table_of_plain_type (newState : gmap string (gmap string value))
    (type : string) :
  Lodash.is_deep_path type = false →
  spread (Lodash.get_key (state_value newState) (VStr type) (VObj ∅))
  = default ∅ (newState !! type).
Proof.
  intros Hk. cbn [Lodash.get_key]. rewrite get_plain by done.
  unfold state_value. cbn. rewrite lookup_fmap.
  by destruct (newState !! type).
Qed.

Lemma entries_of_object (m : gmap string value) :
  Lodash.array_like_length m = None →
  Lodash.entries (VObj m)
  = (λ kv : string * value, (kv.2, VStr kv.1)) <$> map_to_list m.
Proof. intros H. unfold Lodash.entries. by rewrite H. Qed.

Lemma not_array_like (m : gmap string value) :
  (∀ v, m !! "length" = Some v → ∃ m', v = VObj m') →
  Lodash.array_like_length m = None.
Proof.
  intros H. unfold Lodash.array_like_length.
  destruct (m !! "length") as [v|]; [|done].
  by destruct (H v eq_refl) as [m' ->].
Qed.

(** The inner loop over a list of [(id, entity)] pairs with distinct ids. *)
Lemma merge_entities_list (type : value) (l : list (string * value))
    (table : gmap string value) (i : string) :
  NoDup l.*1 →
  foldl (λ table ev,
           assigned table (to_str ev.2)
             (merged_record type ev.2 (prop (VObj table) (to_str ev.2)) ev.1))
        table ((λ kv : string * value, (kv.2, VStr kv.1)) <$> l) !! i
  = match (list_to_map l : gmap string value) !! i with
    | Some e =>
        assigned table i
          (merged_record type (VStr i) (default VUndef (table !! i)) e) !! i
    | None => table !! i
    end.
Proof.
  revert table. induction l as [|[k v] l IH]; intros table Hnd; [done|].
  apply NoDup_cons in Hnd as [Hk Hnd].
  cbn [fmap list_fmap foldl fst snd to_str list_to_map foldr uncurry].
  rewrite IH by done. destruct (decide (i = k)) as [->|Hne].
  - rewrite (not_elem_of_list_to_map_1 _ k) by done.
    by rewrite lookup_insert_eq.
  - rewrite lookup_insert_ne by done.
    destruct (list_to_map l !! i) as [e|];
      [rewrite !lookup_assigned_eq|]; by rewrite !(lookup_assigned_ne _ k i).
Qed.

Lemma merge_entities_lookup (type : value) (es table : gmap string value)
    (i : string) :
  Lodash.array_like_length es = None →
  merge_entities type table (VObj es) !! i
  = match es !! i with
    | Some e =>
        assigned table i
          (merged_record type (VStr i) (default VUndef (table !! i)) e) !! i
    | None => table !! i
    end.
Proof.
  intros Hes. unfold merge_entities. rewrite entries_of_object by done.
  rewrite merge_entities_list by apply NoDup_fst_map_to_list.
  by rewrite list_to_map_to_list.
Qed.

(** The outer loop over a list of [(type, entities)] pairs with distinct,
    plain type names. *)
Lemma merge_fragment_list (l : list (string * value))
    (state : gmap string (gmap string value)) (t : string) :
  NoDup l.*1 →
  Forall (λ kv, Lodash.is_deep_path kv.1 = false) l →
  foldl (λ newState ev,
           let table :=
             spread (Lodash.get_key (state_value newState) ev.2 (VObj ∅)) in
           assigned newState (to_str ev.2) (merge_entities ev.2 table ev.1))
        state ((λ kv : string * value, (kv.2, VStr kv.1)) <$> l) !! t
  = match (list_to_map l : gmap string value) !! t with
    | Some ents =>
        assigned state t
          (merge_entities (VStr t) (default ∅ (state !! t)) ents) !! t
    | None => state !! t
    end.
Proof.
  revert state. induction l as [|[k v] l IH]; intros state Hnd Hplain; [done|].
  apply NoDup_cons in Hnd as [Hk Hnd].
  apply Forall_cons in Hplain as [Hkp Hplain].
  cbn [fmap list_fmap foldl fst snd to_str list_to_map foldr uncurry].
  rewrite IH by done. rewrite table_of_plain_type by done.
  destruct (decide (t = k)) as [->|Hne].
  - rewrite (not_elem_of_list_to_map_1 _ k) by done.
    by rewrite lookup_insert_eq.
  - rewrite lookup_insert_ne by done.
    destruct (list_to_map l !! t) as [ents|];
      [rewrite !lookup_assigned_eq|]; by rewrite !(lookup_assigned_ne _ k t).
Qed.

(** What a well-formed fragment holds at a type name. *)
Lemma fragment_entry (frag : gmap string value) (type : string) (ents : value) :
  well_formed_fragment frag = true → frag !! type = Some ents →
  Lodash.is_deep_path type = false ∧
  ∃ es, ents = VObj es ∧ ∀ id e, es !! id = Some e → ∃ m, e = VObj m.
Proof.
  intros Hwf Ht. pose proof (forallb_map_to_list _ _ _ _ Hwf Ht) as Hentry.
  unfold entity_table in Hentry. cbn [fst snd] in Hentry.
  apply andb_true_iff in Hentry as [Hplain%negb_true_iff Hes].
  split; [done|]. destruct ents as [| | | | | | | |es]; try done.
  exists es. split; [done|]. intros id e He.
  pose proof (forallb_map_to_list _ _ _ _ Hes He) as Hobj.
  cbn [snd] in Hobj. destruct e; try done. by eexists.
Qed.

Lemma merge_fragment_lookup (frag : gmap string value)
    (state : gmap string (gmap string value)) (t : string) :
  well_formed_fragment frag = true →
  merge_fragment state (VObj frag) !! t
  = match frag !! t with
    | Some ents =>
        assigned state t
          (merge_entities (VStr t) (default ∅ (state !! t)) ents) !! t
    | None => state !! t
    end.
Proof.
  intros Hwf. unfold merge_fragment. rewrite entries_of_object.
  - rewrite merge_fragment_list.
    + by rewrite list_to_map_to_list.
    + apply NoDup_fst_map_to_list.
    + apply Forall_forall. intros [k v] Hin%elem_of_map_to_list.
      by destruct (fragment_entry _ _ _ Hwf Hin).
  - apply not_array_like. intros v Hv.
    destruct (fragment_entry _ _ _ Hwf Hv) as (_ & es & -> & _). eauto.
Qed.

(** What a fragment without ['__proto__'] holds. *)
Lemma stored_entry (frag : gmap string value) (type : string) (ents : value) :
  stored_names frag = true → frag !! type = Some ents →
  type ≠ "__proto__" ∧
  ∀ es id e, ents = VObj es → es !! id = Some e → id ≠ "__proto__".
Proof.
  intros Hst Ht. pose proof (forallb_map_to_list _ _ _ _ Hst Ht) as Hentry.
  cbn [fst snd] in Hentry. apply andb_true_iff in Hentry as [Hty Hes].
  unfold stored_name in Hty. apply negb_true_iff, String.eqb_neq in Hty.
  split; [done|]. intros es id e -> Hid.
  pose proof (forallb_map_to_list _ _ _ _ Hes Hid) as Hname.
  cbn [fst] in Hname. unfold stored_name in Hname.
  by apply negb_true_iff, String.eqb_neq in Hname.
Qed.

(** The store after a well-formed fragment, entity by entity. *)
Lemma merge_fragment_entity (frag : gmap string value)
    (state : gmap string (gmap string value)) (t i : string) :
  well_formed_fragment frag = true →
  stored_names frag = true →
  entity (merge_fragment state (VObj frag)) t i
  = match mentioned frag t i with
    | Some e =>
        Some (merged_record (VStr t) (VStr i)
                (default VUndef (entity state t i)) e)
    | None => entity state t i
    end.
Proof.
  intros Hwf Hst. unfold entity, mentioned.
  rewrite merge_fragment_lookup by done.
  destruct (frag !! t) as [ents|] eqn:Ht; [|done].
  destruct (fragment_entry _ _ _ Hwf Ht) as (_ & es & -> & Hes).
  destruct (stored_entry _ _ _ Hst Ht) as [Hty Hids].
  rewrite lookup_assigned_stored by done. cbn [mbind option_bind].
  rewrite merge_entities_lookup.
  - destruct (es !! i) as [e|] eqn:Hi.
    + rewrite lookup_assigned_stored by (by eapply Hids).
      by destruct (state !! t) as [table|].
    + destruct (state !! t) as [table|]; cbn; [done | by rewrite lookup_empty].
  - apply not_array_like. intros v Hv. by apply (Hes _ _ Hv).
Qed.

(** The fields of a merged record. *)
Lemma merged_record_fields (type id old e : value) (name f : string) :
  name = "attributes" ∨ name = "relationships" →
  fields name (merged_record type id old e) !! f
  = match fields name e !! f with
    | Some v => Some v
    | None => fields name old !! f
    end.
Proof.
  intros [-> | ->]; unfold fields at 1, merged_record;
    rewrite get_plain by done; cbn.
  - rewrite lookup_insert_ne, lookup_insert_eq by done. cbn.
    by rewrite assign_lookup.
  - rewrite lookup_insert_eq. cbn. by rewrite assign_lookup.
Qed.

Lemma if_undef_id (v : value) : (if is_undef v then VUndef else v) = v.
Proof. by destruct v. Qed.

Lemma get_refToDelete (a : action) :
  Lodash.get (action_value a) "meta.refToDelete" VUndef
  = prop (meta a) "refToDelete".
Proof.
  unfold Lodash.get, Lodash.castPath, Lodash.isKey, action_value.
  replace (Lodash.is_deep_path "meta.refToDelete") with true by reflexivity.
  cbn [negb orb Lodash.has_own].
  rewrite lookup_insert_ne, lookup_insert_ne, lookup_empty by done.
  rewrite (bool_decide_eq_false_2 (is_Some None)) by (by intros [? ?]).
  change (Lodash.split_on "." "meta.refToDelete") with ["meta"; "refToDelete"].
  cbn [Lodash.baseGet nullish prop]. rewrite lookup_insert_eq. cbn [default].
  unfold id. destruct (meta a); try done; cbn [nullish]; apply if_undef_id.
Qed.

Lemma get_storeFragment (a : action) (frag : gmap string value) :
  prop (payload a) "storeFragment" = VObj frag →
  Lodash.get (action_value a) "payload.storeFragment" (VObj ∅) = VObj frag.
Proof.
  intros Hf.
  unfold Lodash.get, Lodash.castPath, Lodash.isKey, action_value.
  replace (Lodash.is_deep_path "payload.storeFragment") with true
    by reflexivity.
  cbn [negb orb Lodash.has_own].
  rewrite lookup_insert_ne, lookup_insert_ne, lookup_empty by done.
  rewrite (bool_decide_eq_false_2 (is_Some None)) by (by intros [? ?]).
  change (Lodash.split_on "." "payload.storeFragment")
    with ["payload"; "storeFragment"].
  cbn [Lodash.baseGet nullish prop].
  rewrite lookup_insert_ne, lookup_insert_eq by done. cbn [default].
  unfold id.
  destruct (nullish (payload a)) eqn:Hn; [by destruct (payload a)|].
  by rewrite Hf.
Qed.

(** The scenario, computed: the two fragments in turn leave article 1 with
    both attributes. *)
Example scenario_two_fragments :
  entitiesReducer initialState (fragment_action article_meta title_fragment)
    = Ok titled_store ∧
  ∃ state',
    entitiesReducer titled_store (fragment_action article_meta views_fragment)
      = Ok state' ∧
    entity state' "article" "1"
      = Some (VObj (obj_lit ∅
          [("type", VStr "article");
           ("id", VStr "1");
           ("attributes",
              VObj (obj_lit ∅ [("title", VStr "A"); ("views", VNum 10)]));
           ("relationships", VObj ∅)])).
Proof.
  split; [reflexivity|]. eexists. split; reflexivity.
Qed.

(** C3, as stated, fails: a success event may carry a complete
    [refToDelete] next to its fragment, and then the record of that
    [(type, id)], which the fragment does not mention, is removed. *)
Lemma fragment_with_delete_ref_drops_entity :
  atype delete_article_1 = JSON_API_SUCCESS ∧
  prop (payload delete_article_1) "storeFragment" = VObj article_2_fragment ∧
  mentioned article_2_fragment "article" "1" = None ∧
  ∃ state',
    entitiesReducer titled_store delete_article_1 = Ok state' ∧
    entity state' "article" "1" = None ∧
    entity state' "article" "1" ≠ entity titled_store "article" "1".
Proof.
  split; [reflexivity|]. split; [reflexivity|]. split; [reflexivity|].
  eexists. split; [reflexivity|]. split; [reflexivity|].
  vm_compute. discriminate.
Qed.

(** Why a fragment's type names must be plain: for a new type spelled
    ["article.1"], [get(newState, type, {})] walks the path and finds the
    record of article 1, whose fields become entries of the new table. *)
Lemma dotted_type_copies_a_record :
  mentioned dotted_fragment "article.1" "type" = None ∧
  entity titled_store "article.1" "type" = None ∧
  ∃ state',
    entitiesReducer titled_store (fragment_action article_meta dotted_fragment)
      = Ok state' ∧
    entity state' "article.1" "type" = Some (VStr "article").
Proof.
  split; [reflexivity|]. split; [reflexivity|].
  eexists. split; reflexivity.
Qed.

(** C3, amended. On a fetch-success or bootstrap event that carries a
    well-formed store fragment (plain type names, entity objects, no type
    and no id named ['__proto__']) and no complete [refToDelete], every
    [(type, id)] the fragment mentions ends up with a record whose
    attributes and relationships are those of the fragment's entity laid
    field by field over those of the prior record (the update wins a
    field, a field it lacks is kept, a missing record counts as empty),
    and every other [(type, id)] is unchanged. *)
Theorem fragment_merges_field_by_field
    (state : gmap string (gmap string value)) (a : action)
    (frag : gmap string value) :
  atype a = JSON_API_SUCCESS ∨ atype a = JSON_API_BOOTSTRAP →
  prop (payload a) "storeFragment" = VObj frag →
  well_formed_fragment frag = true →
  stored_names frag = true →
  should_delete (prop (meta a) "refToDelete") = false →
  ∃ state',
    entitiesReducer state a = Ok state' ∧
    (∀ t i e, mentioned frag t i = Some e →
       ∃ r, entity state' t i = Some (VObj r) ∧
         r !! "type" = Some (VStr t) ∧
         r !! "id" = Some (VStr i) ∧
         ∀ name f, name = "attributes" ∨ name = "relationships" →
           fields name (VObj r) !! f
           = match fields name e !! f with
             | Some v => Some v
             | None => fields name (default VUndef (entity state t i)) !! f
             end) ∧
    (∀ t i, mentioned frag t i = None → entity state' t i = entity state t i).
Proof.
  intros Hty Hfrag Hwf Hst Hdel. exists (merge_fragment state (VObj frag)).
  split.
  - unfold entitiesReducer.
    rewrite (get_storeFragment a frag Hfrag), get_refToDelete, Hdel.
    by_success_type Hty.
  - split.
    + intros t i e He. rewrite merge_fragment_entity, He by done.
      eexists. split; [reflexivity|]. split; [done|]. split; [done|].
      intros name f Hname. by apply merged_record_fields.
    + intros t i He. by rewrite merge_fragment_entity, He.
Qed.

Lemma fragment_merges_witness :
  ∃ state' r,
    entitiesReducer titled_store (fragment_action article_meta views_fragment)
      = Ok state' ∧
    entity state' "article" "1" = Some (VObj r) ∧
    fields "attributes" (VObj r) !! "title" = Some (VStr "A") ∧
    fields "attributes" (VObj r) !! "views" = Some (VNum 10).
Proof.
  destruct (fragment_merges_field_by_field titled_store
              (fragment_action article_meta views_fragment) views_fragment)
    as (state' & Hred & Hin & _);
    [by left | reflexivity | reflexivity | reflexivity | reflexivity |].
  destruct (Hin "article" "1" (attributes_only [("views", VNum 10)]) eq_refl)
    as (r & Hr & _ & _ & Hfields).
  exists state', r. split; [exact Hred|]. split; [exact Hr|].
  split; (rewrite Hfields by (by left)); reflexivity.
Defined.




(** The entity store on a success event without a store fragment and
    without a complete [refToDelete]: the state comes back unchanged. *)
Lemma no_fragment_no_delete_keeps_entities
    (state : gmap string (gmap string value)) (a : action) :
  atype a = JSON_API_SUCCESS ∨ atype a = JSON_API_BOOTSTRAP →
  Lodash.entries
    (Lodash.get (action_value a) "payload.storeFragment" (VObj ∅)) = [] →
  should_delete (prop (meta a) "refToDelete") = false →
  entitiesReducer state a = Ok state.
Proof.
  intros Hty Hfrag Hdel. unfold entitiesReducer, merge_fragment.
  rewrite Hfrag, get_refToDelete, Hdel. by_success_type Hty.
Qed.

End EntitiesSpec.

(** ** The reference normalizer *)

Module NormalizerSpec.
Import Normalizer Samples.

Lemma to_pointer_Ok (x : value) :
  readable x = true → to_pointer x = Ok (pointer (prop x "type") (prop x "id")).
Proof.
  intros Hx%readable_nullish. unfold to_pointer, get_prop. by rewrite Hx.
Qed.

Lemma mapM_to_pointer (l : list value) :
  forallb readable l = true →
  mapM_result to_pointer l
  = Ok ((λ x, pointer (prop x "type") (prop x "id")) <$> l).
Proof.
  induction l as [|x l IH]; [done|]. intros [Hx Hl]%andb_true_iff.
  cbn [mapM_result fmap list_fmap]. by rewrite to_pointer_Ok, IH.
Qed.

Lemma truthy_readable (v : value) : truthy v = true → readable v = true.
Proof. by destruct v. Qed.

(** What [makeRef] reads from the [data] field. *)
Lemma from_data_Ok (data : value) :
  truthy data = true → readable_linkage data = true →
  match data with
  | VArr l =>
      pointers ← mapM_result to_pointer l;
      Ok (VArr pointers, VBool true)
  | _ =>
      p ← to_pointer data;
      Ok (VArr [p], VBool false)
  end = Ok (VArr (linkage_pointers data), VBool (is_list data)).
Proof.
  intros Ht Hl. apply truthy_readable in Ht as Hn.
  destruct data; try done; try (by rewrite to_pointer_Ok).
  cbn. by rewrite mapM_to_pointer.
Qed.

(** C6, as stated, fails: for an input with a [data] linkage and also
    [type], [id] and [attributes], the flat-resource rule runs after the
    linkage rule and overwrites its result. *)
Lemma flat_resource_overrides_linkage :
  truthy (prop linkage_and_resource "_ref") = false ∧
  prop linkage_and_resource "data" = VArr [post "3"] ∧
  ∃ r,
    makeRef linkage_and_resource VUndef = Ok (VObj r) ∧
    r !! "entities" = Some (VArr [post "1"]) ∧
    r !! "entities"
      ≠ Some (VArr (linkage_pointers (prop linkage_and_resource "data"))) ∧
    r !! "isCollection" = Some (VBool false) ∧
    r !! "isCollection"
      ≠ Some (VBool (is_list (prop linkage_and_resource "data"))).
Proof.
  split; [reflexivity|]. split; [reflexivity|].
  exists (obj_lit ∅
            [("entities", VArr [post "1"]);
             ("isCollection", VBool false);
             ("links", VUndef);
             ("meta", VUndef)]).
  split; [reflexivity|]. split; [reflexivity|].
  split; [vm_compute; discriminate|].
  split; [reflexivity | vm_compute; discriminate].
Qed.

(** C6, amended. For an input without backing-reference marker and with a
    truthy, readable [data] field, the entities are the pointers of the
    [data] linkage and [isCollection] tells whether [data] is a list,
    unless [type], [id] and [attributes] are all truthy as well: then the
    flat-resource rule wins, with the single pointer [(type, id)] and
    [isCollection = false].  A truthy [isCollection] option forces [true]
    in both cases; [links] and [meta] are the input's. *)
Theorem linkage_decides_unless_flat_resource (input options : value) :
  truthy (prop input "_ref") = false →
  truthy (prop input "data") = true →
  readable_linkage (prop input "data") = true →
  options ≠ VNull →
  makeRef input options
  = Ok (VObj (obj_lit ∅
          [("entities",
            if flat_resource input
            then VArr [pointer (prop input "type") (prop input "id")]
            else VArr (linkage_pointers (prop input "data")));
           ("isCollection",
            if truthy (prop options "isCollection") then VBool true
            else if flat_resource input then VBool false
            else VBool (is_list (prop input "data")));
           ("links", prop input "links");
           ("meta", prop input "meta")])).
Proof.
  intros Href Hdata Hread Hopt.
  assert (nullish input = false) as Hn by (by destruct input).
  assert (is_undef input = false) as Hu by (by destruct input).
  assert (nullish (if is_undef options then VObj ∅ else options) = false)
    as Hon by (by destruct options).
  assert (prop (if is_undef options then VObj ∅ else options) "isCollection"
          = prop options "isCollection") as Hop by (by destruct options).
  unfold makeRef, get_prop. rewrite Hu, Hon, Hop.
  cbn [mbind result_bind]. rewrite Hn. cbn [mbind result_bind].
  rewrite Href, Hn. cbn [mbind result_bind]. rewrite Hdata.
  fold (get_prop (prop input "data")).
  rewrite (from_data_Ok _ Hdata Hread). cbn.
  fold (flat_resource input).
  by destruct (flat_resource input), (truthy (prop options "isCollection")).
Qed.

Lemma linkage_decides_witness :
  makeRef linkage_only VUndef
  = Ok (VObj (obj_lit ∅
          [("entities", VArr [post "1"; post "2"]);
           ("isCollection", VBool true);
           ("links", VUndef);
           ("meta", VUndef)])).
Proof.
  apply (linkage_decides_unless_flat_resource linkage_only VUndef);
    [reflexivity | reflexivity | reflexivity | discriminate].
Defined.

(** C7, as stated, fails: an explicit [isCollection: false] does not
    override the inference; a list linkage still gives [true]. *)
Lemma false_option_does_not_override :
  prop not_a_collection "isCollection" = VBool false ∧
  ∃ r,
    makeRef linkage_only not_a_collection = Ok (VObj r) ∧
    r !! "isCollection" = Some (VBool true) ∧
    r !! "isCollection" ≠ Some (prop not_a_collection "isCollection").
Proof.
  split; [reflexivity|].
  exists (obj_lit ∅
            [("entities", VArr [post "1"; post "2"]);
             ("isCollection", VBool true);
             ("links", VUndef);
             ("meta", VUndef)]).
  split; [reflexivity|]. split; [reflexivity | vm_compute; discriminate].
Qed.

Lemma override_fields (entities isCollection links meta : value) :
  obj_lit ∅ [("entities", entities); ("isCollection", VBool true);
             ("links", links); ("meta", meta)]
  = <["isCollection" := VBool true]>
      (obj_lit ∅ [("entities", entities); ("isCollection", isCollection);
                  ("links", links); ("meta", meta)]).
Proof.
  unfold obj_lit. cbn [foldl fst snd].
  rewrite (insert_insert_ne _ "isCollection" "meta") by done.
  rewrite (insert_insert_ne _ "isCollection" "links") by done.
  by rewrite insert_insert_eq.
Qed.

(** C7, amended. The [isCollection] option only ever forces [true]: when
    it is truthy the returned reference is the inferred one with
    [isCollection = true]; when it is falsy, [false] included, the inferred
    reference is returned as it is. *)
Theorem isCollection_option_only_forces_true (input options : value)
    (inferred : gmap string value) :
  options ≠ VNull →
  makeRef input VUndef = Ok (VObj inferred) →
  makeRef input options
  = Ok (VObj (if truthy (prop options "isCollection")
              then <["isCollection" := VBool true]> inferred
              else inferred)).
Proof.
  intros Hopt. unfold makeRef. cbn [is_undef].
  assert (nullish (if is_undef options then VObj ∅ else options) = false)
    as Hn by (by destruct options).
  assert (prop (if is_undef options then VObj ∅ else options) "isCollection"
          = prop options "isCollection") as Hp by (by destruct options).
  set (input' := if is_undef input then VObj ∅ else input).
  destruct (get_prop input' "_ref") as [_ref|]; [|done]. cbn.
  set (toProcess := if truthy _ref then _ref else input').
  unfold get_prop. destruct (nullish toProcess); [done|]. cbn.
  match goal with
  | |- context [mbind _ ?r] => destruct r as [[ents coll]|]; [|done]
  end.
  cbn. rewrite Hn. cbn. rewrite Hp, lookup_empty. cbn. intros [= <-].
  destruct (truthy (prop options "isCollection")); [|done].
  apply (f_equal (λ m, Ok (VObj m))). apply override_fields.
Qed.

Lemma isCollection_option_witness :
  makeRef linkage_only not_a_collection = makeRef linkage_only VUndef.
Proof.
  rewrite (isCollection_option_only_forces_true linkage_only not_a_collection
             (obj_lit ∅
                [("entities", VArr [post "1"; post "2"]);
                 ("isCollection", VBool true);
                 ("links", VUndef);
                 ("meta", VUndef)]));
    [reflexivity | discriminate | reflexivity].
Defined.

End NormalizerSpec.

(** ** A delete outcome without a usable [refToDelete], store by store *)

Module StoresSpec.
Import Samples.

(** C9, as stated, fails: the request-status store records the success of
    a delete event whose [refToDelete] lacks the id, so its state
    changes. *)
Lemma incomplete_delete_changes_request_status :
  prop (meta incomplete_delete) "refToDelete"
    = VObj (obj_lit ∅ [("type", VStr "post")]) ∧
  ∃ state',
    Requests.requestsReducer 9 Requests.initialState incomplete_delete
      = Ok state' ∧
    state' !! "post:1" ≠ Requests.initialState !! "post:1".
Proof.
  split; [reflexivity|]. eexists. split; [reflexivity|]. discriminate.
Qed.

(** C9, amended. A success event that is not a next page, carries no store
    fragment, and whose [refToDelete] is present but lacks a truthy [type]
    or has no [id] leaves the reference store and the entity store
    unchanged in value, and neither reducer throws. *)
Theorem incomplete_delete_keeps_refs_and_entities
    (refs : gmap string value) (entities : gmap string (gmap string value))
    (a : action) (isNextPage rtd : value) :
  atype a = JSON_API_SUCCESS ∨ atype a = JSON_API_BOOTSTRAP →
  get_prop (meta a) "isNextPage" = Ok isNextPage →
  truthy isNextPage = false →
  prop (meta a) "refToDelete" = rtd →
  truthy rtd = true →
  truthy (prop rtd "type") = false ∨ is_undef (prop rtd "id") = true →
  Lodash.entries
    (Lodash.get (action_value a) "payload.storeFragment" (VObj ∅)) = [] →
  Refs.refsReducer refs a = Ok refs ∧
  Entities.entitiesReducer entities a = Ok entities.
Proof.
  intros Hty Hnext Hfalse Hrtd Htruthy Hinc Hfrag. split.
  - apply (RefsSpec.incomplete_delete_keeps_refs refs a isNextPage rtd);
      try done.
    destruct Hinc as [Ht | Hi]; [by left | right].
    by destruct (prop rtd "id").
  - apply EntitiesSpec.no_fragment_no_delete_keeps_entities; try done.
    rewrite Hrtd. unfold Entities.should_delete. rewrite Htruthy.
    destruct Hinc as [-> | ->]; [apply andb_false_r | done].
Qed.

Lemma incomplete_delete_witness :
  Refs.refsReducer sample_refs incomplete_delete = Ok sample_refs ∧
  Entities.entitiesReducer titled_store incomplete_delete = Ok titled_store.
Proof.
  apply (incomplete_delete_keeps_refs_and_entities sample_refs titled_store
           incomplete_delete VUndef (VObj (obj_lit ∅ [("type", VStr "post")])));
    [by left | reflexivity | reflexivity | reflexivity | reflexivity
    | by right | reflexivity].
Defined.

End StoresSpec.

(** ** Structural facts about values and the deep copy *)

Module ValuesSpec.

Lemma vsize_lookup (m : gmap string value) (k : string) (x : value) :
  m !! k = Some x → vsize x < vsize (VObj m).
Proof.
  intros Hk. cbn [vsize]. rewrite <- (insert_delete_id m k x Hk).
  rewrite map_fold_insert_L; [lia | intros; lia | apply lookup_delete_eq].
Qed.

Lemma vsize_elem (l : list value) (x : value) :
  x ∈ l → vsize x < vsize (VArr l).
Proof.
  cbn [vsize]. induction 1 as [x l|x y l _ IH]; cbn [foldr]; lia.
Qed.

(** Induction on values through arrays and objects. *)
Lemma value_rect_nested (P : value → Prop) :
  P VUndef → P VNull → (∀ b, P (VBool b)) → (∀ z, P (VNum z)) →
  P VNaN → (∀ negative, P (VInf negative)) →
  (∀ s, P (VStr s)) →
  (∀ l, Forall P l → P (VArr l)) →
  (∀ m, map_Forall (λ _, P) m → P (VObj m)) →
  ∀ v, P v.
Proof.
  intros Hu Hn Hb Hz Hnan Hinf Hs Ha Ho v.
  induction (Nat.lt_wf_0_projected vsize v) as [v _ IH].
  destruct v as [| | | | | | |l|m]; auto.
  - apply Ha, Forall_forall. intros x Hx. by apply IH, vsize_elem.
  - apply Ho. intros k x Hk. by eapply IH, vsize_lookup.
Qed.

Lemma json_safe_obj (m : gmap string value) :
  json_safe (VObj m) = true ↔ map_Forall (λ _ x, json_safe x = true) m.
Proof.
  cbn [json_safe].
  apply (map_fold_weak_ind
           (λ b m, b = true ↔ map_Forall (λ _ x, json_safe x = true) m)).
  - split; [intros _; apply map_Forall_empty | done].
  - intros k x m' r Hk IH. rewrite andb_true_iff, IH.
    by rewrite map_Forall_insert.
Qed.

Lemma json_safe_arr (l : list value) :
  json_safe (VArr l) = true ↔ Forall (λ x, json_safe x = true) l.
Proof.
  cbn [json_safe]. induction l as [|x l IH]; cbn [forallb].
  - split; [constructor | done].
  - by rewrite andb_true_iff, IH, Forall_cons.
Qed.

Lemma json_safe_defined (v : value) : json_safe v = true → is_undef v = false.
Proof. by destruct v. Qed.

(** The copy of a value without [undefined] is that value. *)
Lemma json_clone_safe (v : value) : json_safe v = true → json_clone v = v.
Proof.
  induction v as [| | | | | | |l IH|m IH] using value_rect_nested; try done.
  - intros Hl%json_safe_arr. cbn [json_clone]. f_equal.
    induction l as [|x l IHl]; [done|].
    apply Forall_cons in IH as [Hx IH]. apply Forall_cons in Hl as [Hsx Hl].
    cbn [map]. rewrite IHl by done. rewrite Hx by done. by destruct x.
  - intros Hm%json_safe_obj. cbn [json_clone]. f_equal.
    apply map_eq. intros k. rewrite lookup_omap.
    destruct (m !! k) as [x|] eqn:Hk; [|done]. cbn.
    rewrite (IH k x Hk) by (by apply (Hm k x)).
    pose proof (Hm k x Hk). by destruct x.
Qed.

(** The copy of anything but [undefined] has no [undefined] in it. *)
Lemma json_clone_is_safe (v : value) :
  is_undef v = false → json_safe (json_clone v) = true.
Proof.
  induction v as [| | | | | | |l IH|m IH] using value_rect_nested; try done.
  - intros _. apply json_safe_arr. cbn [json_clone].
    induction l as [|x l IHl]; [constructor|].
    apply Forall_cons in IH as [Hx IH]. cbn [map]. constructor; [|by apply IHl].
    destruct x; try done; by apply Hx.
  - intros _. apply json_safe_obj. cbn [json_clone].
    intros k y. rewrite lookup_omap.
    destruct (m !! k) as [x|] eqn:Hk; [|done]. cbn.
    pose proof (IH k x Hk) as Hx.
    destruct x; try done; intros [= <-]; by apply Hx.
Qed.

(** The decimal writing of a number starts with a digit. *)
Lemma pretty_N_go_head (c : ascii) (x : N) (s s' : string) :
  (∀ n, pretty_N_char n ≠ c) →
  s ≠ String c s' → pretty_N_go x s ≠ String c s'.
Proof.
  intros Hc. revert s. induction (N.lt_wf_0 x) as [x _ IH]; intros s Hs.
  assert (x = 0 ∨ 0 < x)%N as [->|Hx] by lia.
  - by rewrite pretty_N_go_0.
  - rewrite pretty_N_go_step by done. apply IH.
    { by apply N.div_lt. }
    intros [= Heq _]. by apply (Hc _ Heq).
Qed.

Lemma pretty_nat_head (c : ascii) (i : nat) (s' : string) :
  (∀ n, pretty_N_char n ≠ c) → pretty i ≠ String c s'.
Proof.
  intros Hc. unfold pretty, pretty_nat, pretty, pretty_N.
  case_decide.
  - intros [= Heq _]. by apply (Hc 0%N).
  - by apply pretty_N_go_head.
Qed.

(** An array or a string has no element under a name that does not start
    with a digit. *)
Lemma at_index_name (c : ascii) (s' : string) (l : list value) :
  (∀ n, pretty_N_char n ≠ c) → at_index (String c s') l = VUndef.
Proof.
  intros Hc. unfold at_index.
  destruct (list_find _ _) as [[j i]|] eqn:Hfind; [|done].
  apply list_find_Some in Hfind as (_ & Hp & _).
  by apply pretty_nat_head in Hp.
Qed.

Lemma not_a_digit_i : ∀ n, pretty_N_char n ≠ "i"%char.
Proof. intros n. unfold pretty_N_char. by repeat case_match. Qed.

Lemma not_a_digit_t : ∀ n, pretty_N_char n ≠ "t"%char.
Proof. intros n. unfold pretty_N_char. by repeat case_match. Qed.

Lemma array_has_no_identity (l : list value) :
  prop (VArr l) "id" = VUndef ∧ prop (VArr l) "type" = VUndef.
Proof.
  split; cbn -[at_index]; apply at_index_name;
    [apply not_a_digit_i | apply not_a_digit_t].
Qed.

End ValuesSpec.

(** ** More on the request-status store *)

Module RequestsMore.
Import Requests Samples Samples2.

(** In a state without [meta] fields, [existing] is [undefined] or the
    record of the data key spelled like the path. *)
Lemma existing_cases (state : gmap string (gmap string value)) :
  no_meta state →
  Lodash.get (state_value state) "action.meta.dataKey" VUndef
  = match state !! "action.meta.dataKey" with
    | Some r => VObj r
    | None => VUndef
    end.
Proof.
  intros Hmeta. unfold Lodash.get, Lodash.castPath, Lodash.isKey, state_value.
  replace (Lodash.is_deep_path "action.meta.dataKey") with true by reflexivity.
  cbn [negb orb Lodash.has_own]. rewrite lookup_fmap.
  destruct (state !! "action.meta.dataKey") as [r|] eqn:Hp;
    cbn [fmap option_fmap option_map].
  - rewrite bool_decide_eq_true_2 by eauto.
    cbn [Lodash.baseGet nullish prop]. by rewrite lookup_fmap, Hp.
  - rewrite (bool_decide_eq_false_2 (is_Some None)) by (by intros [? ?]).
    change (Lodash.split_on "." "action.meta.dataKey")
      with ["action"; "meta"; "dataKey"].
    cbn [Lodash.baseGet nullish prop]. rewrite lookup_fmap.
    destruct (state !! "action") as [r|] eqn:Ha; [|done].
    cbn. by rewrite (Hmeta _ _ Ha).
Qed.

Lemma spread_existing_no_meta (state : gmap string (gmap string value)) :
  no_meta state →
  spread (Lodash.get (state_value state) "action.meta.dataKey" VUndef)
    !! "meta" = None.
Proof.
  intros Hmeta. rewrite existing_cases by done.
  destruct (state !! "action.meta.dataKey") as [r|] eqn:Hp; [|done].
  by apply (Hmeta _ _ Hp).
Qed.

Lemma reducer_no_meta now (state state' : gmap string (gmap string value)) a :
  requestsReducer now state a = Ok state' → no_meta state → no_meta state'.
Proof.
  unfold requestsReducer. intros Hstep Hs.
  pose proof (spread_existing_no_meta state Hs) as Hex.
  destruct (atype a); simplify_eq; try done;
    repeat (apply bind_Ok in Hstep as (? & _ & Hstep)); simplify_eq;
    intros k r; rewrite lookup_insert; case_decide;
    try (by apply Hs); intros [= <-]; unfold obj_lit; cbn [foldl fst snd];
    by rewrite !lookup_insert_ne.
Qed.

Lemma run_no_meta events (state : gmap string (gmap string value)) :
  no_meta state → no_meta (run state events).
Proof.
  revert state. induction events as [|ev events IH]; intros state Hs; [done|].
  apply IH. unfold dispatch.
  destruct (requestsReducer _ _ _) eqn:Hstep; [|done].
  by eapply reducer_no_meta.
Qed.

(** X1. In every state reached from the initial state that has no data key
    spelled ["action.meta.dataKey"], [existing] is [undefined], also when a
    data key is named ["action"]: the reducer then never merges a prior
    record into the one it writes. *)
Theorem existing_undefined_in_reached_states (events : list (Z * action)) :
  run initialState events !! "action.meta.dataKey" = None →
  Lodash.get (state_value (run initialState events)) "action.meta.dataKey" VUndef
  = VUndef.
Proof.
  intros Hp. rewrite existing_cases, Hp; [done|].
  apply run_no_meta. by intros ? ? ?.
Qed.

Lemma existing_undefined_witness :
  is_Some (run initialState action_named_events !! "action") ∧
  Lodash.get (state_value (run initialState action_named_events))
    "action.meta.dataKey" VUndef = VUndef.
Proof.
  split; [eexists; reflexivity|].
  apply (existing_undefined_in_reached_states action_named_events).
  reflexivity.
Defined.

Lemma reducer_coherent now (state state' : gmap string (gmap string value)) a :
  requestsReducer now state a = Ok state' →
  (∀ k r, state !! k = Some r → status_coherent r = true) →
  ∀ k r, state' !! k = Some r → status_coherent r = true.
Proof.
  unfold requestsReducer. intros Hstep Hs.
  destruct (atype a); simplify_eq; try done;
    repeat (apply bind_Ok in Hstep as (? & _ & Hstep)); simplify_eq;
    intros k r; rewrite lookup_insert; case_decide;
    try (by apply Hs); intros [= <-];
    unfold status_coherent, flag, obj_lit; cbn [foldl fst snd];
    by simplify_map_eq.
Qed.

Lemma run_coherent events (state : gmap string (gmap string value)) :
  (∀ k r, state !! k = Some r → status_coherent r = true) →
  ∀ k r, run state events !! k = Some r → status_coherent r = true.
Proof.
  revert state. induction events as [|ev events IH]; intros state Hs; [done|].
  cbn [run foldl]. apply IH. unfold dispatch.
  destruct (requestsReducer _ _ _) eqn:Hstep; [|done].
  by eapply reducer_coherent.
Qed.

(** X2. In every state reached from the initial state, every status record
    has a [status] among ['pending'], ['success'] and ['error'], and its
    booleans agree with it: [isLoading] is [true] exactly when pending; a
    success is loaded and not in error; an error is in error and not
    loaded. *)
Theorem status_booleans_follow_status (events : list (Z * action))
    (k : string) (r : gmap string value) :
  run initialState events !! k = Some r → status_coherent r = true.
Proof. by apply run_coherent. Qed.

Lemma status_booleans_witness :
  status_coherent
    (obj_lit ∅
       [("status", VStr "error");
        ("name", VStr "ApiError");
        ("errors", VArr [VStr "boom"]);
        ("fetchedAt", VNum 4);
        ("isError", VBool true);
        ("isLoaded", VBool false);
        ("isLoading", VBool false);
        ("pending", VUndef)]) = true.
Proof.
  apply (status_booleans_follow_status (feed_events ++ take 2 later_events)
           "feed").
  reflexivity.
Defined.

(** X3. A transition rewrites the record of the event's data key only: the
    record of every other data key is the one of the prior state. *)
Theorem transition_touches_one_key now
    (state state' : gmap string (gmap string value)) (a : action) (k : string) :
  requestsReducer now state a = Ok state' →
  k ≠ to_str (prop (meta a) "dataKey") →
  state' !! k = state !! k.
Proof.
  unfold requestsReducer. intros Hstep Hk.
  destruct (atype a); simplify_eq; try done;
    apply bind_Ok in Hstep as (dataKey & [_ ->]%get_prop_Ok & Hstep);
    repeat (apply bind_Ok in Hstep as (? & _ & Hstep)); simplify_eq;
    by rewrite lookup_insert_ne.
Qed.

Lemma transition_touches_one_key_witness :
  run initialState (feed_events ++ later_events) !! "feed"
  = run initialState (feed_events ++ take 2 later_events) !! "feed".
Proof.
  apply (transition_touches_one_key 5
           (run initialState (feed_events ++ take 2 later_events))
           (run initialState (feed_events ++ later_events))
           (Action JSON_API_REQUEST
              (VObj (obj_lit ∅ [("dataKey", VStr "user:1");
                                ("method", VStr "GET")])) VUndef));
    [reflexivity | discriminate].
Defined.

End RequestsMore.

(** ** More on the reference store *)

Module RefsMore.
Import Refs Samples Samples2.

Lemma forallb_map_to_list_intro {A} (p : string * A → bool)
    (m : gmap string A) :
  (∀ k x, m !! k = Some x → p (k, x) = true) →
  forallb p (map_to_list m) = true.
Proof.
  intros H. apply forallb_forall. intros [k x] Hin%list_elem_of_In.
  by apply H, elem_of_map_to_list.
Qed.

Lemma forallb_map_to_list_false {A} (p : string * A → bool)
    (m : gmap string A) :
  forallb p (map_to_list m) = false →
  ∃ k x, m !! k = Some x ∧ p (k, x) = false.
Proof.
  intros H. destruct (forallb p (map_to_list m)) eqn:Hall; [done|].
  clear H. induction (map_to_list m) as [|[k x] l IH] eqn:Hl in m, Hall |- *;
    [done|].
  assert (∃ kx, kx ∈ map_to_list m ∧ p kx = false) as ([k' x'] & Hin & Hp).
  { rewrite Hl. clear Hl IH. revert Hall. generalize ((k, x) :: l).
    intros l'. induction l' as [|y l' IH]; [done|]. cbn [forallb].
    destruct (p y) eqn:Hy; cbn.
    - intros (kx & Hin & Hp)%IH. exists kx. split; [by right | done].
    - intros _. exists y. split; [by left | done]. }
  exists k', x'. split; [by apply elem_of_map_to_list | done].
Qed.

(** *** The deep copy *)

(** X4. [clone] returns JSON data (a value that holds no [undefined], no
    [NaN] and no infinity), which is its own copy; an input that is JSON
    data already is returned as it is. *)
Theorem clone_returns_json_copy (v v' : value) :
  clone v = Ok v' →
  json_safe v' = true ∧ clone v' = Ok v' ∧ (json_safe v = true → v' = v).
Proof.
  unfold clone. destruct (is_undef v) eqn:Hv; [done|]. intros [= <-].
  pose proof (ValuesSpec.json_clone_is_safe v Hv) as Hsafe.
  split; [done|]. split.
  - rewrite (ValuesSpec.json_safe_defined _ Hsafe).
    by rewrite ValuesSpec.json_clone_safe.
  - apply ValuesSpec.json_clone_safe.
Qed.

Lemma clone_returns_json_copy_witness :
  clone unwritable_inside
  = Ok (VObj (obj_lit ∅ [("entities", VArr [post "1"; VNull; VNull]);
                         ("total", VNull);
                         ("isCollection", VBool true)])) ∧
  json_safe (VObj (obj_lit ∅ [("entities", VArr [post "1"; VNull; VNull]);
                              ("total", VNull);
                              ("isCollection", VBool true)])) = true.
Proof.
  assert (clone unwritable_inside
          = Ok (VObj (obj_lit ∅ [("entities", VArr [post "1"; VNull; VNull]);
                                 ("total", VNull);
                                 ("isCollection", VBool true)]))) as Hc
    by reflexivity.
  split; [exact Hc|].
  by destruct (clone_returns_json_copy _ _ Hc) as (Hsafe & _ & _).
Defined.

(** *** Deleting a reference *)

Lemma filterM_kept_throws (type id : string) (l : list value) :
  forallb readable l = false →
  filterM (kept (VStr type) (VStr id)) l = Throw TypeError.
Proof.
  induction l as [|e l IH]; [done|]. cbn [forallb filterM].
  destruct (readable e) eqn:He; cbn.
  - intros Hl. rewrite RefsSpec.kept_Ok by done. cbn. by rewrite IH.
  - intros _. unfold readable in He. apply negb_false_iff in He.
    unfold kept, get_prop. by rewrite He.
Qed.

Lemma filtered_ref_throws (type id : string) (ref : value) :
  readable_ref ref = false →
  filtered_ref (VStr type) (VStr id) ref = Throw TypeError.
Proof.
  unfold readable_ref, filtered_ref, get_prop, readable.
  destruct (nullish ref); [done|]. cbn.
  destruct (prop ref "entities"); try done.
  intros Hl. by rewrite filterM_kept_throws.
Qed.

Lemma filtered_ref_cases (type id : string) (ref : value) :
  filtered_ref (VStr type) (VStr id) ref = Ok (without type id ref) ∨
  filtered_ref (VStr type) (VStr id) ref = Throw TypeError.
Proof.
  destruct (readable_ref ref) eqn:Hr.
  - left. by apply RefsSpec.filtered_ref_Ok.
  - right. by apply filtered_ref_throws.
Qed.

Lemma delete_fold_throws (type id : string) (state memo : gmap string value)
    (keys : list string) (k : string) :
  k ∈ keys →
  readable_ref (default VUndef (state !! k)) = false →
  foldlM (λ memo dataKey,
            ref' ← filtered_ref (VStr type) (VStr id)
                     (default VUndef (state !! dataKey));
            Ok (assigned memo dataKey ref')) memo keys
  = Throw TypeError.
Proof.
  intros Hin Hk. revert memo.
  induction keys as [|k' keys IH]; intros memo; [by apply elem_of_nil in Hin|].
  cbn [foldlM].
  destruct (filtered_ref_cases type id (default VUndef (state !! k')))
    as [Hok | Hthrow]; [|by rewrite Hthrow].
  rewrite Hok. cbn. apply elem_of_cons in Hin as [-> | Hin]; [|by apply IH].
  by rewrite (filtered_ref_throws type id _ Hk) in Hok.
Qed.

(** X5. With a complete [refToDelete], a delete outcome throws a
    [TypeError], and removes nothing, as soon as one stored value is
    [undefined] or [null], or one [entities] list has such an element. *)
Theorem delete_throws_on_unreadable_store
    (state : gmap string value) (a : action) (isNextPage rtd : value)
    (type id : string) :
  atype a = JSON_API_SUCCESS ∨ atype a = JSON_API_BOOTSTRAP →
  get_prop (meta a) "isNextPage" = Ok isNextPage →
  truthy isNextPage = false →
  prop (meta a) "refToDelete" = rtd →
  truthy rtd = true →
  prop rtd "type" = VStr type → prop rtd "id" = VStr id →
  type ≠ "" → id ≠ "" →
  well_formed_refs state = false →
  refsReducer state a = Throw TypeError.
Proof.
  intros Hty Hnext Hfalse Hrtd Htruthy Ht Hi Htne Hine Hwf.
  apply get_prop_Ok in Hnext as [Hm ->].
  assert (is_undef rtd = false) as Hu by (by destruct rtd).
  assert (nullish rtd = false) as Hn by (by destruct rtd).
  apply forallb_map_to_list_false in Hwf as (k & ref & Hk & Hbad).
  cbn [snd] in Hbad.
  unfold refsReducer, deleteRefFromEntities, get_prop. rewrite Hm. cbn.
  rewrite Hfalse, Hrtd, Htruthy, Hu, Hn. cbn. rewrite Ht, Hi. cbn.
  rewrite (proj2 (String.eqb_neq _ _) Htne), (proj2 (String.eqb_neq _ _) Hine).
  cbn. rewrite (delete_fold_throws type id state ∅ _ k).
  - by_success_type Hty.
  - apply list_elem_of_fmap. exists (k, ref). split; [done|].
    by apply elem_of_map_to_list.
  - by rewrite Hk.
Qed.

Lemma delete_throws_witness :
  refsReducer sample_refs null_bootstrap = Ok poisoned_refs ∧
  refsReducer poisoned_refs delete_post_1 = Throw TypeError.
Proof.
  split; [reflexivity|].
  apply (delete_throws_on_unreadable_store poisoned_refs delete_post_1
           VUndef (post "1") "post" "1");
    [by left | reflexivity | reflexivity | reflexivity | reflexivity
    | reflexivity | reflexivity | discriminate | discriminate | reflexivity].
Defined.

Lemma forallb_filter (p : value → bool) (P : value → Prop)
    `{∀ x, Decision (P x)} (l : list value) :
  forallb p l = true → forallb p (filter P l) = true.
Proof.
  induction l as [|x l IH]; [done|]. cbn [forallb].
  intros [Hx Hl]%andb_true_iff. rewrite filter_cons.
  destruct (decide (P x)); cbn [forallb]; [rewrite Hx|]; by apply IH.
Qed.

Lemma without_readable (type id : string) (ref : value) :
  readable_ref ref = true → readable_ref (without type id ref) = true.
Proof.
  intros Hr. unfold without.
  destruct (prop ref "entities") eqn:He; try done.
  unfold readable_ref in *. rewrite He in Hr.
  apply andb_true_iff in Hr as [_ Hl].
  cbn. rewrite lookup_insert_eq. cbn. by apply forallb_filter.
Qed.

Lemma without_well_formed (type id : string) (state : gmap string value) :
  well_formed_refs state = true →
  well_formed_refs (without type id <$> delete "__proto__" state) = true.
Proof.
  intros Hwf. apply forallb_map_to_list_intro. intros k ref'.
  rewrite lookup_fmap.
  destruct (delete "__proto__" state !! k) as [ref|] eqn:Hk; [|done].
  intros [= <-]. apply without_readable.
  apply lookup_delete_Some in Hk as [_ Hk].
  apply (forallb_map_to_list _ _ _ _ Hwf Hk).
Qed.

Lemma filter_filter_same (P : value → Prop) `{∀ x, Decision (P x)}
    (l : list value) :
  filter P (filter P l) = filter P l.
Proof.
  induction l as [|x l IH]; [done|]. rewrite filter_cons.
  destruct (decide (P x)) as [Hx|Hx]; [|done].
  by rewrite filter_cons, decide_True, IH.
Qed.

Lemma without_without (type id : string) (ref : value) :
  without type id (without type id ref) = without type id ref.
Proof.
  unfold without at 2 3.
  destruct (prop ref "entities") eqn:He;
    try (unfold without; by rewrite He).
  unfold without. cbn. rewrite lookup_insert_eq. cbn.
  by rewrite insert_insert_eq, filter_filter_same.
Qed.

(** X6. Deleting is idempotent: on a well-formed store the same delete
    outcome applied a second time returns the store it was given. *)
Theorem delete_twice_is_delete_once
    (state : gmap string value) (a : action) (isNextPage rtd : value)
    (type id : string) :
  atype a = JSON_API_SUCCESS ∨ atype a = JSON_API_BOOTSTRAP →
  get_prop (meta a) "isNextPage" = Ok isNextPage →
  truthy isNextPage = false →
  prop (meta a) "refToDelete" = rtd →
  truthy rtd = true →
  prop rtd "type" = VStr type → prop rtd "id" = VStr id →
  type ≠ "" → id ≠ "" →
  well_formed_refs state = true →
  ∃ state',
    refsReducer state a = Ok state' ∧ refsReducer state' a = Ok state'.
Proof.
  intros Hty Hnext Hfalse Hrtd Htruthy Ht Hi Htne Hine Hwf.
  apply get_prop_Ok in Hnext as [Hm ->].
  assert (∀ s, well_formed_refs s = true →
            refsReducer s a
            = Ok (without type id <$> delete "__proto__" s)) as Hred.
  { intros s Hs. unfold refsReducer, get_prop. rewrite Hm. cbn.
    rewrite Hfalse, Hrtd, Htruthy.
    rewrite (RefsSpec.deleteRefFromEntities_complete type id) by done.
    by_success_type Hty. }
  exists (without type id <$> delete "__proto__" state).
  split; [by apply Hred|].
  rewrite Hred by (by apply without_well_formed). f_equal.
  rewrite <- fmap_delete, delete_delete_eq, <- map_fmap_compose.
  apply map_fmap_ext. intros k ref _. apply without_without.
Qed.

Lemma delete_twice_witness :
  ∃ state',
    refsReducer sample_refs delete_post_1 = Ok state' ∧
    refsReducer state' delete_post_1 = Ok state'.
Proof.
  apply (delete_twice_is_delete_once sample_refs delete_post_1
           VUndef (post "1") "post" "1");
    [by left | reflexivity | reflexivity | reflexivity | reflexivity
    | reflexivity | reflexivity | discriminate | discriminate | reflexivity].
Defined.

(** X7. A delete outcome changes only the references that point to the
    deleted pair: a reference object whose [entities] list has no pointer
    to [(type, id)], under a data key other than ['__proto__'], is the
    same afterwards. *)
Theorem delete_keeps_references_without_the_pair
    (state : gmap string value) (a : action) (isNextPage rtd : value)
    (type id k : string) (m : gmap string value) (l : list value) :
  atype a = JSON_API_SUCCESS ∨ atype a = JSON_API_BOOTSTRAP →
  get_prop (meta a) "isNextPage" = Ok isNextPage →
  truthy isNextPage = false →
  prop (meta a) "refToDelete" = rtd →
  truthy rtd = true →
  prop rtd "type" = VStr type → prop rtd "id" = VStr id →
  type ≠ "" → id ≠ "" →
  well_formed_refs state = true →
  k ≠ "__proto__" →
  state !! k = Some (VObj m) →
  m !! "entities" = Some (VArr l) →
  (∀ e, e ∈ l → ¬ (prop e "type" = VStr type ∧ prop e "id" = VStr id)) →
  ∃ state', refsReducer state a = Ok state' ∧ state' !! k = Some (VObj m).
Proof.
  intros Hty Hnext Hfalse Hrtd Htruthy Ht Hi Htne Hine Hwf Hproto Hk Hl Hno.
  apply get_prop_Ok in Hnext as [Hm ->].
  exists (without type id <$> delete "__proto__" state). split.
  - unfold refsReducer, get_prop. rewrite Hm. cbn.
    rewrite Hfalse, Hrtd, Htruthy.
    rewrite (RefsSpec.deleteRefFromEntities_complete type id) by done.
    by_success_type Hty.
  - rewrite lookup_fmap, lookup_delete_ne, Hk by done.
    cbn. f_equal. unfold without. cbn. rewrite Hl.
    cbn. f_equal. apply insert_id. rewrite Hl. do 2 f_equal.
    clear Hl. induction l as [|e l IH]; [done|]. rewrite filter_cons.
    rewrite decide_True.
    + f_equal. apply IH. intros e' He'. apply Hno. by right.
    + apply not_true_is_false. rewrite RefsSpec.points_to_spec.
      apply Hno. by left.
Qed.

Lemma delete_keeps_references_witness :
  ∃ state',
    refsReducer sample_refs delete_post_9 = Ok state' ∧
    state' !! "feed" = Some (VObj feed_ref).
Proof.
  apply (delete_keeps_references_without_the_pair sample_refs delete_post_9
           VUndef (post "9") "post" "9" "feed" feed_ref
           [post "1"; post "2"]);
    [by left | reflexivity | reflexivity | reflexivity | reflexivity
    | reflexivity | reflexivity | discriminate | discriminate | reflexivity
    | discriminate | reflexivity | reflexivity |].
  intros e He [_ Hid].
  apply elem_of_cons in He as [-> | He]; [discriminate Hid|].
  apply elem_of_cons in He as [-> | He]; [discriminate Hid|].
  by apply elem_of_nil in He.
Defined.

(** *** Pagination *)

(** One next-page step on a reference that holds a list. *)
Lemma next_page_step (state : gmap string value) (a : action)
    (isNextPage : value) (k : string) (old new : gmap string value)
    (es es' : list value) :
  atype a = JSON_API_SUCCESS ∨ atype a = JSON_API_BOOTSTRAP →
  get_prop (meta a) "isNextPage" = Ok isNextPage →
  truthy isNextPage = true →
  to_str (prop (meta a) "dataKey") = k →
  get_prop (payload a) "newRequestRef" = Ok (VObj new) →
  state !! k = Some (VObj old) →
  old !! "entities" = Some (VArr es) →
  new !! "entities" = Some (VArr es') →
  refsReducer state a
  = Ok (<[k := VObj (<["entities" := VArr (es ++ es')]> new)]> state).
Proof.
  intros Hty Hnext Htrue Hkey Hnew Hold Hes Hes'.
  apply get_prop_Ok in Hnext as [Hm ->].
  apply get_prop_Ok in Hnew as [Hp Hnew].
  unfold refsReducer, get_prop. rewrite Hm, Hp. cbn.
  rewrite Htrue, <- Hnew, Hkey, Hold. cbn.
  rewrite Hes, Hes'. cbn. by_success_type Hty.
Qed.

(** X8. Pages accumulate: after two next-page outcomes for the same data
    key the list is the original one, then the first page, then the
    second, and every other field is that of the second page's
    reference. *)
Theorem next_pages_accumulate (state : gmap string value) (a1 a2 : action)
    (next1 next2 : value) (k : string) (old new1 new2 : gmap string value)
    (es p1 p2 : list value) :
  (atype a1 = JSON_API_SUCCESS ∨ atype a1 = JSON_API_BOOTSTRAP) →
  (atype a2 = JSON_API_SUCCESS ∨ atype a2 = JSON_API_BOOTSTRAP) →
  get_prop (meta a1) "isNextPage" = Ok next1 → truthy next1 = true →
  get_prop (meta a2) "isNextPage" = Ok next2 → truthy next2 = true →
  to_str (prop (meta a1) "dataKey") = k →
  to_str (prop (meta a2) "dataKey") = k →
  get_prop (payload a1) "newRequestRef" = Ok (VObj new1) →
  get_prop (payload a2) "newRequestRef" = Ok (VObj new2) →
  state !! k = Some (VObj old) →
  old !! "entities" = Some (VArr es) →
  new1 !! "entities" = Some (VArr p1) →
  new2 !! "entities" = Some (VArr p2) →
  ∃ state1 r,
    refsReducer state a1 = Ok state1 ∧
    refsReducer state1 a2 = Ok (<[k := VObj r]> state) ∧
    r !! "entities" = Some (VArr (es ++ p1 ++ p2)) ∧
    (∀ f, f ≠ "entities" → r !! f = new2 !! f).
Proof.
  intros Hty1 Hty2 Hn1 Ht1 Hn2 Ht2 Hk1 Hk2 Hnew1 Hnew2 Hold Hes Hp1 Hp2.
  eexists _, (<["entities" := VArr (es ++ p1 ++ p2)]> new2).
  split; [by eapply next_page_step|]. split.
  - rewrite (next_page_step _ a2 next2 k
               (<["entities" := VArr (es ++ p1)]> new1) new2 (es ++ p1) p2);
      try done.
    + by rewrite insert_insert_eq, <- (assoc_L (++)).
    + apply lookup_insert_eq.
    + apply lookup_insert_eq.
  - split; [apply lookup_insert_eq|].
    intros f Hf. by rewrite lookup_insert_ne.
Qed.

Lemma next_pages_accumulate_witness :
  ∃ state1 r,
    refsReducer sample_refs next_page_action = Ok state1 ∧
    refsReducer state1 next_page_three = Ok (<["feed" := VObj r]> sample_refs) ∧
    r !! "entities"
      = Some (VArr [post "1"; post "2"; post "3"; post "4"; post "5"]).
Proof.
  destruct (next_pages_accumulate sample_refs next_page_action next_page_three
              (VBool true) (VBool true) "feed" feed_ref page_two_ref
              page_three_ref [post "1"; post "2"] [post "3"]
              [post "4"; post "5"])
    as (state1 & r & H1 & H2 & Hents & _);
    [by left | by left | reflexivity..|].
  exists state1, r. split; [exact H1|]. split; [exact H2 | exact Hents].
Defined.

(** X9. A next page for a data key whose stored value has no list (and no
    string) under [entities], a generic value or a reference normalized
    from an empty linkage for instance, throws a [TypeError]. *)
Theorem next_page_without_list_throws (state : gmap string value)
    (a : action) (isNextPage ref : value) :
  atype a = JSON_API_SUCCESS ∨ atype a = JSON_API_BOOTSTRAP →
  get_prop (meta a) "isNextPage" = Ok isNextPage →
  truthy isNextPage = true →
  state !! to_str (prop (meta a) "dataKey") = Some ref →
  is_list (prop ref "entities") = false →
  (∀ s, prop ref "entities" ≠ VStr s) →
  refsReducer state a = Throw TypeError.
Proof.
  intros Hty Hnext Htrue Hk Hlist Hstr.
  apply get_prop_Ok in Hnext as [Hm ->].
  unfold refsReducer, get_prop. rewrite Hm. cbn. rewrite Htrue.
  destruct (nullish (payload a)); cbn; [by_success_type Hty|].
  rewrite Hk. cbn. destruct (nullish ref); cbn; [by_success_type Hty|].
  destruct (nullish (prop (payload a) "newRequestRef")); cbn;
    [by_success_type Hty|].
  destruct (prop ref "entities") eqn:He; cbn; try by_success_type Hty.
  by destruct (Hstr s).
Qed.

Lemma next_page_without_list_witness :
  refsReducer sample_refs next_page_of_settings = Throw TypeError.
Proof.
  apply (next_page_without_list_throws sample_refs next_page_of_settings
           (VBool true) (VObj (obj_lit ∅ [("theme", VStr "dark")])));
    [by left | reflexivity | reflexivity | reflexivity | reflexivity
    | discriminate].
Defined.

End RefsMore.

(** ** More on the entity store *)

Module EntitiesMore.
Import Entities Samples Samples2.

Lemma assign_assign (base over : gmap string value) :
  assign (assign base over) over = assign base over.
Proof.
  unfold assign. by rewrite (assoc_L (∪)), (idemp_L (∪)).
Qed.

Lemma fields_merged_record (type id old e : value) (name : string) :
  name = "attributes" ∨ name = "relationships" →
  fields name (merged_record type id old e)
  = assign (fields name old) (fields name e).
Proof.
  intros [-> | ->]; unfold fields at 1, merged_record;
    rewrite EntitiesSpec.get_plain by done; cbn.
  - by rewrite lookup_insert_ne, lookup_insert_eq by done.
  - by rewrite lookup_insert_eq.
Qed.

Lemma merged_record_again (type id old e : value) :
  merged_record type id (merged_record type id old e) e
  = merged_record type id old e.
Proof.
  unfold merged_record at 1 3.
  change (spread (Lodash.get ?v "attributes" (VObj ∅)))
    with (fields "attributes" v).
  change (spread (Lodash.get ?v "relationships" (VObj ∅)))
    with (fields "relationships" v).
  rewrite !fields_merged_record by auto. by rewrite !assign_assign.
Qed.

Lemma merge_entities_again (type : value) (table es : gmap string value) :
  Lodash.array_like_length es = None →
  merge_entities type (merge_entities type table (VObj es)) (VObj es)
  = merge_entities type table (VObj es).
Proof.
  intros Hlen. apply map_eq. intros i.
  rewrite (EntitiesSpec.merge_entities_lookup type es
             (merge_entities type table (VObj es))) by done.
  pose proof (EntitiesSpec.merge_entities_lookup type es table i Hlen) as Hi.
  destruct (es !! i) as [e|]; [|done].
  rewrite lookup_assigned_eq in Hi. rewrite lookup_assigned_eq.
  destruct (table !! i) as [old|] eqn:Hold.
  - rewrite Hi. cbn [default]. unfold id. by rewrite merged_record_again.
  - destruct (String.eqb i "__proto__"); rewrite Hi; [done|].
    cbn [default]. unfold id. by rewrite merged_record_again.
Qed.

Lemma merge_fragment_again (frag : gmap string value)
    (state : gmap string (gmap string value)) :
  well_formed_fragment frag = true →
  merge_fragment (merge_fragment state (VObj frag)) (VObj frag)
  = merge_fragment state (VObj frag).
Proof.
  intros Hwf. apply map_eq. intros t.
  rewrite (EntitiesSpec.merge_fragment_lookup frag
             (merge_fragment state (VObj frag))) by done.
  pose proof (EntitiesSpec.merge_fragment_lookup frag state t Hwf) as Ht.
  destruct (frag !! t) as [ents|] eqn:Hfrag; [|done].
  destruct (EntitiesSpec.fragment_entry _ _ _ Hwf Hfrag)
    as (_ & es & -> & Hes).
  assert (Lodash.array_like_length es = None) as Hlen.
  { apply EntitiesSpec.not_array_like. intros v Hv. by apply (Hes _ _ Hv). }
  rewrite lookup_assigned_eq in Ht. rewrite lookup_assigned_eq.
  destruct (state !! t) as [table|] eqn:Hold.
  - rewrite Ht. cbn [default]. unfold id. by rewrite merge_entities_again.
  - destruct (String.eqb t "__proto__"); rewrite Ht; [done|].
    cbn [default]. unfold id. by rewrite merge_entities_again.
Qed.

(** X10. Applying a store fragment is idempotent: a fetch-success or
    bootstrap event with a well-formed fragment and no complete
    [refToDelete], applied again to the state it produced, returns that
    state. *)
Theorem fragment_twice_is_fragment_once
    (state : gmap string (gmap string value)) (a : action)
    (frag : gmap string value) :
  atype a = JSON_API_SUCCESS ∨ atype a = JSON_API_BOOTSTRAP →
  prop (payload a) "storeFragment" = VObj frag →
  well_formed_fragment frag = true →
  should_delete (prop (meta a) "refToDelete") = false →
  ∃ state',
    entitiesReducer state a = Ok state' ∧ entitiesReducer state' a = Ok state'.
Proof.
  intros Hty Hfrag Hwf Hdel.
  assert (∀ s, entitiesReducer s a = Ok (merge_fragment s (VObj frag)))
    as Hred.
  { intros s. unfold entitiesReducer.
    rewrite (EntitiesSpec.get_storeFragment a frag Hfrag),
      EntitiesSpec.get_refToDelete, Hdel.
    by_success_type Hty. }
  exists (merge_fragment state (VObj frag)). split; [apply Hred|].
  by rewrite Hred, merge_fragment_again.
Qed.

Lemma fragment_twice_witness :
  ∃ state',
    entitiesReducer titled_store (fragment_action article_meta views_fragment)
      = Ok state' ∧
    entitiesReducer state' (fragment_action article_meta views_fragment)
      = Ok state'.
Proof.
  apply (fragment_twice_is_fragment_once titled_store
           (fragment_action article_meta views_fragment) views_fragment);
    [by left | reflexivity | reflexivity | reflexivity].
Defined.



(** X12. The two stores do not test [refToDelete] alike: when its [type] is
    truthy and its [id] is defined but falsy (the number 0, the empty
    string), the reference store takes it for incomplete and keeps every
    pointer, while the entity store removes the record of that id. *)
Theorem falsy_id_removes_record_but_no_pointer
    (refs : gmap string value) (entities : gmap string (gmap string value))
    (a : action) (isNextPage rtd : value) (table : gmap string value) :
  atype a = JSON_API_SUCCESS ∨ atype a = JSON_API_BOOTSTRAP →
  get_prop (meta a) "isNextPage" = Ok isNextPage →
  truthy isNextPage = false →
  prop (meta a) "refToDelete" = rtd →
  truthy rtd = true →
  truthy (prop rtd "type") = true →
  is_undef (prop rtd "id") = false →
  truthy (prop rtd "id") = false →
  Lodash.entries
    (Lodash.get (action_value a) "payload.storeFragment" (VObj ∅)) = [] →
  entities !! to_str (prop rtd "type") = Some table →
  Refs.refsReducer refs a = Ok refs ∧
  Entities.entitiesReducer entities a
  = Ok (<[to_str (prop rtd "type") :=
            delete (to_str (prop rtd "id")) table]> entities).
Proof.
  intros Hty Hnext Hfalse Hrtd Htruthy Htype Hdef Hid Hfrag Htable. split.
  - apply (RefsSpec.incomplete_delete_keeps_refs refs a isNextPage rtd);
      try done. by right.
  - unfold entitiesReducer, merge_fragment.
    rewrite Hfrag, EntitiesSpec.get_refToDelete, Hrtd. cbn [foldl].
    unfold should_delete, delete_entity. rewrite Htruthy, Hdef, Htype, Htable.
    by_success_type Hty.
Qed.

Lemma falsy_id_witness :
  Refs.refsReducer zero_refs delete_post_zero = Ok zero_refs ∧
  is_Some (entity zero_store "post" "0") ∧
  ∃ entities',
    Entities.entitiesReducer zero_store delete_post_zero = Ok entities' ∧
    entity entities' "post" "0" = None.
Proof.
  destruct (falsy_id_removes_record_but_no_pointer zero_refs zero_store
              delete_post_zero VUndef zero_ref
              (obj_lit ∅ [("0", attributes_only [("title", VStr "Z")])]))
    as [Hrefs Hents];
    [by left | reflexivity..|].
  split; [exact Hrefs|]. split; [eexists; reflexivity|].
  eexists. split; [exact Hents | reflexivity].
Defined.

(** X13. A manual attribute update is idempotent: when it returns, applying
    it again to the state it returned gives that state. *)
Theorem update_twice_is_update_once
    (state state' : gmap string (gmap string value)) (a : action) :
  atype a = UPDATE_ENTITY →
  entitiesReducer state a = Ok state' →
  entitiesReducer state' a = Ok state'.
Proof.
  intros Hty. unfold entitiesReducer. rewrite Hty.
  destruct (get_prop (payload a) "type") as [type|]; [|done]. cbn.
  destruct (get_prop (payload a) "id") as [id|]; [|done]. cbn.
  destruct (get_prop (payload a) "attributes") as [attributes|]; [|done]. cbn.
  assert (∀ table newEntity,
            newEntity = created_record attributes ∨
            (∃ entity, updated_record entity attributes = Ok newEntity) →
            record_update (<[to_str id := newEntity]> table) (to_str id)
              attributes
            = Ok newEntity) as Hagain.
  { intros table newEntity Hnew. unfold record_update.
    rewrite lookup_insert_eq. destruct Hnew as [-> | [entity Hnew]].
    - unfold updated_record, created_record, get_prop. cbn.
      rewrite lookup_insert_eq. cbn. by rewrite assign_assign, insert_insert_eq.
    - unfold updated_record, get_prop in *.
      destruct (nullish entity); [done|]. cbn in Hnew. injection Hnew as <-.
      cbn. rewrite lookup_insert_eq. cbn.
      by rewrite assign_assign, insert_insert_eq. }
  destruct (state !! to_str type) as [table|] eqn:Ht.
  - destruct (record_update table (to_str id) attributes) as [newEntity|]
      eqn:Hnew; [|done].
    cbn. intros [= <-]. rewrite lookup_insert_eq, Hagain.
    + cbn. by rewrite !insert_insert_eq.
    + unfold record_update in Hnew.
      destruct (table !! to_str id) as [entity|]; [right; eauto|].
      destruct (inherited (to_str id)); [|done]. left. by injection Hnew.
  - destruct (String.eqb (to_str type) "__proto__"); [|by destruct (inherited _)].
    destruct (prototype_update (to_str id) attributes) as [newEntity|]
      eqn:Hnew; [|done].
    cbn. intros [= <-]. rewrite lookup_insert_eq, Hagain.
    + cbn. by rewrite !insert_insert_eq.
    + unfold prototype_update in Hnew.
      destruct (String.eqb (to_str id) "__proto__"); [done|].
      destruct (inherited (to_str id)); [|done]. left. by injection Hnew.
Qed.

Lemma update_twice_witness :
  ∃ state',
    entitiesReducer titled_store (update_action "1") = Ok state' ∧
    entitiesReducer state' (update_action "1") = Ok state'.
Proof.
  eexists. split; [reflexivity|].
  apply (update_twice_is_update_once titled_store); reflexivity.
Defined.

(** *** Records are filed under their own type and id *)

Lemma delete_entity_filed (state state' : gmap string (gmap string value))
    (rtd : value) :
  delete_entity state rtd = Ok state' → filed state → filed state'.
Proof.
  unfold delete_entity.
  destruct (state !! to_str (prop rtd "type")) as [table|] eqn:Ht.
  2: { destruct (inherited _); [|done]. destruct (_ && _); [done|].
       by intros [= <-]. }
  intros [= <-] Hs t i r. unfold entity.
  destruct (decide (t = to_str (prop rtd "type"))) as [->|Hnt].
  - rewrite lookup_insert_eq. cbn. intros Hr.
    apply lookup_delete_Some in Hr as [_ Hr].
    apply (Hs (to_str (prop rtd "type")) i r). unfold entity.
    by rewrite Ht.
  - rewrite lookup_insert_ne by done. apply (Hs t i r).
Qed.

Lemma merge_fragment_filed (state : gmap string (gmap string value))
    (frag : gmap string value) :
  well_formed_fragment frag = true →
  stored_names frag = true →
  filed state → filed (merge_fragment state (VObj frag)).
Proof.
  intros Hwf Hst Hs t i r. rewrite EntitiesSpec.merge_fragment_entity by done.
  destruct (mentioned frag t i) as [e|]; [|apply Hs].
  intros [= <-]. eexists. split; [reflexivity|]. by split.
Qed.

Lemma not_inherited_proto (k : string) :
  inherited k = false → String.eqb k "__proto__" = false.
Proof.
  intros Hk. apply String.eqb_neq. intros ->. discriminate Hk.
Qed.

Lemma reducer_filed (state state' : gmap string (gmap string value))
    (a : action) :
  well_formed_event a = true →
  entitiesReducer state a = Ok state' → filed state → filed state'.
Proof.
  unfold well_formed_event, entitiesReducer. intros Hwf Hstep Hs.
  destruct (atype a) eqn:Hty; simplify_eq; try done.
  - apply andb_true_iff in Hwf as [Hwf _].
    destruct (Lodash.get _ _ _) as [| | | | | | | |frag]; try done.
    apply andb_true_iff in Hwf as [Hwf Hst].
    pose proof (merge_fragment_filed state frag Hwf Hst Hs) as Hm.
    destruct (should_delete _); [|by simplify_eq].
    by eapply delete_entity_filed.
  - apply andb_true_iff in Hwf as [Hwf _].
    destruct (Lodash.get _ _ _) as [| | | | | | | |frag]; try done.
    apply andb_true_iff in Hwf as [Hwf Hst].
    pose proof (merge_fragment_filed state frag Hwf Hst Hs) as Hm.
    destruct (should_delete _); [|by simplify_eq].
    by eapply delete_entity_filed.
  - apply andb_true_iff in Hwf as [Htn%negb_true_iff Hin%negb_true_iff].
    unfold get_prop in *.
    destruct (nullish (payload a)); [done|]. cbn [mbind result_bind] in Hstep.
    set (type := prop (payload a) "type") in *.
    set (id := prop (payload a) "id") in *.
    set (attributes := prop (payload a) "attributes") in *.
    destruct (state !! to_str type) as [table|] eqn:Ht.
    2: { rewrite (not_inherited_proto _ Htn), Htn in Hstep. done. }
    unfold record_update in Hstep. rewrite Hin in Hstep.
    destruct (table !! to_str id) as [old|] eqn:Hi; [|done].
    destruct (Hs (to_str type) (to_str id) old) as (m & -> & Hmt & Hmi).
    { unfold entity. by rewrite Ht. }
    cbn in Hstep. injection Hstep as <-. intros t i r. unfold entity.
    destruct (decide (t = to_str type)) as [->|Hnt].
    + rewrite lookup_insert_eq. cbn.
      destruct (decide (i = to_str id)) as [->|Hni].
      * rewrite lookup_insert_eq. intros [= <-].
        eexists. split; [reflexivity|].
        by rewrite !lookup_insert_ne by done.
      * rewrite lookup_insert_ne by done. intros Hr.
        apply (Hs (to_str type) i r). unfold entity. by rewrite Ht.
    + rewrite lookup_insert_ne by done. apply (Hs t i r).
Qed.

Lemma run_filed (events : list action)
    (state : gmap string (gmap string value)) :
  forallb well_formed_event events = true →
  filed state → filed (entities_run state events).
Proof.
  revert state. induction events as [|a events IH]; intros state; [done|].
  cbn [forallb]. intros [Ha Hevents]%andb_true_iff Hs.
  cbn [entities_run foldl]. apply IH; [done|]. unfold entities_dispatch.
  destruct (entitiesReducer state a) eqn:Hstep; [|done].
  by eapply reducer_filed.
Qed.

(** X14. One record per entity, filed under its own name: in every state
    reached from the initial state by actions whose store fragments are
    well formed and name nothing ['__proto__'], and whose deletes and
    manual updates name no member of [Object.prototype], the record found
    under [(type, id)] is an object whose [type] and [id] fields are that
    type and that id. *)
Theorem records_are_filed_under_their_own_key (events : list action)
    (t i : string) (r : value) :
  forallb well_formed_event events = true →
  entity (entities_run initialState events) t i = Some r →
  is_object r = true ∧ prop r "type" = VStr t ∧ prop r "id" = VStr i.
Proof.
  intros Hevents Hr.
  destruct (run_filed events initialState Hevents) with (t := t) (i := i)
    (r := r) as (m & -> & Ht & Hi); [by intros ? ? ? | done |].
  cbn. by rewrite Ht, Hi.
Qed.

Lemma records_are_filed_witness :
  is_Some (entity (entities_run initialState article_events) "article" "2") ∧
  ∀ r, entity (entities_run initialState article_events) "article" "2" = Some r →
       prop r "id" = VStr "2".
Proof.
  split; [eexists; reflexivity|]. intros r Hr.
  by destruct (records_are_filed_under_their_own_key article_events
                 "article" "2" r eq_refl Hr) as (_ & _ & Hid).
Defined.

End EntitiesMore.

(** ** More on the reference normalizer *)

Module NormalizerMore.
Import Normalizer Samples Samples2.

Lemma null_or_not (v : value) : v = VNull ∨ v ≠ VNull.
Proof. destruct v; (by left) || (by right). Qed.

Lemma mapM_to_pointer_throws (l : list value) :
  forallb readable l = false → mapM_result to_pointer l = Throw TypeError.
Proof.
  induction l as [|x l IH]; [done|]. cbn [forallb mapM_result].
  destruct (readable x) eqn:Hx; cbn.
  - intros Hl. rewrite NormalizerSpec.to_pointer_Ok by done. cbn.
    by rewrite IH.
  - intros _. unfold readable in Hx. apply negb_false_iff in Hx.
    unfold to_pointer, get_prop. by rewrite Hx.
Qed.

(** What [makeRef] computes once the object to process is known. *)
Lemma makeRef_unfold (input options : value) :
  input ≠ VNull →
  makeRef input options
  = (let toProcess := to_process input in
     let data := prop toProcess "data" in
     from_data ←
       (if truthy data then
          match data with
          | VArr l =>
              pointers ← mapM_result to_pointer l;
              Ok (VArr pointers, VBool true)
          | _ => p ← to_pointer data; Ok (VArr [p], VBool false)
          end
        else Ok (prop toProcess "entities", prop toProcess "isCollection"));
     let from_flat :=
       if flat_resource toProcess
       then (VArr [pointer (prop toProcess "type") (prop toProcess "id")],
             VBool false)
       else from_data in
     option_isCollection ←
       get_prop (if is_undef options then VObj ∅ else options) "isCollection";
     Ok (VObj (obj_lit ∅
           [("entities", from_flat.1);
            ("isCollection",
             if truthy option_isCollection then VBool true else from_flat.2);
            ("links", prop toProcess "links");
            ("meta", prop toProcess "meta")]))).
Proof.
  intros Hnull. unfold makeRef, to_process.
  set (input' := if is_undef input then VObj ∅ else input).
  assert (nullish input' = false) as Hn by (by destruct input).
  unfold get_prop. rewrite Hn. cbn [mbind result_bind].
  set (toProcess := if truthy (prop input' "_ref") then _ else _).
  assert (nullish toProcess = false) as Ht.
  { unfold toProcess. destruct (truthy (prop input' "_ref")) eqn:Hr; [|done].
    by destruct (prop input' "_ref"). }
  rewrite Ht. reflexivity.
Qed.

(** X15. [makeRef] throws exactly on a [null] input, on [null] options, and
    on a [data] list with an [undefined] or [null] element; what it throws
    is a [TypeError]; in every other case it returns a reference. *)
Theorem makeRef_fails_exactly_on_null (input options : value) :
  match makeRef input options with
  | Ok _ =>
      input ≠ VNull ∧ options ≠ VNull ∧
      readable_linkage (prop (to_process input) "data") = true
  | Throw e =>
      e = TypeError ∧
      (input = VNull ∨ options = VNull ∨
       readable_linkage (prop (to_process input) "data") = false)
  end.
Proof.
  destruct (null_or_not input) as [->|Hin]; [cbn; auto|].
  rewrite makeRef_unfold by done. cbn zeta.
  set (data := prop (to_process input) "data").
  destruct (readable_linkage data) eqn:Hread.
  - assert (∃ fd, (if truthy data then
                     match data with
                     | VArr l =>
                         pointers ← mapM_result to_pointer l;
                         Ok (VArr pointers, VBool true)
                     | _ => p ← to_pointer data; Ok (VArr [p], VBool false)
                     end
                   else Ok (prop (to_process input) "entities",
                            prop (to_process input) "isCollection"))
                  = Ok fd) as [fd ->].
    { destruct (truthy data) eqn:Ht; [|eauto].
      rewrite (NormalizerSpec.from_data_Ok data Ht Hread). eauto. }
    cbn [mbind result_bind]. unfold get_prop.
    destruct options; cbn; auto; repeat split; auto; discriminate.
  - destruct data as [| | | | | | |l|]; try discriminate Hread.
    cbn [truthy]. rewrite mapM_to_pointer_throws by done. cbn. auto.
Qed.

Lemma makeRef_shape (input options out : value) :
  makeRef input options = Ok out →
  ∃ entities isCollection links meta,
    out = VObj (obj_lit ∅
            [("entities", entities);
             ("isCollection", isCollection);
             ("links", links);
             ("meta", meta)]).
Proof.
  destruct (null_or_not input) as [->|Hin]; [done|].
  rewrite makeRef_unfold by done. cbn zeta.
  intros (fd & _ & Hrest)%bind_Ok.
  apply bind_Ok in Hrest as (oc & _ & [= <-]). eauto.
Qed.

(** X16. A normalized reference is a fixed point: normalizing what [makeRef]
    returned, without options, returns it unchanged. *)
Theorem makeRef_is_idempotent (input options out : value) :
  makeRef input options = Ok out → makeRef out VUndef = Ok out.
Proof.
  intros (entities & isCollection & links & meta & ->)%makeRef_shape.
  set (r := obj_lit ∅ _).
  assert (∀ k, k ∈ ["_ref"; "data"; "type"; "id"; "attributes"] →
            prop (VObj r) k = VUndef) as Hnone.
  { intros k Hk. unfold r, obj_lit. cbn.
    repeat (apply elem_of_cons in Hk as [-> | Hk]);
      try (by apply elem_of_nil in Hk);
      by rewrite !lookup_insert_ne by done. }
  assert (to_process (VObj r) = VObj r) as Hp.
  { unfold to_process. cbn [is_undef].
    by rewrite Hnone by (by repeat constructor). }
  rewrite makeRef_unfold by done. cbn zeta. rewrite Hp.
  unfold flat_resource. rewrite !Hnone by (by repeat constructor).
  reflexivity.
Qed.

Lemma makeRef_is_idempotent_witness :
  ∃ out,
    makeRef linkage_and_resource Samples.not_a_collection = Ok out ∧
    makeRef out VUndef = Ok out.
Proof.
  eexists. split; [reflexivity|].
  apply (makeRef_is_idempotent linkage_and_resource Samples.not_a_collection).
  reflexivity.
Defined.

(** X17. A projected resource is normalized from its backing reference: when
    the input has a truthy [_ref] (that has none itself), every other field
    of the input is ignored and the result is that of normalizing the
    [_ref]. *)
Theorem makeRef_uses_backing_reference (input options : value) :
  truthy (prop input "_ref") = true →
  truthy (prop (prop input "_ref") "_ref") = false →
  makeRef input options = makeRef (prop input "_ref") options.
Proof.
  intros Href Hnone.
  assert (input ≠ VNull) as Hin by (by intros ->).
  assert (prop input "_ref" ≠ VNull) as Hr by (by intros Heq; rewrite Heq in Href).
  rewrite !makeRef_unfold by done.
  assert (is_undef input = false) as Hu by (by destruct input).
  assert (to_process input = prop input "_ref") as ->.
  { unfold to_process. by rewrite Hu, Href. }
  assert (to_process (prop input "_ref") = prop input "_ref") as ->; [|done].
  unfold to_process.
  assert (is_undef (prop input "_ref") = false) as ->
    by (by destruct (prop input "_ref")).
  by rewrite Hnone.
Qed.

Lemma makeRef_uses_backing_reference_witness :
  makeRef projected_post VUndef
  = Ok (VObj (obj_lit ∅
          [("entities", VArr [post "1"; post "2"]);
           ("isCollection", VBool true);
           ("links", VUndef);
           ("meta", VUndef)])).
Proof.
  rewrite (makeRef_uses_backing_reference projected_post VUndef);
    reflexivity.
Defined.

End NormalizerMore.

(** ** The decorator *)

Module DecoratorSpec.
Import Decorator Samples Samples2.

(** *** The existence test *)

Lemma testExists_plain (e : value) :
  readable e = true → testExists (plain e) = Ok (has_identity e).
Proof.
  intros He%readable_nullish. unfold testExists, view_get, view_prop, plain.
  cbn. rewrite He, !lookup_empty. cbn. unfold has_identity.
  by destruct (truthy (prop e "id")).
Qed.

Lemma filterM_testExists (l : list value) :
  forallb readable l = true →
  filterM (λ e, testExists (plain e)) l
  = Ok (filter (λ e, has_identity e = true) l).
Proof.
  induction l as [|e l IH]; [done|]. intros [He Hl]%andb_true_iff.
  cbn [filterM]. rewrite testExists_plain, IH, filter_cons by done.
  by destruct (has_identity e).
Qed.

(** X18. The hidden marker decides first, then the identity: the object made
    for a missing reference never exists; an object made from a selected
    record exists exactly when the record has a truthy id and type, even if
    the record has a field [_exists] of its own; for a selected list,
    [exists] is the number of its elements that have an id and a type. *)
Theorem existence_of_marked_views :
  exists_ makeNonExistingObject = Ok (VBool false) ∧
  (∀ input, is_list input = false →
     exists_ (makeExistingObject input)
     = Ok (VBool (has_identity (VObj (spread input))))) ∧
  (∀ l, forallb readable l = true →
     exists_ (makeExistingObject (VArr l))
     = Ok (VNum (Z.of_nat (length (filter (λ e, has_identity e = true) l))))).
Proof.
  split; [reflexivity|]. split.
  - intros input Hl.
    assert (makeExistingObject input
            = View (VObj (delete "_exists" (spread input)))
                   (<["_exists" := VBool true]> ∅)) as ->
      by (by destruct input).
    unfold exists_, view_get, view_prop, testExists, view_get, view_prop.
    cbn. rewrite lookup_insert_eq. cbn.
    rewrite !lookup_insert_ne, !lookup_empty, !lookup_delete_ne by done.
    unfold has_identity. cbn.
    by destruct (truthy (default VUndef (spread input !! "id"))).
  - intros l Hl. unfold exists_, makeExistingObject, view_get, view_prop.
    cbn. rewrite lookup_insert_eq. cbn. by rewrite filterM_testExists.
Qed.

Lemma existence_of_marked_views_witness :
  exists_ (makeExistingObject (prop selected_post "obj")) = Ok (VBool true) ∧
  exists_ (makeExistingObject (prop selected_feed "obj")) = Ok (VNum 2).
Proof.
  destruct existence_of_marked_views as (_ & Hobj & Hlist). split.
  - rewrite Hobj; reflexivity.
  - apply (Hlist (match prop selected_feed "obj" with
                  | VArr l => l
                  | _ => []
                  end)).
    reflexivity.
Defined.

(** *** Default options *)

Lemma with_defaults_eq (d : gmap string value) :
  with_defaults d
  = <["paginated" := option_value d "paginated" (VBool false)]>
      (<["initialRef" := option_value d "initialRef" VNull]>
         (<["onMount" := option_value d "onMount" (VBool false)]>
            (<["once" := option_value d "once" (VBool true)]> d))).
Proof.
  unfold with_defaults.
  replace (Lodash.entries (VObj defaultDeclarativeOptions))
    with [(VBool true, VStr "once"); (VBool false, VStr "onMount");
          (VNull, VStr "initialRef"); (VBool false, VStr "paginated")]
    by reflexivity.
  cbn [foldl fst snd to_str Lodash.get_key].
  rewrite !EntitiesSpec.get_plain by done. cbn [nullish prop].
  rewrite !lookup_insert_ne by done. unfold option_value.
  by destruct (d !! "once"), (d !! "onMount"), (d !! "initialRef"),
    (d !! "paginated").
Qed.

Lemma default_names (k : string) (dflt : value) :
  defaultDeclarativeOptions !! k = Some dflt →
  (k, dflt) ∈ [("paginated", VBool false); ("initialRef", VNull);
               ("onMount", VBool false); ("once", VBool true)].
Proof.
  unfold defaultDeclarativeOptions, obj_lit. cbn [foldl fst snd].
  rewrite !lookup_insert. repeat case_decide; subst; intros [= <-];
    by repeat constructor.
Qed.

Lemma with_defaults_lookup (d : gmap string value) (k : string) :
  with_defaults d !! k
  = match defaultDeclarativeOptions !! k with
    | Some dflt => Some (option_value d k dflt)
    | None => d !! k
    end.
Proof.
  rewrite with_defaults_eq.
  unfold defaultDeclarativeOptions, obj_lit. cbn [foldl fst snd].
  rewrite !lookup_insert. by repeat case_decide; subst.
Qed.

Lemma option_value_defined (d : gmap string value) (k : string)
    (dflt : value) :
  is_undef dflt = false → is_undef (option_value d k dflt) = false.
Proof.
  intros Hd. unfold option_value. destruct (d !! k) as [v|]; [|done].
  by destruct (is_undef v) eqn:Hv.
Qed.

Lemma with_defaults_again (d : gmap string value) :
  with_defaults (with_defaults d) = with_defaults d.
Proof.
  apply map_eq. intros k. rewrite !with_defaults_lookup.
  destruct (defaultDeclarativeOptions !! k) as [dflt|] eqn:Hk; [|done].
  f_equal. unfold option_value at 1. rewrite with_defaults_lookup, Hk.
  rewrite option_value_defined; [done|].
  apply default_names in Hk.
  repeat (apply elem_of_cons in Hk as [[= -> ->] | Hk]); try done.
  by apply elem_of_nil in Hk.
Qed.

(** X19. [processDefaultOptions] gives every declaration the four options:
    an option the declaration sets, [false] or [null] included, is kept,
    and a missing or [undefined] one takes its default ([onMount: false],
    [once: true], [initialRef: null], [paginated: false]); every other
    field is untouched, and processing again changes nothing. *)
Theorem defaults_fill_only_missing_options
    (declarations : gmap string (gmap string value)) (key : string)
    (d : gmap string value) :
  declarations !! key = Some d →
  ∃ d',
    processDefaultOptions declarations !! key = Some d' ∧
    (∀ k dflt, defaultDeclarativeOptions !! k = Some dflt →
       d' !! k = Some (option_value d k dflt)) ∧
    (∀ k, defaultDeclarativeOptions !! k = None → d' !! k = d !! k) ∧
    processDefaultOptions (processDefaultOptions declarations)
    = processDefaultOptions declarations.
Proof.
  intros Hd. exists (with_defaults d). unfold processDefaultOptions.
  rewrite lookup_fmap, Hd. split; [done|]. split; [|split].
  - intros k dflt Hk. by rewrite with_defaults_lookup, Hk.
  - intros k Hk. by rewrite with_defaults_lookup, Hk.
  - rewrite <- map_fmap_compose. apply map_fmap_ext.
    intros ? ? _. apply with_defaults_again.
Qed.

Lemma defaults_witness :
  ∃ d',
    processDefaultOptions sample_declarations !! "author" = Some d' ∧
    d' !! "once" = Some (VBool false) ∧
    d' !! "onMount" = Some (VBool false) ∧
    d' !! "endpoint" = Some (VStr "users/1").
Proof.
  destruct (defaults_fill_only_missing_options sample_declarations "author"
              (obj_lit ∅ [("endpoint", VStr "users/1");
                          ("dataKey", VStr "user:1");
                          ("once", VBool false);
                          ("initialRef", post "1")]))
    as (d' & Hd' & Hopt & Hother & _); [reflexivity|].
  exists d'. split; [exact Hd'|]. split; [|split].
  - rewrite (Hopt "once" (VBool true)); reflexivity.
  - rewrite (Hopt "onMount" (VBool false)); reflexivity.
  - rewrite (Hother "endpoint"); reflexivity.
Defined.

(** *** The object handed to the component for one data key *)

Lemma nion_entry_shape (selected : value) :
  nullish selected = false →
  ∃ entry,
    nion_entry selected = Ok entry ∧
    hidden entry
    = <["request" := VObj (spread (prop selected "request"))]>
        (<["meta" := VObj (spread (prop selected "meta"))]>
           (<["links" := VObj (spread (prop selected "links"))]>
              (<["actions" := VObj ∅]>
                 (<["_exists" :=
                      VBool (negb (is_undef (prop selected "obj")))]> ∅)))) ∧
    body entry
    = match prop selected "obj" with
      | VArr l => VArr l
      | obj =>
          VObj (delete "request"
                  (delete "meta"
                     (delete "links"
                        (delete "actions"
                           (delete "_exists" (spread obj))))))
      end.
Proof.
  intros Hn. unfold nion_entry, get_prop. rewrite Hn. cbn [mbind result_bind].
  eexists. split; [reflexivity|].
  by destruct (prop selected "obj").
Qed.

Lemma nion_entry_readable (selected : value) (entry : view) :
  nion_entry selected = Ok entry → nullish selected = false.
Proof.
  unfold nion_entry, get_prop. by destruct (nullish selected).
Qed.

Lemma nion_entry_body (selected : value) (entry : view) :
  nion_entry selected = Ok entry → nullish (body entry) = false.
Proof.
  intros He. destruct (nion_entry_shape selected) as (e & He' & _ & Hb);
    [by eapply nion_entry_readable|].
  rewrite He in He'. injection He' as <-. rewrite Hb.
  by destruct (prop selected "obj").
Qed.

Lemma reserved_names (k : string) :
  k ∉ reserved →
  k ≠ "_exists" ∧ k ≠ "actions" ∧ k ≠ "links" ∧ k ≠ "meta" ∧ k ≠ "request".
Proof.
  intros Hk. repeat split; intros ->; apply Hk; by repeat constructor.
Qed.

(** X20. The object made for a selected resource carries nion's data under
    [_exists], [actions], [links], [meta] and [request], whatever fields of
    these names the resource itself has; [_exists] tells whether a
    resource was selected at all; every other field reads as the
    resource's own. *)
Theorem selected_entry_carries_nion_data (selected : value) :
  nullish selected = false →
  ∃ entry,
    nion_entry selected = Ok entry ∧
    view_prop entry "_exists"
    = VBool (negb (is_undef (prop selected "obj"))) ∧
    view_prop entry "actions" = VObj ∅ ∧
    view_prop entry "links" = VObj (spread (prop selected "links")) ∧
    view_prop entry "meta" = VObj (spread (prop selected "meta")) ∧
    view_prop entry "request" = VObj (spread (prop selected "request")) ∧
    ∀ k, k ∉ reserved →
      is_list (prop selected "obj") || is_object (prop selected "obj")
      || is_undef (prop selected "obj") = true →
      view_prop entry k = prop (prop selected "obj") k.
Proof.
  intros Hn. destruct (nion_entry_shape selected Hn) as (entry & He & Hh & Hb).
  exists entry. split; [exact He|]. unfold view_prop. rewrite Hh.
  do 5 (split; [reflexivity|]).
  intros k (? & ? & ? & ? & ?)%reserved_names Hobj.
  rewrite !lookup_insert_ne, lookup_empty, Hb by done.
  destruct (prop selected "obj"); try done; cbn [prop spread];
    by rewrite ?lookup_delete_ne, ?lookup_empty.
Qed.

Lemma selected_entry_witness :
  ∃ entry,
    nion_entry selected_post = Ok entry ∧
    view_prop entry "_exists" = VBool true ∧
    view_prop entry "meta" = VObj ∅ ∧
    view_prop entry "title" = VStr "A".
Proof.
  destruct (selected_entry_carries_nion_data selected_post eq_refl)
    as (entry & He & Hex & _ & _ & Hmeta & _ & Hown).
  exists entry. split; [exact He|]. split; [exact Hex|].
  split; [exact Hmeta|]. rewrite (Hown "title").
  - reflexivity.
  - unfold reserved. intros Hk.
    repeat (apply elem_of_cons in Hk as [Hk | Hk]; [discriminate|]).
    by apply elem_of_nil in Hk.
  - reflexivity.
Defined.

(** *** What mounting does *)

Lemma on_mount_unfold (d : gmap string value) (selected : value)
    (entry : view) :
  nion_entry selected = Ok entry →
  on_mount (with_defaults d) entry
  = if truthy (option_value d "initialRef" VNull) then
      found ← exists_ entry;
      Ok (if truthy found then None
          else Some (InitializeDataKey (option_value d "initialRef" VNull)))
    else if truthy (option_value d "onMount" (VBool false))
            && (negb (truthy (option_value d "once" (VBool true)))
                || isNotLoaded
                     (prop (VObj (spread (prop selected "request"))) "status"))
         then Ok (Some Fetch) else Ok None.
Proof.
  intros He. pose proof (nion_entry_body _ _ He) as Hbody.
  destruct (nion_entry_shape selected) as (e & He' & Hh & _);
    [by eapply nion_entry_readable|].
  rewrite He in He'. injection He' as <-.
  assert (view_get entry "actions" = Ok (VObj ∅)) as Hact
    by (unfold view_get, view_prop; by rewrite Hbody, Hh).
  assert (view_get entry "request"
          = Ok (VObj (spread (prop selected "request")))) as Hreq
    by (unfold view_get, view_prop; by rewrite Hbody, Hh).
  unfold on_mount. rewrite Hact, Hreq, !with_defaults_lookup.
  change (defaultDeclarativeOptions !! "initialRef") with (Some VNull).
  change (defaultDeclarativeOptions !! "onMount") with (Some (VBool false)).
  change (defaultDeclarativeOptions !! "once") with (Some (VBool true)).
  unfold get_prop. cbn [mbind result_bind nullish default]. unfold id.
  destruct (truthy (option_value d "initialRef" VNull)).
  - destruct (exists_ entry) as [found|]; [|done].
    cbn [mbind result_bind]. by destruct (truthy found).
  - destruct (truthy (option_value d "onMount" (VBool false))); [|done].
    cbn [negb andb].
    destruct (truthy (option_value d "once" (VBool true))); [|done].
    cbn [negb orb]. by destruct (isNotLoaded _).
Qed.

(** X21. Without an initial reference, mounting fetches exactly when
    [onMount] is truthy and either [once] is falsy or the request status
    of the data key is ['not called']; with the default options nothing is
    fetched, and [once] left out counts as [true]. *)
Theorem fetch_on_mount_policy (d : gmap string value) (selected : value)
    (entry : view) :
  nion_entry selected = Ok entry →
  truthy (option_value d "initialRef" VNull) = false →
  on_mount (with_defaults d) entry
  = Ok (if truthy (option_value d "onMount" (VBool false))
           && (negb (truthy (option_value d "once" (VBool true)))
               || isNotLoaded
                    (prop (VObj (spread (prop selected "request"))) "status"))
        then Some Fetch else None).
Proof.
  intros He Href. rewrite (on_mount_unfold d selected entry He), Href.
  by destruct (_ && _).
Qed.

Lemma fetch_on_mount_witness :
  ∃ entry,
    nion_entry selected_nothing = Ok entry ∧
    on_mount (with_defaults (obj_lit ∅ [("endpoint", VStr "posts");
                                         ("onMount", VBool true)])) entry
    = Ok (Some Fetch).
Proof.
  destruct (nion_entry_shape selected_nothing eq_refl) as (entry & He & _).
  exists entry. split; [exact He|].
  rewrite (fetch_on_mount_policy _ selected_nothing entry He); reflexivity.
Defined.

Lemma count_truthy {A} (P : A → Prop) `{∀ x, Decision (P x)} (l : list A) :
  truthy (VNum (Z.of_nat (length (filter P l))))
  = existsb (λ x, bool_decide (P x)) l.
Proof.
  induction l as [|x l IH]; [done|]. rewrite filter_cons. cbn [existsb].
  case_bool_decide; [by rewrite decide_True | by rewrite decide_False].
Qed.

Lemma testExists_entry (m h : gmap string value) :
  h !! "id" = None → h !! "type" = None →
  testExists
    (View (VObj (delete "request"
                   (delete "meta"
                      (delete "links"
                         (delete "actions" (delete "_exists" m)))))) h)
  = Ok (has_identity (VObj m)).
Proof.
  intros Hid Htype. unfold testExists, view_get, view_prop, has_identity.
  cbn [body hidden nullish prop]. rewrite Hid, Htype.
  rewrite !lookup_delete_ne by done. cbn [mbind result_bind].
  by destruct (truthy (default VUndef (m !! "id"))).
Qed.

Lemma exists_entry (selected : value) (entry : view) :
  nion_entry selected = Ok entry →
  readable_linkage (prop selected "obj") = true →
  ∃ found,
    exists_ entry = Ok found ∧
    truthy found
    = match prop selected "obj" with
      | VArr l => existsb has_identity l
      | obj => has_identity (VObj (spread obj))
      end.
Proof.
  intros He Hl. pose proof (nion_entry_body _ _ He) as Hbody.
  destruct (nion_entry_shape selected) as (e & He' & Hh & Hb);
    [by eapply nion_entry_readable|].
  rewrite He in He'. injection He' as <-.
  destruct entry as [b h]. cbn [body hidden] in *. subst h.
  unfold exists_, view_get, view_prop. cbn [body hidden].
  assert (is_undef b = false) as -> by (by destruct b).
  cbn [body hidden]. rewrite Hbody, lookup_insert_ne, lookup_insert_ne,
    lookup_insert_ne, lookup_insert_ne, lookup_insert_eq by done.
  cbn [mbind result_bind strict_eq].
  destruct (prop selected "obj") as [| |x|x| |x|x|l|m] eqn:Hobj; subst b;
    cbn [is_undef negb Bool.eqb].
  - by exists (VBool false).
  - rewrite testExists_entry by done. cbn [mbind result_bind]. by eexists.
  - rewrite testExists_entry by done. cbn [mbind result_bind]. by eexists.
  - rewrite testExists_entry by done. cbn [mbind result_bind]. by eexists.
  - rewrite testExists_entry by done. cbn [mbind result_bind]. by eexists.
  - rewrite testExists_entry by done. cbn [mbind result_bind]. by eexists.
  - rewrite testExists_entry by done. cbn [mbind result_bind]. by eexists.
  - rewrite filterM_testExists by done. cbn [mbind result_bind].
    eexists; split; [reflexivity|]. rewrite count_truthy.
    clear. induction l as [|x l IH]; [done|]. cbn [existsb].
    f_equal; [by destruct (has_identity x)|done].
  - rewrite testExists_entry by done. cbn [mbind result_bind]. by eexists.
Qed.

(** X22. A declaration with an initial reference never fetches on mount:
    while the selected resource has no identity (nothing selected, or no
    record with id and type, or a list without such a record) mounting asks
    to attach the reference, and once it has one mounting does nothing.
    The action that attaches it stores a JSON copy of the reference under
    the data key and leaves the other two stores as they are. *)
Theorem initial_ref_is_attached_not_fetched (d : gmap string value)
    (selected : value) (entry : view) (ref : value) :
  nion_entry selected = Ok entry →
  readable_linkage (prop selected "obj") = true →
  d !! "initialRef" = Some ref →
  truthy ref = true →
  on_mount (with_defaults d) entry
  = Ok (if match prop selected "obj" with
           | VArr l => existsb has_identity l
           | obj => has_identity (VObj (spread obj))
           end
        then None else Some (InitializeDataKey ref)) ∧
  ∀ dataKey,
    (∀ state, Refs.refsReducer state (initializeDataKey dataKey ref)
              = Ok (<[to_str dataKey := json_clone ref]> state)) ∧
    (∀ state, Entities.entitiesReducer state (initializeDataKey dataKey ref)
              = Ok state) ∧
    (∀ now state,
       Requests.requestsReducer now state (initializeDataKey dataKey ref)
       = Ok state).
Proof.
  intros He Hl Hd Href.
  assert (option_value d "initialRef" VNull = ref) as Hopt.
  { unfold option_value. rewrite Hd. by destruct ref. }
  split.
  - rewrite (on_mount_unfold d selected entry He), Hopt, Href.
    destruct (exists_entry selected entry He Hl) as (found & -> & Hfound).
    cbn [mbind result_bind]. by rewrite Hfound.
  - intros dataKey. split; [|split; reflexivity].
    intros state. unfold Refs.refsReducer, initializeDataKey, get_prop.
    cbn [atype payload nullish mbind result_bind prop obj_lit foldl fst snd].
    rewrite lookup_insert_ne, !lookup_insert_eq by done.
    cbn [default]. unfold id, Refs.clone.
    by destruct ref.
Qed.

Lemma initial_ref_witness :
  ∃ entry,
    nion_entry selected_nothing = Ok entry ∧
    on_mount (with_defaults (obj_lit ∅ [("initialRef", post "1");
                                         ("onMount", VBool true)])) entry
    = Ok (Some (InitializeDataKey (post "1"))).
Proof.
  destruct (nion_entry_shape selected_nothing eq_refl) as (entry & He & _).
  exists entry. split; [exact He|].
  destruct (initial_ref_is_attached_not_fetched
              (obj_lit ∅ [("initialRef", post "1"); ("onMount", VBool true)])
              selected_nothing entry (post "1") He)
    as [Hmount _]; [reflexivity..|].
  exact Hmount.
Defined.

(** *** Data keys and component keys *)

Lemma dataKey_of_again (d : gmap string value) (key : string) :
  dataKey_of (<["dataKey" := dataKey_of d key]> d) key = dataKey_of d key.
Proof.
  unfold dataKey_of at 1. rewrite lookup_insert_eq. cbn [default]. unfold id.
  unfold dataKey_of.
  destruct (truthy (default VUndef (d !! "dataKey"))) eqn:Ht; [by rewrite Ht|].
  by destruct (truthy (VStr key)).
Qed.

Lemma foldl_keys_other (l : list (string * gmap string value))
    (keys : gmap string string) (dk : string) :
  dk ∉ (λ kv, to_str (dataKey_of kv.2 kv.1)) <$> l →
  foldl (λ keys kv, assigned keys (to_str (dataKey_of kv.2 kv.1)) kv.1) keys l
    !! dk
  = keys !! dk.
Proof.
  revert keys. induction l as [|[k d] l IH]; intros keys Hdk; [done|].
  cbn [foldl]. rewrite fmap_cons in Hdk.
  apply not_elem_of_cons in Hdk as [Hne Hdk].
  rewrite IH by done. by rewrite lookup_assigned_ne.
Qed.

Lemma foldl_keys_found (l : list (string * gmap string value))
    (keys : gmap string string) (key : string) (d : gmap string value) :
  NoDup ((λ kv, to_str (dataKey_of kv.2 kv.1)) <$> l) →
  (key, d) ∈ l →
  to_str (dataKey_of d key) ≠ "__proto__" →
  foldl (λ keys kv, assigned keys (to_str (dataKey_of kv.2 kv.1)) kv.1) keys l
    !! to_str (dataKey_of d key)
  = Some key.
Proof.
  revert keys. induction l as [|[k' d'] l IH]; intros keys Hnd Hin Hproto.
  - by apply elem_of_nil in Hin.
  - rewrite fmap_cons in Hnd. apply NoDup_cons in Hnd as [Hfresh Hnd].
    cbn [foldl]. apply elem_of_cons in Hin as [[= -> ->] | Hin].
    + rewrite foldl_keys_other by done. by apply lookup_assigned_stored.
    + by apply IH.
Qed.

Lemma foldl_keys_declared (l : list (string * gmap string value))
    (keys : gmap string string) (dk key : string) :
  foldl (λ keys kv, assigned keys (to_str (dataKey_of kv.2 kv.1)) kv.1) keys l
    !! dk = Some key →
  keys !! dk = Some key ∨
  ∃ d, (key, d) ∈ l ∧ dk = to_str (dataKey_of d key).
Proof.
  revert keys. induction l as [|[k' d'] l IH]; intros keys Hdk; [by left|].
  cbn [foldl] in Hdk. apply IH in Hdk as [Hdk | (d & Hin & ->)].
  - cbn [fst snd] in Hdk.
    destruct (decide (to_str (dataKey_of d' k') = dk)) as [Heq|Hne].
    + subst dk. rewrite lookup_assigned_eq in Hdk. right. exists d'.
      assert (k' = key) as ->.
      { destruct (keys !! _); [by injection Hdk|].
        destruct (String.eqb _ _); [done | by injection Hdk]. }
      split; [by left | done].
    + left. by rewrite lookup_assigned_ne in Hdk.
  - right. exists d. split; [by right|done].
Qed.

Lemma foldl_keys_proto (l : list (string * gmap string value))
    (keys : gmap string string) :
  keys !! "__proto__" = None →
  foldl (λ keys kv, assigned keys (to_str (dataKey_of kv.2 kv.1)) kv.1) keys l
    !! "__proto__" = None.
Proof.
  revert keys. induction l as [|[k d] l IH]; intros keys Hk; [done|].
  cbn [foldl]. apply IH. cbn [fst snd].
  destruct (decide (to_str (dataKey_of d k) = "__proto__")) as [Heq|Hne].
  - by rewrite Heq, lookup_assigned_eq, Hk.
  - by rewrite lookup_assigned_ne.
Qed.

Lemma keys_found (declarations : gmap string (gmap string value))
    (key : string) (d : gmap string value) :
  NoDup (to_str <$> dataKeys declarations) →
  declarations !! key = Some d →
  to_str (dataKey_of d key) ≠ "__proto__" →
  keysByDataKey declarations !! to_str (dataKey_of d key) = Some key.
Proof.
  intros Hnd Hd Hproto. unfold dataKeys in Hnd.
  rewrite <- list_fmap_compose in Hnd.
  apply foldl_keys_found; [done | | done]. by apply elem_of_map_to_list.
Qed.

(** X23. When the declarations have pairwise distinct data keys,
    [keysByDataKey] maps the data key of every declaration back to its
    component key, except a data key ['__proto__'], which it never holds,
    and it holds nothing else.  A declaration without a truthy [dataKey]
    uses its component key, and writing the data key into the declaration
    does not change the data key later passes compute. *)
Theorem data_keys_lead_back_to_keys
    (declarations : gmap string (gmap string value)) :
  NoDup (to_str <$> dataKeys declarations) →
  (∀ key d, declarations !! key = Some d →
     to_str (dataKey_of d key) ≠ "__proto__" →
     keysByDataKey declarations !! to_str (dataKey_of d key) = Some key) ∧
  keysByDataKey declarations !! "__proto__" = None ∧
  (∀ dk key, keysByDataKey declarations !! dk = Some key →
     ∃ d, declarations !! key = Some d ∧ dk = to_str (dataKey_of d key)) ∧
  (∀ key d, declarations !! key = Some d →
     ∃ d', with_dataKeys declarations !! key = Some d' ∧
           d' !! "dataKey" = Some (dataKey_of d key) ∧
           dataKey_of d' key = dataKey_of d key).
Proof.
  intros Hnd. split; [|split; [|split]].
  - intros key d Hd Hproto. by apply keys_found.
  - by apply foldl_keys_proto.
  - intros dk key Hdk. apply foldl_keys_declared in Hdk as [Hdk | Hdk].
    + by rewrite lookup_empty in Hdk.
    + destruct Hdk as (d & Hin & ->). exists d.
      split; [by apply elem_of_map_to_list|done].
  - intros key d Hd. exists (<["dataKey" := dataKey_of d key]> d).
    unfold with_dataKeys. rewrite map_lookup_imap, Hd. cbn.
    split; [done|]. split; [apply lookup_insert_eq|apply dataKey_of_again].
Qed.

Lemma data_keys_witness :
  keysByDataKey sample_declarations !! "user:1" = Some "author" ∧
  keysByDataKey sample_declarations !! "feed" = Some "feed".
Proof.
  assert (NoDup (to_str <$> dataKeys sample_declarations)) as Hnd
    by (apply (bool_decide_unpack _); vm_compute; exact I).
  destruct (data_keys_lead_back_to_keys sample_declarations Hnd)
    as (Hback & _).
  split.
  - refine (Hback "author"
              (obj_lit ∅ [("endpoint", VStr "users/1");
                          ("dataKey", VStr "user:1");
                          ("once", VBool false);
                          ("initialRef", post "1")]) eq_refl _).
    discriminate.
  - refine (Hback "feed"
              (obj_lit ∅ [("endpoint", VStr "posts"); ("onMount", VBool true)])
              eq_refl _).
    discriminate.
Defined.

Lemma keys_injective (declarations : gmap string (gmap string value))
    (dk1 dk2 key : string) :
  keysByDataKey declarations !! dk1 = Some key →
  keysByDataKey declarations !! dk2 = Some key →
  dk1 = dk2.
Proof.
  intros H1 H2.
  apply foldl_keys_declared in H1 as [H1 | (d1 & Hin1 & ->)];
    [by rewrite lookup_empty in H1|].
  apply foldl_keys_declared in H2 as [H2 | (d2 & Hin2 & ->)];
    [by rewrite lookup_empty in H2|].
  apply elem_of_map_to_list in Hin1, Hin2. by simplify_eq.
Qed.

Lemma nion_fold (keys : gmap string string) (l : list (string * value))
    (nion : gmap string view) :
  (∀ dk selected, (dk, selected) ∈ l →
     nullish selected = false ∧
     ∃ key, keys !! dk = Some key ∧ key ≠ "__proto__") →
  NoDup ((λ kv, default "undefined" (keys !! kv.1)) <$> l) →
  ∃ nion',
    foldlM (λ nion ev,
              key ← key_for keys (to_str ev.2);
              entry ← nion_entry ev.1;
              if String.eqb key "__proto__" then Throw Unmodelled
              else Ok (<[key := entry]> nion))
           nion ((λ kv : string * value, (kv.2, VStr kv.1)) <$> l)
    = Ok nion' ∧
    (∀ dk selected, (dk, selected) ∈ l →
       ∃ entry, nion' !! default "undefined" (keys !! dk) = Some entry ∧
                nion_entry selected = Ok entry) ∧
    (∀ key, key ∉ (λ kv, default "undefined" (keys !! kv.1)) <$> l →
       nion' !! key = nion !! key).
Proof.
  revert nion. induction l as [|[dk selected] l IH]; intros nion Hread Hnd.
  - exists nion. split; [done|]. split; [|done].
    intros ? ? Hin. by apply elem_of_nil in Hin.
  - rewrite fmap_cons in Hnd. apply NoDup_cons in Hnd as [Hfresh Hnd].
    destruct (Hread dk selected) as (Hsel & key & Hkey & Hproto); [by left|].
    destruct (nion_entry_shape selected Hsel) as (entry & He & _).
    cbn [fst] in Hfresh. rewrite Hkey in Hfresh. cbn [default] in Hfresh.
    destruct (IH (<[key := entry]> nion))
      as (nion' & Hfold & Hfound & Hother);
      [intros ? ? ?; eapply Hread; by right|done|].
    exists nion'. rewrite fmap_cons. cbn [foldlM fst snd to_str].
    assert (key_for keys dk = Ok key) as ->
      by (unfold key_for; by rewrite Hkey).
    rewrite He. cbn [mbind result_bind].
    rewrite (proj2 (String.eqb_neq _ _) Hproto).
    split; [exact Hfold|]. split.
    + intros dk' selected' [[= -> ->] | Hin]%elem_of_cons.
      * exists entry. split; [|done]. rewrite Hkey. cbn [default].
        rewrite Hother by done. apply lookup_insert_eq.
      * by apply Hfound.
    + intros key' [Hne Hkey']%not_elem_of_cons.
      cbn [fst] in Hne. rewrite Hkey in Hne. cbn [default] in Hne.
      rewrite Hother by done. by apply lookup_insert_ne.
Qed.

(** X24. When the declarations have pairwise distinct data keys, no
    component key is ['__proto__'], and every selected resource is
    readable and belongs to a data key that [keysByDataKey] holds,
    [mapStateToProps] succeeds and hands each component key the object
    built from the resource selected under its declaration's data key. *)
Theorem props_are_keyed_by_component_key
    (declarations : gmap string (gmap string value))
    (selectedResources : gmap string value) :
  NoDup (to_str <$> dataKeys declarations) →
  declarations !! "__proto__" = None →
  Lodash.array_like_length selectedResources = None →
  (∀ dk selected, selectedResources !! dk = Some selected →
     nullish selected = false ∧
     is_Some (keysByDataKey declarations !! dk)) →
  ∃ nion,
    mapStateToProps (keysByDataKey declarations) (VObj selectedResources)
    = Ok nion ∧
    ∀ key d selected,
      declarations !! key = Some d →
      selectedResources !! to_str (dataKey_of d key) = Some selected →
      ∃ entry, nion !! key = Some entry ∧ nion_entry selected = Ok entry.
Proof.
  intros Hnd Hproto Hlen Hsel. unfold mapStateToProps, Lodash.entries.
  rewrite Hlen.
  destruct (nion_fold (keysByDataKey declarations)
              (map_to_list selectedResources) ∅)
    as (nion & Hfold & Hfound & _).
  - intros dk selected Hin%elem_of_map_to_list.
    destruct (Hsel _ _ Hin) as [Hn [key Hkey]]. split; [done|].
    exists key. split; [done|]. intros ->.
    apply foldl_keys_declared in Hkey as [Hkey | (d & Hd & _)];
      [by rewrite lookup_empty in Hkey|].
    apply elem_of_map_to_list in Hd. by rewrite Hproto in Hd.
  - apply NoDup_fmap_2_strong; [|apply NoDup_map_to_list].
    intros [dk1 s1] [dk2 s2] Hin1%elem_of_map_to_list
      Hin2%elem_of_map_to_list Heq. cbn [fst] in Heq.
    destruct (Hsel _ _ Hin1) as [_ [k1 Hk1]].
    destruct (Hsel _ _ Hin2) as [_ [k2 Hk2]].
    rewrite Hk1, Hk2 in Heq. cbn in Heq. subst k2.
    pose proof (keys_injective _ _ _ _ Hk1 Hk2) as ->.
    by simplify_eq.
  - exists nion. split; [exact Hfold|].
    intros key d selected Hd Hs.
    destruct (Hfound _ _ (proj2 (elem_of_map_to_list _ _ _) Hs))
      as (entry & Hentry & He).
    rewrite (keys_found declarations key d Hnd Hd) in Hentry;
      [by exists entry|].
    intros Heq. destruct (Hsel _ _ Hs) as [_ [k Hk]].
    rewrite Heq in Hk. unfold keysByDataKey in Hk.
    by rewrite (foldl_keys_proto (map_to_list declarations) ∅) in Hk.
Qed.

Lemma props_witness :
  ∃ nion author,
    mapStateToProps (keysByDataKey sample_declarations)
      (VObj sample_selection) = Ok nion ∧
    nion !! "author" = Some author ∧
    nion_entry selected_post = Ok author.
Proof.
  assert (NoDup (to_str <$> dataKeys sample_declarations)) as Hnd
    by (apply (bool_decide_unpack _); vm_compute; exact I).
  destruct (props_are_keyed_by_component_key sample_declarations
              sample_selection Hnd) as (nion & Hnion & Hkeyed).
  - reflexivity.
  - reflexivity.
  - intros dk selected. unfold sample_selection.
    rewrite !lookup_insert, lookup_empty.
    repeat case_decide; try discriminate; subst; intros [= <-].
    + split; [reflexivity|]. exists "feed". reflexivity.
    + split; [reflexivity|]. exists "author". reflexivity.
  - destruct (Hkeyed "author"
                (obj_lit ∅ [("endpoint", VStr "users/1");
                            ("dataKey", VStr "user:1");
                            ("once", VBool false);
                            ("initialRef", post "1")])
                selected_post eq_refl eq_refl) as (author & Hauthor & He).
    exists nion, author. split; [exact Hnion|].
    split; [exact Hauthor | exact He].
Defined.

(** *** The pair handed to the delete action *)

(** X25. For a data key that selects a list, or nothing at all, the pair
    the delete handler is given has no [id] and no [type]; a delete event
    that carries this pair leaves the reference store as it is. *)
Theorem collection_handle_deletes_no_pointer (selected : value)
    (entry : view) (a : action) (state : gmap string value) :
  nion_entry selected = Ok entry →
  is_list (prop selected "obj") || is_undef (prop selected "obj") = true →
  atype a = JSON_API_SUCCESS →
  nullish (meta a) = false →
  truthy (prop (meta a) "isNextPage") = false →
  prop (meta a) "refToDelete" = deletion_ref entry →
  deletion_ref entry = VObj (obj_lit ∅ [("id", VUndef); ("type", VUndef)]) ∧
  Refs.refsReducer state a = Ok state.
Proof.
  intros He Hobj Ha Hmeta Hnext Hdel.
  assert (deletion_ref entry
          = VObj (obj_lit ∅ [("id", VUndef); ("type", VUndef)])) as Href.
  { destruct (nion_entry_shape selected) as (e & He' & Hh & Hb);
      [by eapply nion_entry_readable|].
    rewrite He in He'. injection He' as <-.
    unfold deletion_ref, view_prop. rewrite Hh, Hb.
    rewrite !lookup_insert_ne, !lookup_empty by done.
    destruct (prop selected "obj") as [| |x|x| |x|x|l|m]; try done.
    cbn [truthy].
    by destruct (ValuesSpec.array_has_no_identity l) as [-> ->]. }
  split; [exact Href|].
  unfold Refs.refsReducer, get_prop. rewrite Ha, Hmeta.
  cbn [mbind result_bind]. rewrite Hnext, Hdel, Href. reflexivity.
Qed.

Lemma collection_handle_witness :
  ∃ entry,
    nion_entry selected_feed = Ok entry ∧
    Refs.refsReducer sample_refs (delete_event (deletion_ref entry))
    = Ok sample_refs.
Proof.
  destruct (nion_entry_shape selected_feed eq_refl) as (entry & He & _).
  exists entry. split; [exact He|].
  destruct (collection_handle_deletes_no_pointer selected_feed entry
              (delete_event (deletion_ref entry)) sample_refs He)
    as [_ Hred]; [reflexivity..|].
  exact Hred.
Defined.

End DecoratorSpec.

(** ** Actions that concern one store only *)

Module StoresMore.
Import Decorator Samples Samples2.

(** X26. A generic bootstrap puts a JSON copy of its payload under the data
    key of the reference store and touches nothing else: the other
    references, the entity store and the request-status store stay as they
    are.  An [undefined] payload is a [SyntaxError]; a [null] payload is
    stored, and leaves a reference store that is no longer readable. *)
Theorem generic_bootstrap_stores_a_copy (refs : gmap string value)
    (a : action) :
  atype a = GENERIC_BOOTSTRAP →
  nullish (meta a) = false →
  (is_undef (payload a) = true →
   Refs.refsReducer refs a = Throw SyntaxError) ∧
  (is_undef (payload a) = false →
   ∃ refs',
     Refs.refsReducer refs a = Ok refs' ∧
     refs' !! to_str (prop (meta a) "dataKey")
     = Some (json_clone (payload a)) ∧
     json_safe (json_clone (payload a)) = true ∧
     (∀ k, k ≠ to_str (prop (meta a) "dataKey") → refs' !! k = refs !! k) ∧
     (payload a = VNull → well_formed_refs refs' = false)) ∧
  (∀ entities, Entities.entitiesReducer entities a = Ok entities) ∧
  (∀ now requests, Requests.requestsReducer now requests a = Ok requests).
Proof.
  intros Ha Hm. unfold Refs.refsReducer, Entities.entitiesReducer,
    Requests.requestsReducer, get_prop, Refs.clone.
  rewrite Ha, Hm. cbn [mbind result_bind].
  split; [by intros ->|]. split; [|done].
  intros Hp. rewrite Hp. cbn [mbind result_bind].
  eexists. split; [reflexivity|].
  split; [apply lookup_insert_eq|].
  split; [by apply ValuesSpec.json_clone_is_safe|].
  split; [intros k Hk; by apply lookup_insert_ne|].
  intros Hnull. rewrite Hnull. cbn [json_clone].
  destruct (well_formed_refs _) eqn:Hwf; [|done].
  unfold well_formed_refs in Hwf.
  by pose proof (forallb_map_to_list _ _ _ _ Hwf (lookup_insert_eq _ _ _)).
Qed.

Lemma generic_bootstrap_witness :
  ∃ refs',
    Refs.refsReducer sample_refs (generic_bootstrap undefined_inside)
    = Ok refs' ∧
    refs' !! "user"
    = Some (VObj (obj_lit ∅ [("entities", VArr [post "1"; VNull]);
                             ("isCollection", VBool true)])) ∧
    refs' !! "feed" = sample_refs !! "feed".
Proof.
  destruct (generic_bootstrap_stores_a_copy sample_refs
              (generic_bootstrap undefined_inside) eq_refl eq_refl)
    as (_ & Hstore & _).
  destruct (Hstore eq_refl) as (refs' & Hred & Hcopy & _ & Hother & _).
  exists refs'. split; [exact Hred|]. split; [exact Hcopy|].
  apply Hother. discriminate.
Defined.

(** X27. [updateEntity] needs a reference it can read; the action it
    dispatches leaves the reference store and the request-status store as
    they are, and in the entity store it can only change the record filed
    under the reference's type and id. *)
Theorem manual_update_touches_one_record (ref attributes : value) :
  (nullish ref = true → updateEntity ref attributes = Throw TypeError) ∧
  (nullish ref = false →
   ∃ a,
     updateEntity ref attributes = Ok a ∧
     (∀ refs, Refs.refsReducer refs a = Ok refs) ∧
     (∀ now requests, Requests.requestsReducer now requests a = Ok requests) ∧
     (∀ entities entities',
        Entities.entitiesReducer entities a = Ok entities' →
        ∀ t i, (t, i) ≠ (to_str (prop ref "type"), to_str (prop ref "id")) →
          Entities.entity entities' t i = Entities.entity entities t i)).
Proof.
  unfold updateEntity, get_prop. split; [by intros ->|].
  intros ->. cbn [mbind result_bind]. eexists. split; [reflexivity|].
  split; [done|]. split; [done|].
  intros entities entities'. unfold Entities.entitiesReducer, get_prop.
  cbn [atype payload nullish mbind result_bind prop obj_lit foldl fst snd].
  rewrite lookup_insert_ne, lookup_insert_ne, lookup_insert_eq,
    lookup_insert_ne, !lookup_insert_eq by done.
  cbn [default]. unfold id.
  set (t := to_str (prop ref "type")). set (i := to_str (prop ref "id")).
  destruct (entities !! t) as [table|] eqn:Ht.
  - destruct (Entities.record_update table i attributes) as [newEntity|];
      cbn [mbind result_bind]; [|done].
    intros [= <-] t' i' Hne. unfold Entities.entity.
    rewrite lookup_insert. case_decide as Heq; [|done]. subst t'.
    rewrite Ht. cbn [mbind option_bind]. rewrite lookup_insert_ne; [done|].
    by intros <-.
  - destruct (String.eqb t "__proto__"); [|by destruct (inherited t)].
    destruct (Entities.prototype_update i attributes) as [newEntity|];
      cbn [mbind result_bind]; [|done].
    intros [= <-] t' i' Hne. unfold Entities.entity.
    rewrite lookup_insert. case_decide as Heq; [|done]. subst t'.
    rewrite Ht. cbn [mbind option_bind].
    rewrite lookup_insert_ne, lookup_empty; [done|]. by intros <-.
Qed.

Lemma manual_update_one_record_witness :
  ∃ a,
    updateEntity (post "1") (VObj (obj_lit ∅ [("title", VStr "B")])) = Ok a ∧
    Refs.refsReducer sample_refs a = Ok sample_refs.
Proof.
  destruct (manual_update_touches_one_record (post "1")
              (VObj (obj_lit ∅ [("title", VStr "B")]))) as [_ Hok].
  destruct (Hok eq_refl) as (a & Ha & Hrefs & _).
  exists a. split; [exact Ha | apply Hrefs].
Defined.

End StoresMore.
